(** * Eufy X10 debugging coordinator: key decoding and poll aggregation

    A shallow embedding of [coordinator.py], [const.py] and the sensor
    properties of [sensor.py] of the [eufy_x10_debugging] integration,
    together with the small part of the Python runtime they call ([int],
    [bool], [isinstance], [str], [base64.b64decode], dict and list
    access), the properties of the decoding layer stated in the
    specification, and properties of the update cycle and of the sensors
    read off the code.

    Conventions.
    - Python values are the JSON-shaped values a [Dict[str, Any]] payload can
      hold: [None], booleans, integers (unbounded, [Z]), floats (IEEE 754
      values, [spec_float]), strings, lists and dicts.
    - A Python [str] is a [string]; a character is its code point
      ([0..255]).  Code points from 128 up stand for non-ASCII characters.
    - A [dict] is an insertion-ordered association list.
    - The coordinator's methods mutate [self]; they are written in a state
      and exception monad over the coordinator record.
    - [_LOGGER] calls do not change the coordinator and cannot raise (the
      logging module swallows formatting errors), so they are left out; the
      [debug_mode] flag that only guards them is kept in the record. *)

From Stdlib Require Import ZArith List String Ascii Bool Lia Permutation.
From Stdlib Require Import Floats.SpecFloat.
From Stdlib Require DecimalString HexadecimalString DecimalPos DecimalZ.
Import ListNotations.

Local Open Scope string_scope.
Local Open Scope list_scope.
Local Open Scope Z_scope.

(* ================================================================= *)
(** ** The Python runtime used by the coordinator *)

Module Python.

(** JSON-shaped Python values. *)
#[local] Set Warnings "-register-all".
Inductive pyval : Type :=
| VNone
| VBool (b : bool)
| VInt (n : Z)
| VFloat (f : spec_float)
| VStr (s : string)
| VList (items : list pyval)
| VDict (items : list (string * pyval)).

(** Insertion-ordered [dict] with [str] keys. *)
Definition pydict : Type := list (string * pyval).

(** The exception classes that the modelled calls can raise.
    [binascii.Error] is a subclass of [ValueError]. *)
Inductive exn : Type :=
| ValueError
| TypeError
| OverflowError
| KeyError
| IndexError
| BinasciiError.

(** [except cls] clauses: does a handler for class [cls] catch [e]? *)
Inductive exn_class : Type :=
| CException
| CValueError
| CTypeError.

Definition isinstance_exn (e : exn) (cls : exn_class) : bool :=
  match cls, e with
  | CException, _ => true
  | CValueError, (ValueError | BinasciiError) => true
  | CTypeError, TypeError => true
  | _, _ => false
  end.

(** Result of an expression that may raise. *)
Inductive res (A : Type) : Type :=
| Ok (a : A)
| Raise (e : exn).
Arguments Ok {A} a.
Arguments Raise {A} e.

(** *** dict access *)

(** [key in d] *)
Fixpoint dict_contains (key : string) (d : pydict) : bool :=
  match d with
  | [] => false
  | (k, _) :: rest => if String.eqb key k then true else dict_contains key rest
  end.

Fixpoint dict_get (key : string) (d : pydict) : option pyval :=
  match d with
  | [] => None
  | (k, v) :: rest => if String.eqb key k then Some v else dict_get key rest
  end.

(** [d[key]] *)
Definition dict_getitem (d : pydict) (key : string) : res pyval :=
  match dict_get key d with
  | Some v => Ok v
  | None => Raise KeyError
  end.

(** [list(d.keys())] *)
Definition dict_keys (d : pydict) : list string := map fst d.

(** A dict with [int] keys and [str] values ([WORK_STATUS_MAP]). *)
Fixpoint intdict_get (key : Z) (d : list (Z * string)) : option string :=
  match d with
  | [] => None
  | (k, v) :: rest => if key =? k then Some v else intdict_get key rest
  end.

(** [key in d] *)
Definition intdict_contains (key : Z) (d : list (Z * string)) : bool :=
  match intdict_get key d with
  | Some _ => true
  | None => false
  end.

(** [d[key]] *)
Definition intdict_getitem (d : list (Z * string)) (key : Z) : res string :=
  match intdict_get key d with
  | Some v => Ok v
  | None => Raise KeyError
  end.

(** *** list and bytes access *)

(** [len(l)] *)
Definition py_len {A : Type} (l : list A) : Z := Z.of_nat (List.length l).

(** [l[i]]: a negative index counts from the end; out of range is an
    [IndexError]. *)
Definition list_getitem {A : Type} (l : list A) (i : Z) : res A :=
  let j := if i <? 0 then i + py_len l else i in
  if j <? 0 then Raise IndexError
  else
    match nth_error l (Z.to_nat j) with
    | Some x => Ok x
    | None => Raise IndexError
    end.

(** *** isinstance, bool *)

(** [isinstance(v, int)]: [bool] is a subclass of [int]. *)
Definition isinstance_int (v : pyval) : bool :=
  match v with
  | VInt _ | VBool _ => true
  | _ => false
  end.

(** The integer an [int] instance denotes in comparisons, indexing and
    hashing ([True] is [1], [False] is [0]).  Only meaningful when
    [isinstance_int] holds; [0] otherwise. *)
Definition int_value (v : pyval) : Z :=
  match v with
  | VInt n => n
  | VBool true => 1
  | _ => 0
  end.

(** [bool(v)]: truth value testing; it never raises on these values. *)
Definition py_bool (v : pyval) : bool :=
  match v with
  | VNone => false
  | VBool b => b
  | VInt n => negb (n =? 0)
  | VFloat (S754_zero _) => false
  | VFloat _ => true
  | VStr s => negb (String.eqb s "")
  | VList l => match l with [] => false | _ => true end
  | VDict l => match l with [] => false | _ => true end
  end.

(** *** int() *)

Definition ord (c : ascii) : Z := Z.of_N (N_of_ascii c).

(** [Py_ISSPACE]: the C-locale white space. *)
Definition Py_ISSPACE (c : Z) : bool :=
  ((9 <=? c) && (c <=? 13)) || (c =? 32).

(** [Py_UNICODE_ISSPACE] on the non-ASCII code points below 256
    (NEL and NBSP). *)
Definition Py_UNICODE_ISSPACE_high (c : Z) : bool :=
  (c =? 133) || (c =? 160).

Definition is_digit (c : Z) : bool := (48 <=? c) && (c <=? 57).

Definition UNDERSCORE : Z := 95.
Definition QUESTION : Z := 63.
Definition SPACE : Z := 32.

(** [_PyUnicode_TransformDecimalAndSpaceToASCII]: an ASCII string is
    passed through unchanged; otherwise code points below 127 are kept,
    Unicode white space becomes a space and the first other character
    (there is no decimal digit among the code points 127..255) becomes
    ['?'] and ends the buffer. *)
Fixpoint transform_non_ascii (cs : list Z) : list Z :=
  match cs with
  | [] => []
  | c :: rest =>
      if c <? 127 then c :: transform_non_ascii rest
      else if Py_UNICODE_ISSPACE_high c then SPACE :: transform_non_ascii rest
      else [QUESTION]
  end.

Definition transform_decimal_and_space (cs : list Z) : list Z :=
  if forallb (fun c => c <? 128) cs then cs else transform_non_ascii cs.

Fixpoint skip_space (cs : list Z) : list Z :=
  match cs with
  | c :: rest => if Py_ISSPACE c then skip_space rest else cs
  | [] => []
  end.

(** The digit scan of [PyLong_FromString] in base 10: digits with single
    underscores between them.  [prev_us] tells whether the previous
    character was an underscore; the result is the value, the number of
    digits and the unread rest, or [None] on a doubled or trailing
    underscore. *)
Fixpoint scan_digits (cs : list Z) (prev_us : bool) (acc : Z) (digits : nat)
  : option (Z * nat * list Z) :=
  match cs with
  | c :: rest =>
      if is_digit c then scan_digits rest false (acc * 10 + (c - 48)) (S digits)
      else if c =? UNDERSCORE then
        if prev_us then None else scan_digits rest true acc digits
      else if prev_us then None else Some (acc, digits, cs)
  | [] => if prev_us then None else Some (acc, digits, [])
  end.

(** [sys.get_int_max_str_digits()], default value. *)
Definition max_str_digits : nat := 4300.

(** [PyLong_FromString(buffer, &end, 10)] followed by the check that the
    whole buffer was consumed. *)
Definition long_from_string (buf : list Z) : res Z :=
  let s1 := skip_space buf in
  let negative :=
    match s1 with
    | c :: _ => c =? 45
    | [] => false
    end in
  let s2 :=
    match s1 with
    | c :: r => if (c =? 43) || (c =? 45) then r else s1
    | [] => s1
    end in
  let leading_underscore :=
    match s2 with
    | c :: _ => c =? UNDERSCORE
    | [] => false
    end in
  if leading_underscore then Raise ValueError
  else
    match scan_digits s2 false 0 0 with
    | None => Raise ValueError
    | Some (value, digits, rest) =>
        if (max_str_digits <? digits)%nat then Raise ValueError
        else if (digits =? 0)%nat then Raise ValueError
        else
          match skip_space rest with
          | [] => Ok (if negative then - value else value)
          | _ :: _ => Raise ValueError
          end
    end.

Definition codepoints (s : string) : list Z := map ord (list_ascii_of_string s).

(** [int(f)] for a float: truncation toward zero; NaN is a [ValueError],
    an infinity an [OverflowError]. *)
Definition int_of_float (f : spec_float) : res Z :=
  match f with
  | S754_zero _ => Ok 0
  | S754_nan => Raise ValueError
  | S754_infinity _ => Raise OverflowError
  | S754_finite s m e =>
      let magnitude :=
        if 0 <=? e then Z.pos m * 2 ^ e else Z.pos m / 2 ^ (- e) in
      Ok (if s then - magnitude else magnitude)
  end.

(** [int(v)] *)
Definition py_int (v : pyval) : res Z :=
  match v with
  | VInt n => Ok n
  | VBool b => Ok (if b then 1 else 0)
  | VFloat f => int_of_float f
  | VStr s => long_from_string (transform_decimal_and_space (codepoints s))
  | VNone | VList _ | VDict _ => Raise TypeError
  end.

(** *** base64.b64decode *)

Definition BASE64_PAD : Z := 61.

(** [table_a2b_base64]: the value of a base64 digit, 255 ([-1] stored in an
    [unsigned char]) for every other byte. *)
Definition table_a2b_base64 (c : Z) : Z :=
  if (65 <=? c) && (c <=? 90) then c - 65
  else if (97 <=? c) && (c <=? 122) then c - 97 + 26
  else if (48 <=? c) && (c <=? 57) then c - 48 + 52
  else if c =? 43 then 62
  else if c =? 47 then 63
  else 255.

(** Store into an [unsigned char]. *)
Definition u8 (x : Z) : Z := Z.land x 255.

(** The main loop of [binascii.a2b_base64] with [strict_mode] off
    (CPython 3.11 and later).  [out] is the output written so far.  The
    result is the output together with the final [quad_pos], or the output
    alone when a complete pad sequence ended the parse ([goto done]). *)
Fixpoint a2b_loop (data : list Z) (quad_pos : Z) (leftchar : Z) (pads : Z)
  (out : list Z) : list Z * option Z :=
  match data with
  | [] => (out, Some quad_pos)
  | this_ch :: rest =>
      if this_ch =? BASE64_PAD then
        if 2 <=? quad_pos then
          let pads := pads + 1 in
          if 4 <=? quad_pos + pads then (out, None)
          else a2b_loop rest quad_pos leftchar pads out
        else a2b_loop rest quad_pos leftchar pads out
      else
        let this_ch := table_a2b_base64 this_ch in
        if 64 <=? this_ch then a2b_loop rest quad_pos leftchar pads out
        else
          if quad_pos =? 0 then
            a2b_loop rest 1 this_ch 0 out
          else if quad_pos =? 1 then
            a2b_loop rest 2 (Z.land this_ch 15) 0
              (out ++ [u8 (Z.lor (Z.shiftl leftchar 2) (Z.shiftr this_ch 4))])
          else if quad_pos =? 2 then
            a2b_loop rest 3 (Z.land this_ch 3) 0
              (out ++ [u8 (Z.lor (Z.shiftl leftchar 4) (Z.shiftr this_ch 2))])
          else
            a2b_loop rest 0 0 0
              (out ++ [u8 (Z.lor (Z.shiftl leftchar 6) this_ch)])
  end.

(** [binascii.a2b_base64(data)]: a parse that stops in the middle of a
    quad raises [binascii.Error]. *)
Definition a2b_base64 (data : list Z) : res (list Z) :=
  match a2b_loop data 0 0 0 [] with
  | (out, None) => Ok out
  | (out, Some quad_pos) =>
      if quad_pos =? 0 then Ok out else Raise BinasciiError
  end.

(** [base64.b64decode(s)] for a [str] argument with the default
    [validate=False]: [s.encode('ascii')] (a [ValueError] on a non-ASCII
    character), then [a2b_base64].  The result is a [bytes] object, a list
    of integers in [0..255]. *)
Definition b64decode (s : string) : res (list Z) :=
  let data := codepoints s in
  if forallb (fun c => c <? 128) data then a2b_base64 data
  else Raise ValueError.

(** *** base64.b64encode

    The coordinator never encodes; the encoder says what "the base64
    encoding of a byte sequence" is (RFC 4648, section 4: three bytes
    become four digits, a final group of one or two bytes is padded). *)

Definition table_b2a_base64 : list Z :=
  codepoints "ABCDEFGHIJKLMNOPQRSTUVWXYZabcdefghijklmnopqrstuvwxyz0123456789+/".

Definition b2a (i : Z) : Z := nth (Z.to_nat i) table_b2a_base64 0.

Fixpoint b2a_base64 (bin_data : list Z) : list Z :=
  match bin_data with
  | [] => []
  | [a] =>
      [ b2a (Z.shiftr a 2);
        b2a (Z.shiftl (Z.land a 3) 4);
        BASE64_PAD; BASE64_PAD ]
  | [a; b] =>
      [ b2a (Z.shiftr a 2);
        b2a (Z.lor (Z.shiftl (Z.land a 3) 4) (Z.shiftr b 4));
        b2a (Z.shiftl (Z.land b 15) 2);
        BASE64_PAD ]
  | a :: b :: c :: rest =>
      b2a (Z.shiftr a 2)
      :: b2a (Z.lor (Z.shiftl (Z.land a 3) 4) (Z.shiftr b 4))
      :: b2a (Z.lor (Z.shiftl (Z.land b 15) 2) (Z.shiftr c 6))
      :: b2a (Z.land c 63)
      :: b2a_base64 rest
  end.

Definition chr (c : Z) : ascii := ascii_of_N (Z.to_N c).

(** [base64.b64encode(bytes).decode()] *)
Definition b64encode (bin_data : list Z) : string :=
  string_of_list_ascii (map chr (b2a_base64 bin_data)).

(** *** str(), format(), slices and dict updates *)

(** [str(n)] and [f"{n}"] for an [int]. *)
Definition py_str_int (n : Z) : string :=
  DecimalString.NilZero.string_of_int (Z.to_int n).

(** [f"{n:02x}"]: lower-case hexadecimal, padded with zeros to a width of
    two; a minus sign counts for the width. *)
Definition format_02x (n : Z) : string :=
  let digits :=
    HexadecimalString.NilZero.string_of_uint (N.to_hex_uint (Z.abs_N n)) in
  if n <? 0 then String "-" digits
  else if (String.length digits <? 2)%nat then String "0" digits
  else digits.

(** [s[:n]] *)
Definition str_prefix (n : nat) (s : string) : string := substring 0 n s.

(** [len(s)] for a [str] *)
Definition str_len (s : string) : Z := Z.of_nat (String.length s).

(** [d.get(key)]: [None] when the key is missing. *)
Definition dict_get_default (key : string) (d : pydict) : pyval :=
  match dict_get key d with
  | Some v => v
  | None => VNone
  end.

(** [d[key] = v] on an insertion-ordered dict: an existing key keeps its
    place, a new key goes to the end. *)
Fixpoint setitem {V : Type} (d : list (string * V)) (key : string) (v : V)
  : list (string * V) :=
  match d with
  | [] => [(key, v)]
  | (k, w) :: rest =>
      if String.eqb key k then (k, v) :: rest
      else (k, w) :: setitem rest key v
  end.

(** [d.get(key)] for a dict with any values. *)
Fixpoint lookup {V : Type} (key : string) (d : list (string * V)) : option V :=
  match d with
  | [] => None
  | (k, v) :: rest => if String.eqb key k then Some v else lookup key rest
  end.

(** [list(enumerate(l))], counting from [start]. *)
Fixpoint enumerate_from {A : Type} (start : Z) (l : list A) : list (Z * A) :=
  match l with
  | [] => []
  | x :: rest => (start, x) :: enumerate_from (start + 1) rest
  end.

End Python.

(* ================================================================= *)
(** ** const.py *)

Module Const.

(** Data keys we want to monitor. *)
Definition MONITORED_KEYS : list string :=
  [ "163"; "167"; "177"; "178"; "168"; "153";
    "152"; "158"; "154"; "155"; "160"; "173" ].

(** Clean speed mappings. *)
Definition CLEAN_SPEED_NAMES : list string :=
  [ "quiet"; "standard"; "turbo"; "max" ].

(** Work status mappings. *)
Definition WORK_STATUS_MAP : list (Z * string) :=
  [ (0, "standby"); (1, "sleep"); (2, "fault"); (3, "charging");
    (4, "fast_mapping"); (5, "cleaning"); (6, "remote_ctrl");
    (7, "go_home"); (8, "cruising") ].

End Const.

(* ================================================================= *)
(** ** coordinator.py *)

Module Coordinator.
Import Python Const.

(** The dict built by [_process_data] has a fixed set of keys; it is a
    record with one field per key.  A field that holds Python's [None] is
    [None] here. *)
Record ParsedData : Type := mkParsedData {
  pd_device_id : string;
  battery : option Z;
  water_tank : option Z;
  clean_speed : option string;
  work_status : option string;
  play_pause : option bool;
  raw_keys : list string;
  monitored_keys_found : list string;
  monitored_keys_missing : list string;
  pd_last_update : spec_float;
  pd_update_count : Z
}.

(** The attributes of [EufyX10DebugCoordinator] read or written by the
    processing methods. *)
Record EufyX10DebugCoordinator : Type := mkCoordinator {
  device_id : string;
  debug_mode : bool;
  raw_data : pydict;
  parsed_data : ParsedData;
  last_update : option spec_float;
  update_count : Z
}.

(** *** State and exception monad over [self] *)

Definition M (A : Type) : Type :=
  EufyX10DebugCoordinator -> res A * EufyX10DebugCoordinator.

Definition ret {A : Type} (a : A) : M A := fun self => (Ok a, self).

Definition bind {A B : Type} (m : M A) (k : A -> M B) : M B :=
  fun self =>
    match m self with
    | (Ok a, self') => k a self'
    | (Raise e, self') => (Raise e, self')
    end.

Definition get_self : M EufyX10DebugCoordinator := fun self => (Ok self, self).

(** An expression of the runtime evaluated for its value or exception. *)
Definition lift {A : Type} (r : res A) : M A := fun self => (r, self).

(** [try: body  except (classes): pass] (the handlers of the coordinator
    only log). *)
Definition try_except (body : M unit) (classes : list exn_class) : M unit :=
  fun self =>
    match body self with
    | (Raise e, self') =>
        if existsb (isinstance_exn e) classes then (Ok tt, self')
        else (Raise e, self')
    | r => r
    end.

Declare Scope py_scope.
Delimit Scope py_scope with py.
Notation "x <- m ;; k" := (bind m (fun x => k))
  (at level 61, m at next level, right associativity) : py_scope.
Notation "m ;; k" := (bind m (fun _ => k))
  (at level 61, right associativity) : py_scope.
Local Open Scope py_scope.

(** [for x in l: body(x)] *)
Fixpoint for_each {A : Type} (l : list A) (body : A -> M unit) : M unit :=
  match l with
  | [] => ret tt
  | x :: rest => body x ;; for_each rest body
  end.

(** *** Assignments to [self.parsed_data] *)

(** [self] after [self.parsed_data = f(self.parsed_data)]. *)
Definition assign (f : ParsedData -> ParsedData)
  (self : EufyX10DebugCoordinator) : EufyX10DebugCoordinator :=
  mkCoordinator (device_id self) (debug_mode self) (raw_data self)
    (f (parsed_data self)) (last_update self) (update_count self).

Definition set_parsed_data (pd : ParsedData) : M unit :=
  fun self => (Ok tt, assign (fun _ => pd) self).

Definition update_parsed_data (f : ParsedData -> ParsedData) : M unit :=
  fun self => (Ok tt, assign f self).

Definition with_battery (v : option Z) (pd : ParsedData) : ParsedData :=
  mkParsedData (pd_device_id pd) v (water_tank pd) (clean_speed pd)
    (work_status pd) (play_pause pd) (raw_keys pd) (monitored_keys_found pd)
    (monitored_keys_missing pd) (pd_last_update pd) (pd_update_count pd).

Definition with_water_tank (v : option Z) (pd : ParsedData) : ParsedData :=
  mkParsedData (pd_device_id pd) (battery pd) v (clean_speed pd)
    (work_status pd) (play_pause pd) (raw_keys pd) (monitored_keys_found pd)
    (monitored_keys_missing pd) (pd_last_update pd) (pd_update_count pd).

Definition with_clean_speed (v : option string) (pd : ParsedData) : ParsedData :=
  mkParsedData (pd_device_id pd) (battery pd) (water_tank pd) v
    (work_status pd) (play_pause pd) (raw_keys pd) (monitored_keys_found pd)
    (monitored_keys_missing pd) (pd_last_update pd) (pd_update_count pd).

Definition with_work_status (v : option string) (pd : ParsedData) : ParsedData :=
  mkParsedData (pd_device_id pd) (battery pd) (water_tank pd) (clean_speed pd)
    v (play_pause pd) (raw_keys pd) (monitored_keys_found pd)
    (monitored_keys_missing pd) (pd_last_update pd) (pd_update_count pd).

Definition with_play_pause (v : option bool) (pd : ParsedData) : ParsedData :=
  mkParsedData (pd_device_id pd) (battery pd) (water_tank pd) (clean_speed pd)
    (work_status pd) v (raw_keys pd) (monitored_keys_found pd)
    (monitored_keys_missing pd) (pd_last_update pd) (pd_update_count pd).

(** [self.parsed_data["monitored_keys_found"].append(key)] *)
Definition append_found (key : string) (pd : ParsedData) : ParsedData :=
  mkParsedData (pd_device_id pd) (battery pd) (water_tank pd) (clean_speed pd)
    (work_status pd) (play_pause pd) (raw_keys pd)
    (monitored_keys_found pd ++ [key])
    (monitored_keys_missing pd) (pd_last_update pd) (pd_update_count pd).

(** [self.parsed_data["monitored_keys_missing"].append(key)] *)
Definition append_missing (key : string) (pd : ParsedData) : ParsedData :=
  mkParsedData (pd_device_id pd) (battery pd) (water_tank pd) (clean_speed pd)
    (work_status pd) (play_pause pd) (raw_keys pd) (monitored_keys_found pd)
    (monitored_keys_missing pd ++ [key])
    (pd_last_update pd) (pd_update_count pd).

(** *** The processing methods *)

(** Process battery data from Key 163. *)
Definition _process_battery : M unit :=
  self <- get_self ;;
  if negb (dict_contains "163" (raw_data self)) then ret tt
  else
    try_except
      (raw <- lift (dict_getitem (raw_data self) "163") ;;
       battery <- lift (py_int raw) ;;
       update_parsed_data (with_battery (Some (Z.max 0 (Z.min 100 battery)))))
      [CValueError; CTypeError].

(** Process water tank data from Key 167, Byte 4.

    [int((raw_value * 100) / 255)] divides in floating point and truncates.
    [raw_value] is a byte, so the exact quotient is either an integer or at
    least 5/255 away from one (lemma [byte_scale_gap]); the correctly
    rounded double has the same integer part, which is the integer
    quotient used here. *)
Definition _process_water_tank : M unit :=
  self <- get_self ;;
  if negb (dict_contains "167" (raw_data self)) then ret tt
  else
    try_except
      (base64_data <- lift (dict_getitem (raw_data self) "167") ;;
       match base64_data with
       | VStr s =>
           binary_data <- lift (b64decode s) ;;
           if 4 <? py_len binary_data then
             raw_value <- lift (list_getitem binary_data 4) ;;
             let water_pct := Z.min 100 (raw_value * 100 / 255) in
             update_parsed_data (with_water_tank (Some water_pct))
           else ret tt
       | _ => ret tt
       end)
      [CException].

(** Process clean speed from Key 158. *)
Definition _process_clean_speed : M unit :=
  self <- get_self ;;
  if negb (dict_contains "158" (raw_data self)) then ret tt
  else
    try_except
      (speed_raw <- lift (dict_getitem (raw_data self) "158") ;;
       if isinstance_int speed_raw
          && (0 <=? int_value speed_raw)
          && (int_value speed_raw <? py_len CLEAN_SPEED_NAMES)
       then
         speed_name <- lift (list_getitem CLEAN_SPEED_NAMES (int_value speed_raw)) ;;
         update_parsed_data (with_clean_speed (Some speed_name))
       else ret tt)
      [CException].

(** Process work status from Key 153. *)
Definition _process_work_status : M unit :=
  self <- get_self ;;
  if negb (dict_contains "153" (raw_data self)) then ret tt
  else
    try_except
      (status_raw <- lift (dict_getitem (raw_data self) "153") ;;
       if isinstance_int status_raw
          && intdict_contains (int_value status_raw) WORK_STATUS_MAP
       then
         status_name <- lift (intdict_getitem WORK_STATUS_MAP (int_value status_raw)) ;;
         update_parsed_data (with_work_status (Some status_name))
       else ret tt)
      [CException].

(** Process play/pause state from Key 152. *)
Definition _process_play_pause : M unit :=
  self <- get_self ;;
  if negb (dict_contains "152" (raw_data self)) then ret tt
  else
    try_except
      (raw <- lift (dict_getitem (raw_data self) "152") ;;
       update_parsed_data (with_play_pause (Some (py_bool raw))))
      [CException].

(** Process the raw data and extract useful information.  [now] is the
    value [time.time()] returns in this cycle. *)
Definition _process_data (now : spec_float) : M unit :=
  self <- get_self ;;
  set_parsed_data
    {| pd_device_id := device_id self;
       battery := None;
       water_tank := None;
       clean_speed := None;
       work_status := None;
       play_pause := None;
       raw_keys := dict_keys (raw_data self);
       monitored_keys_found := [];
       monitored_keys_missing := [];
       pd_last_update := now;
       pd_update_count := update_count self |} ;;
  for_each MONITORED_KEYS
    (fun key =>
       self <- get_self ;;
       if dict_contains key (raw_data self)
       then update_parsed_data (append_found key)
       else update_parsed_data (append_missing key)) ;;
  _process_battery ;;
  _process_water_tank ;;
  _process_clean_speed ;;
  _process_work_status ;;
  _process_play_pause.

(** *** Coordinators to run the methods on *)

(** [self.parsed_data] as [__init__] leaves it (the empty dict: no field
    holds a value). *)
Definition empty_parsed_data : ParsedData :=
  mkParsedData "" None None None None None [] [] [] (S754_zero false) 0.

(** The coordinator after [__init__] and the assignment
    [self.raw_data = raw] of the fetch step. *)
Definition coordinator_with (raw : pydict) : EufyX10DebugCoordinator :=
  mkCoordinator "X10" true raw empty_parsed_data None 0.

(** *** The update cycle *)

(** [self] after [self.raw_data = raw]. *)
Definition with_raw_data (raw : pydict)
  (self : EufyX10DebugCoordinator) : EufyX10DebugCoordinator :=
  mkCoordinator (device_id self) (debug_mode self) raw (parsed_data self)
    (last_update self) (update_count self).

(** Mock function to fetch data.  [clock] is the value of
    [int(time.time())]; [battery_draw] and [speed_draw] are the numbers
    that [random.randint(80, 95)] and [random.randint(0, 3)] return. *)
Definition _fetch_eufy_data (clock battery_draw speed_draw : Z) : M unit :=
  fun self =>
    let mock_data : pydict :=
      [ ("163", VInt 85);
        ("167", VStr "PAo6CgUIABC4AhgEGFRKJw==");
        ("177", VStr "MgowCAEQABgEGlVKFw==");
        ("178", VStr "OAo2CAEQABgEGlVlIw==");
        ("168", VStr "QWNjZXNzb3JpZXMgZGF0YSBoZXJl");
        ("153", VInt 5);
        ("152", VBool true);
        ("158", VInt 2);
        ("154", VStr "Q2xlYW5pbmcgcGFyYW1ldGVycw==");
        ("155", VStr "RGlyZWN0aW9uIGRhdGE=");
        ("160", VBool false);
        ("173", VStr "R28gaG9tZSBkYXRh");
        ("timestamp", VInt clock) ] in
    let mock_data := setitem mock_data "163" (VInt battery_draw) in
    let mock_data := setitem mock_data "158" (VInt speed_draw) in
    (Ok tt, with_raw_data mock_data self).

(** [UpdateFailed(f"Error communicating with API: {err}")] *)
Inductive UpdateFailed : Type :=
| mkUpdateFailed (err : exn).

(** Fetch data from Eufy API.  The method [self._fetch_eufy_data] is
    looked up on [self] when it is called and its docstring asks for it to
    be replaced, so it is the parameter [fetch]; the class as it stands
    runs with [_fetch_eufy_data].  [now] is the [time.time()] of
    [_process_data], [now'] the one stored in [self.last_update].  Every
    exception of the body is an [Exception] and leaves as
    [UpdateFailed]. *)
Definition _async_update_data (fetch : M unit) (now now' : spec_float)
  (self : EufyX10DebugCoordinator)
  : (ParsedData + UpdateFailed) * EufyX10DebugCoordinator :=
  let self :=
    mkCoordinator (device_id self) (debug_mode self) (raw_data self)
      (parsed_data self) (last_update self) (update_count self + 1) in
  match (fetch ;; _process_data now) self with
  | (Ok _, self) =>
      let self :=
        mkCoordinator (device_id self) (debug_mode self) (raw_data self)
          (parsed_data self) (Some now') (update_count self) in
      (inl (parsed_data self), self)
  | (Raise err, self) => (inr (mkUpdateFailed err), self)
  end.

End Coordinator.

(* ================================================================= *)
(** ** sensor.py

    A sensor reads [self.coordinator.data], the snapshot that the last
    successful update returned, and [self.coordinator.raw_data]; these are
    the arguments [data] and [raw_data] of its properties.  The attributes
    of [EufyX10DebugMonitoringSensor] hold a rounded float
    ([coverage_percentage]) and are not modelled. *)

Module Sensor.
Import Python Const Coordinator.

(** The values of an attribute dict: a Python value of the sample kind,
    or a dict with [int] keys (the two mapping tables). *)
Inductive attr_value : Type :=
| APy (v : pyval)
| AIntDict (d : list (Z * string)).

Definition attributes : Type := list (string * attr_value).

Module EufyX10DebugBatterySensor.

(** Return the battery level. *)
Definition native_value (data : ParsedData) : option Z := battery data.

(** Return additional attributes. *)
Definition extra_state_attributes (data : ParsedData) (raw_data : pydict)
  : attributes :=
  let raw_163 := dict_get_default "163" raw_data in
  let attrs : attributes :=
    [ ("raw_key_163", APy raw_163);
      ("data_source", APy (VStr "Key 163 (NEW Android App)"));
      ("accuracy", APy (VStr "100% (Perfect match)"));
      ("last_update", APy (VFloat (pd_last_update data)));
      ("update_count", APy (VInt (pd_update_count data))) ] in
  match battery data with
  | Some battery =>
      if battery <=? 10 then
        setitem attrs "battery_status" (APy (VStr "critical"))
      else if battery <=? 20 then
        setitem attrs "battery_status" (APy (VStr "low"))
      else if battery <=? 50 then
        setitem attrs "battery_status" (APy (VStr "medium"))
      else
        setitem attrs "battery_status" (APy (VStr "high"))
  | None => attrs
  end.

End EufyX10DebugBatterySensor.

Module EufyX10DebugWaterTankSensor.

(** Return the water tank level. *)
Definition native_value (data : ParsedData) : option Z := water_tank data.

(** The two strings [byte_4_info] and [byte_4_hex] that
    [extra_state_attributes] computes from key 167. *)
Definition byte_4 (raw_167 : pyval) : string * string :=
  match raw_167 with
  | VStr s =>
      if py_bool raw_167 then
        match b64decode s with
        | Ok binary_data =>
            if 4 <? py_len binary_data then
              match list_getitem binary_data 4 with
              | Ok b => (py_str_int b, String.append "0x" (format_02x b))
              | Raise _ => ("N/A", "N/A")
              end
            else ("N/A", "N/A")
        | Raise _ => ("N/A", "N/A")
        end
      else ("N/A", "N/A")
  | _ => ("N/A", "N/A")
  end.

(** Return additional attributes. *)
Definition extra_state_attributes (data : ParsedData) (raw_data : pydict)
  : attributes :=
  let raw_167 := dict_get_default "167" raw_data in
  let raw_177 := dict_get_default "177" raw_data in
  let '(byte_4_info, byte_4_hex) := byte_4 raw_167 in
  let attrs : attributes :=
    [ ("raw_key_167", APy raw_167);
      ("raw_key_177", APy raw_177);
      ("byte_4_decimal", APy (VStr byte_4_info));
      ("byte_4_hex", APy (VStr byte_4_hex));
      ("data_source", APy (VStr "Key 167 Byte 4 (NEW Android App)"));
      ("accuracy", APy (VStr "82% (Close match to real 83%)"));
      ("calculation_method", APy (VStr "Scale 255->100"));
      ("last_update", APy (VFloat (pd_last_update data)));
      ("update_count", APy (VInt (pd_update_count data))) ] in
  match water_tank data with
  | Some water =>
      if water <=? 10 then
        setitem attrs "tank_status" (APy (VStr "empty"))
      else if water <=? 30 then
        setitem attrs "tank_status" (APy (VStr "low"))
      else if water <=? 70 then
        setitem attrs "tank_status" (APy (VStr "medium"))
      else
        setitem attrs "tank_status" (APy (VStr "full"))
  | None => attrs
  end.

End EufyX10DebugWaterTankSensor.

Module EufyX10DebugCleanSpeedSensor.

(** Return the clean speed. *)
Definition native_value (data : ParsedData) : option string := clean_speed data.

(** Return additional attributes. *)
Definition extra_state_attributes (data : ParsedData) (raw_data : pydict)
  : attributes :=
  let raw_158 := dict_get_default "158" raw_data in
  [ ("raw_key_158", APy raw_158);
    ("available_speeds", APy (VList (map VStr CLEAN_SPEED_NAMES)));
    ("speed_mapping", AIntDict (enumerate_from 0 CLEAN_SPEED_NAMES));
    ("data_source", APy (VStr "Key 158"));
    ("last_update", APy (VFloat (pd_last_update data)));
    ("update_count", APy (VInt (pd_update_count data))) ].

End EufyX10DebugCleanSpeedSensor.

Module EufyX10DebugWorkStatusSensor.

(** Return the work status. *)
Definition native_value (data : ParsedData) : option string := work_status data.

(** Return additional attributes. *)
Definition extra_state_attributes (data : ParsedData) (raw_data : pydict)
  : attributes :=
  let raw_153 := dict_get_default "153" raw_data in
  let play_pause := play_pause data in
  [ ("raw_key_153", APy raw_153);
    ("raw_key_152_play_pause", APy (dict_get_default "152" raw_data));
    ("play_pause_state",
     APy (VStr match play_pause with
               | Some true => "Playing"
               | Some false => "Paused"
               | None => "Unknown"
               end));
    ("status_mapping", AIntDict WORK_STATUS_MAP);
    ("data_source", APy (VStr "Key 153 (Work Status), Key 152 (Play/Pause)"));
    ("last_update", APy (VFloat (pd_last_update data)));
    ("update_count", APy (VInt (pd_update_count data))) ].

End EufyX10DebugWorkStatusSensor.

Module EufyX10DebugRawDataSensor.

(** Return the number of raw data keys. *)
Definition native_value (raw_data : pydict) : string :=
  py_str_int (py_len raw_data).

(** One turn of the loop over the first items of the sample. *)
Definition add_raw_item (attrs : attributes) (item : string * pyval)
  : attributes :=
  let '(key, value) := item in
  match value with
  | VStr s =>
      if 20 <? str_len s then
        setitem attrs (String.append "raw_" (String.append key "_preview"))
          (APy (VStr (String.append (str_prefix 15 s) "...")))
      else setitem attrs (String.append "raw_" key) (APy value)
  | _ => setitem attrs (String.append "raw_" key) (APy value)
  end.

(** Return all raw data as attributes. *)
Definition extra_state_attributes (data : ParsedData) (raw_data : pydict)
  : attributes :=
  let attrs : attributes :=
    [ ("total_keys", APy (VInt (py_len raw_data)));
      ("raw_data_keys", APy (VList (map VStr (dict_keys raw_data))));
      ("last_update", APy (VFloat (pd_last_update data)));
      ("update_count", APy (VInt (pd_update_count data))) ] in
  fold_left add_raw_item (firstn 20 raw_data) attrs.

End EufyX10DebugRawDataSensor.

Module EufyX10DebugMonitoringSensor.

(** Return monitoring summary. *)
Definition native_value (data : ParsedData) : string :=
  let found := py_len (monitored_keys_found data) in
  let total := py_len MONITORED_KEYS in
  String.append (py_str_int found) (String.append "/" (py_str_int total)).

End EufyX10DebugMonitoringSensor.

End Sensor.

(* ================================================================= *)
(** ** Vocabulary of the statements *)

Import Python Const Coordinator Sensor.

(** [l1] is [l2] with some elements left out, the others in the same
    order. *)
Inductive subsequence {A : Type} : list A -> list A -> Prop :=
| subseq_nil : subsequence [] []
| subseq_skip : forall x l1 l2, subsequence l1 l2 -> subsequence l1 (x :: l2)
| subseq_keep : forall x l1 l2, subsequence l1 l2 -> subsequence (x :: l1) (x :: l2).

(** A [bytes] object holds integers in [0..255]. *)
Definition is_bytes (bs : list Z) : Prop := Forall (fun b => 0 <= b <= 255) bs.

(** Every percentage held by a snapshot lies in [0..100]. *)
Definition percentages_in_range (pd : ParsedData) : Prop :=
  (forall b, battery pd = Some b -> 0 <= b <= 100) /\
  (forall w, water_tank pd = Some w -> 0 <= w <= 100).

(** Two snapshots agree on the five decoded fields and on both key
    lists (the time stamp aside). *)
Definition same_fields (pd1 pd2 : ParsedData) : Prop :=
  battery pd1 = battery pd2 /\
  water_tank pd1 = water_tank pd2 /\
  clean_speed pd1 = clean_speed pd2 /\
  work_status pd1 = work_status pd2 /\
  play_pause pd1 = play_pause pd2 /\
  monitored_keys_found pd1 = monitored_keys_found pd2 /\
  monitored_keys_missing pd1 = monitored_keys_missing pd2.

(** Two coordinators hold the same sample and snapshots that agree. *)
Definition same_cycle (s1 s2 : EufyX10DebugCoordinator) : Prop :=
  raw_data s1 = raw_data s2 /\ same_fields (parsed_data s1) (parsed_data s2).

(** The sample of the end-to-end scenario: exactly the keys 163, 158,
    153, 152 and 167, the last one holding the base64 encoding of the five
    bytes 0, 0, 0, 0, 210. *)
Definition scenario_sample : pydict :=
  [ ("163", VInt 85); ("158", VInt 2); ("153", VInt 5); ("152", VBool true);
    ("167", VStr (b64encode [0; 0; 0; 0; 210])) ].

(** The same sample with a float infinity as battery reading: a sample
    that a fetch written for the coordinator may store, though no
    RawSample (a float is not one of its values). *)
Definition overflow_sample : pydict :=
  [ ("163", VFloat (S754_infinity false)); ("158", VInt 2); ("153", VInt 5);
    ("152", VBool true); ("167", VStr (b64encode [0; 0; 0; 0; 210])) ].

(** Two coordinators hold the same value (or none) under [key] and the
    same value in one field of their snapshots. *)
Definition agree_on {T : Type} (key : string) (field : ParsedData -> T)
  (s1 s2 : EufyX10DebugCoordinator) : Prop :=
  dict_get key (raw_data s1) = dict_get key (raw_data s2) /\
  field (parsed_data s1) = field (parsed_data s2).

(** A method keeps an invariant of the coordinator, whether it returns or
    raises. *)
Definition preserves (P : EufyX10DebugCoordinator -> Prop) (m : M unit) : Prop :=
  forall self, P self -> P (snd (m self)).

(** A method run on two coordinators that agree ends the same way on
    both and leaves them in agreement. *)
Definition deterministic (m : M unit) : Prop :=
  forall s1 s2, same_cycle s1 s2 ->
    fst (m s1) = fst (m s2) /\ same_cycle (snd (m s1)) (snd (m s2)).

(** The number that decimal digits denote when read after the number
    [acc]. *)
Fixpoint uint_value (d : Decimal.uint) (acc : Z) : Z :=
  match d with
  | Decimal.Nil => acc
  | Decimal.D0 d => uint_value d (acc * 10 + 0)
  | Decimal.D1 d => uint_value d (acc * 10 + 1)
  | Decimal.D2 d => uint_value d (acc * 10 + 2)
  | Decimal.D3 d => uint_value d (acc * 10 + 3)
  | Decimal.D4 d => uint_value d (acc * 10 + 4)
  | Decimal.D5 d => uint_value d (acc * 10 + 5)
  | Decimal.D6 d => uint_value d (acc * 10 + 6)
  | Decimal.D7 d => uint_value d (acc * 10 + 7)
  | Decimal.D8 d => uint_value d (acc * 10 + 8)
  | Decimal.D9 d => uint_value d (acc * 10 + 9)
  end.

(** The characters that [a2b_base64] looks at: the 64 digits and the
    pad. *)
Definition is_base64_char (c : Z) : bool :=
  (c =? BASE64_PAD) || (table_a2b_base64 c <? 64).

(** A string without the characters that are neither digits nor pads
    (line breaks, blanks, punctuation). *)
Definition strip_noise (s : string) : string :=
  string_of_list_ascii
    (filter (fun a => is_base64_char (ord a)) (list_ascii_of_string s)).

(** An ASCII string: every code point is below 128. *)
Definition is_ascii (s : string) : bool :=
  forallb (fun c => c <? 128) (codepoints s).

(** The white space that [int] strips from text: the C-locale white
    space and, of the code points from 128 up, NEL and NBSP. *)
Definition is_int_space (c : Z) : bool :=
  Py_ISSPACE c || Py_UNICODE_ISSPACE_high c.

(** The characters an integer literal in base 10 can hold: white space,
    a sign, digits and underscores. *)
Definition is_int_char (c : Z) : bool :=
  is_int_space c || is_digit c || (c =? UNDERSCORE) || (c =? 43) || (c =? 45).

(** What [_PyUnicode_TransformDecimalAndSpaceToASCII] makes of a white
    space or ASCII character. *)
Definition to_ascii_space (c : Z) : Z := if c <? 127 then c else SPACE.

(** Well-formed base64 (RFC 4648, section 4): the encoding of a byte
    sequence.  Every other string is malformed. *)
Definition well_formed_base64 (s : string) : Prop :=
  exists bs, is_bytes bs /\ s = b64encode bs.

(** The base64 digits of a string, in order. *)
Definition base64_digits (s : string) : list Z :=
  filter (fun c => table_a2b_base64 c <? 64) (codepoints s).

(** The values of a RawSample: an integer, a boolean, a string (the
    base64 text) or absent ([None]). *)
Definition is_raw_sample_value (v : pyval) : bool :=
  match v with
  | VNone | VBool _ | VInt _ | VStr _ => true
  | VFloat _ | VList _ | VDict _ => false
  end.

Definition is_raw_sample (raw : pydict) : bool :=
  forallb (fun item => is_raw_sample_value (snd item)) raw.

(** The inputs of one update with the mock fetch: the clock reading and
    the two random draws of [_fetch_eufy_data], and the two time stamps of
    [_async_update_data]. *)
Record tick : Type := mkTick {
  tick_clock : Z;
  tick_battery : Z;
  tick_speed : Z;
  tick_now : spec_float;
  tick_now' : spec_float
}.

Definition update_with (t : tick) (self : EufyX10DebugCoordinator)
  : (ParsedData + UpdateFailed) * EufyX10DebugCoordinator :=
  _async_update_data
    (_fetch_eufy_data (tick_clock t) (tick_battery t) (tick_speed t))
    (tick_now t) (tick_now' t) self.

(** The coordinator after one update per tick. *)
Fixpoint run_updates (self : EufyX10DebugCoordinator) (ticks : list tick)
  : EufyX10DebugCoordinator :=
  match ticks with
  | [] => self
  | t :: rest => run_updates (snd (update_with t self)) rest
  end.

(** The draws of a tick are numbers that [random.randint(80, 95)] and
    [random.randint(0, 3)] can return. *)
Definition valid_tick (t : tick) : Prop :=
  80 <= tick_battery t <= 95 /\ 0 <= tick_speed t <= 3.

(** One step of the loop over [MONITORED_KEYS], and the five decoders in
    the order [_process_data] calls them. *)
Local Notation "'classify' raw" :=
  (fun pd key =>
     if dict_contains key raw then append_found key pd
     else append_missing key pd) (at level 10, raw at level 9).

Local Notation "'decoders'" :=
  (_process_battery ;; _process_water_tank ;; _process_clean_speed ;;
   _process_work_status ;; _process_play_pause)%py.

(** Runs a decoder on two coordinators that agree on a key and a field,
    through its equation [eq], and compares the outcomes branch by
    branch. *)
Ltac agree_step eq :=
  let s1 := fresh "s1" in
  let s2 := fresh "s2" in
  let Hk := fresh "Hk" in
  let Hx := fresh "Hx" in
  intros s1 s2 [Hk Hx]; unfold agree_on;
  rewrite !eq; try rewrite Hk;
  repeat match goal with
         | |- context [match ?x with _ => _ end] => destruct x eqn:?
         end;
  simpl; split; solve [assumption | congruence].

(** Closes the goals of the [deterministic] lemmas once both runs have
    taken the same branch. *)
Ltac same_cycle_step :=
  simpl; split;
  [ reflexivity
  | split;
    [ simpl; assumption
    | unfold same_fields in *; simpl; intuition congruence ] ].

(* ================================================================= *)
(** ** Properties of the runtime model *)

(** *** dict access *)

Lemma dict_get_contains key d v :
  dict_get key d = Some v -> dict_contains key d = true.
Proof.
  induction d as [|[k w] d IH]; simpl; [discriminate|].
  destruct (String.eqb key k); auto.
Qed.

Lemma dict_get_None_contains key d :
  dict_get key d = None -> dict_contains key d = false.
Proof.
  induction d as [|[k w] d IH]; simpl; [reflexivity|].
  destruct (String.eqb key k); [discriminate|auto].
Qed.

Lemma dict_get_raw_sample key raw v :
  is_raw_sample raw = true -> dict_get key raw = Some v ->
  is_raw_sample_value v = true.
Proof.
  unfold is_raw_sample. induction raw as [|[k w] raw IH]; cbn [dict_get forallb];
    [discriminate|].
  intros H. apply andb_prop in H as [Hw H].
  destruct (String.eqb key k); [intros [= <-]; exact Hw|exact (IH H)].
Qed.

(** *** int() *)

(** A string conversion fails with [ValueError] only. *)
Lemma long_from_string_raises buf e :
  long_from_string buf = Raise e -> e = ValueError.
Proof.
  unfold long_from_string. cbv zeta.
  repeat match goal with
         | |- context [if ?b then _ else _] => destruct b
         | |- context [match ?x with _ => _ end] => destruct x
         end; intros H; congruence.
Qed.

(** The only conversion failure that is neither a [ValueError] nor a
    [TypeError] is the [OverflowError] of an infinite float. *)
Lemma py_int_raises v e :
  py_int v = Raise e ->
  e = ValueError \/ e = TypeError \/
  (e = OverflowError /\ exists sgn, v = VFloat (S754_infinity sgn)).
Proof.
  destruct v as [ |b|n|f|s|l|d]; simpl; intros H; try discriminate.
  - inversion H; auto.
  - destruct f; simpl in H; try discriminate.
    + inversion H; subst. right; right; eauto.
    + inversion H; auto.
  - left. eapply long_from_string_raises; eauto.
  - inversion H; auto.
  - inversion H; auto.
Qed.

Lemma skip_space_no_digit cs :
  forallb (fun c => negb (is_digit c)) cs = true ->
  forallb (fun c => negb (is_digit c)) (skip_space cs) = true.
Proof.
  induction cs as [|c cs IH]; simpl; [reflexivity|].
  intros H. apply andb_prop in H as [Hc Hcs].
  destruct (Py_ISSPACE c); [auto|]. simpl. now rewrite Hc, Hcs.
Qed.

Lemma transform_no_digit cs :
  forallb (fun c => negb (is_digit c)) cs = true ->
  forallb (fun c => negb (is_digit c)) (transform_decimal_and_space cs) = true.
Proof.
  unfold transform_decimal_and_space.
  destruct (forallb (fun c => c <? 128) cs); [trivial|].
  induction cs as [|c cs IH]; simpl; [reflexivity|].
  intros H. apply andb_prop in H as [Hc Hcs].
  destruct (c <? 127).
  - simpl. rewrite Hc. auto.
  - destruct (Py_UNICODE_ISSPACE_high c); simpl; auto.
Qed.

(** A buffer without a decimal digit is no integer literal. *)
Lemma long_from_string_no_digit buf :
  forallb (fun c => negb (is_digit c)) buf = true ->
  long_from_string buf = Raise ValueError.
Proof.
  intros H. apply skip_space_no_digit in H.
  unfold long_from_string. cbv zeta.
  set (s1 := skip_space buf) in *.
  assert (Hs2 : forallb (fun c => negb (is_digit c))
                  match s1 with
                  | c :: r => if (c =? 43) || (c =? 45) then r else s1
                  | [] => s1
                  end = true).
  { destruct s1 as [|c r]; [reflexivity|].
    destruct ((c =? 43) || (c =? 45)); [|exact H].
    simpl in H. now apply andb_prop in H as [_ H]. }
  destruct (match s1 with
            | c :: r => if (c =? 43) || (c =? 45) then r else s1
            | [] => s1
            end) as [|c r]; [reflexivity|].
  simpl in Hs2. apply andb_prop in Hs2 as [Hc _].
  apply negb_true_iff in Hc.
  destruct (c =? UNDERSCORE) eqn:Hu; [reflexivity|].
  simpl. rewrite Hc, Hu. reflexivity.
Qed.

(** *** [int] of text *)

Lemma codepoints_append s1 s2 :
  codepoints (String.append s1 s2) = codepoints s1 ++ codepoints s2.
Proof.
  unfold codepoints.
  induction s1 as [|a s1 IH]; cbn [String.append list_ascii_of_string map app];
    [reflexivity|]. now rewrite IH.
Qed.

Lemma is_int_space_to_ascii c :
  is_int_space c = true -> Py_ISSPACE (to_ascii_space c) = true.
Proof.
  unfold is_int_space, to_ascii_space, Py_ISSPACE, Py_UNICODE_ISSPACE_high,
    SPACE.
  intros H. destruct (c <? 127) eqn:E; lia.
Qed.

(** On text made of ASCII characters (DEL aside) and white space, the
    transformation works character by character. *)
Lemma transform_map cs :
  forallb (fun c => (c <? 127) || Py_UNICODE_ISSPACE_high c) cs = true ->
  transform_decimal_and_space cs = map to_ascii_space cs.
Proof.
  intros H. unfold transform_decimal_and_space.
  destruct (forallb (fun c => c <? 128) cs) eqn:E.
  - induction cs as [|c cs IH]; [reflexivity|].
    cbn [forallb] in H, E. apply andb_prop in H as [Hc H].
    apply andb_prop in E as [Ec E]. cbn [map]. rewrite <- (IH H E).
    f_equal. unfold to_ascii_space, Py_UNICODE_ISSPACE_high in *.
    destruct (c <? 127) eqn:E'; [reflexivity|lia].
  - clear E. induction cs as [|c cs IH]; [reflexivity|].
    cbn [forallb] in H. apply andb_prop in H as [Hc H].
    cbn [transform_non_ascii map]. unfold to_ascii_space at 1.
    destruct (c <? 127) eqn:E'; [now rewrite (IH H)|].
    cbn [orb] in Hc. rewrite Hc, (IH H). reflexivity.
Qed.

Lemma skip_space_app ws cs :
  forallb Py_ISSPACE ws = true -> skip_space (ws ++ cs) = skip_space cs.
Proof.
  induction ws as [|c ws IH]; [reflexivity|].
  cbn [forallb app skip_space]. intros H. apply andb_prop in H as [Hc H].
  rewrite Hc. exact (IH H).
Qed.

Lemma skip_space_all ws :
  forallb Py_ISSPACE ws = true -> skip_space ws = [].
Proof.
  intros H. rewrite <- (app_nil_r ws), skip_space_app by exact H. reflexivity.
Qed.

Lemma uint_value_pos d : forall acc,
  uint_value d (Z.pos acc) = Z.pos (Pos.of_uint_acc d acc).
Proof.
  induction d as [|d IH|d IH|d IH|d IH|d IH|d IH|d IH|d IH|d IH|d IH];
    intros acc; cbn [uint_value Pos.of_uint_acc]; [reflexivity|..];
    rewrite <- IH; f_equal; lia.
Qed.

Lemma uint_value_of_uint d : uint_value d 0 = Z.of_uint d.
Proof.
  unfold Z.of_uint.
  induction d as [|d IH|d IH|d IH|d IH|d IH|d IH|d IH|d IH|d IH|d IH];
    cbn [uint_value Pos.of_uint]; [reflexivity|exact IH|..];
    cbn [Z.of_N]; rewrite <- uint_value_pos; reflexivity.
Qed.

Lemma codepoints_String a s : codepoints (String a s) = ord a :: codepoints s.
Proof. reflexivity. Qed.

Lemma scan_digits_digit c l acc digits :
  is_digit c = true ->
  scan_digits (c :: l) false acc digits =
  scan_digits l false (acc * 10 + (c - 48)) (S digits).
Proof. intros H. cbn [scan_digits]. rewrite H. reflexivity. Qed.

Lemma Py_ISSPACE_not_digit c :
  Py_ISSPACE c = true -> is_digit c = false /\ (c =? UNDERSCORE) = false.
Proof. unfold Py_ISSPACE, is_digit, UNDERSCORE. lia. Qed.

(** The digit scan reads a number up to the white space after it. *)
Lemma scan_digits_uint d rest : forall acc digits,
  forallb Py_ISSPACE rest = true ->
  scan_digits (codepoints (DecimalString.NilEmpty.string_of_uint d) ++ rest)
    false acc digits =
  Some (uint_value d acc,
        (digits
         + String.length (DecimalString.NilEmpty.string_of_uint d))%nat,
        rest).
Proof.
  induction d as [|d IH|d IH|d IH|d IH|d IH|d IH|d IH|d IH|d IH|d IH];
    intros acc digits Hrest;
    cbn [DecimalString.NilEmpty.string_of_uint String.length uint_value].
  { cbn [codepoints list_ascii_of_string map app]. rewrite Nat.add_0_r.
    destruct rest as [|c rest]; [reflexivity|].
    cbn [forallb] in Hrest. apply andb_prop in Hrest as [Hc _].
    destruct (Py_ISSPACE_not_digit c Hc) as [Hd Hu].
    cbn [scan_digits]. rewrite Hd, Hu. reflexivity. }
  all: rewrite codepoints_String; cbn [app];
    rewrite scan_digits_digit by reflexivity;
    rewrite (IH _ _ Hrest), Nat.add_succ_r; reflexivity.
Qed.

Lemma uint_ascii d :
  forallb (fun c => c <? 127)
    (codepoints (DecimalString.NilEmpty.string_of_uint d)) = true.
Proof.
  induction d as [|d IH|d IH|d IH|d IH|d IH|d IH|d IH|d IH|d IH|d IH];
    cbn [DecimalString.NilEmpty.string_of_uint]; [reflexivity|..];
    rewrite codepoints_String; cbn [forallb]; rewrite IH; reflexivity.
Qed.

(** The first character of a number without sign is a digit. *)
Lemma uint_head d :
  d <> Decimal.Nil ->
  exists c l,
    codepoints (DecimalString.NilEmpty.string_of_uint d) = c :: l /\
    is_digit c = true.
Proof.
  intros H.
  destruct d; [now elim H|..];
    cbn [DecimalString.NilEmpty.string_of_uint];
    rewrite codepoints_String; eexists; eexists; split; reflexivity.
Qed.

Lemma is_digit_range c : is_digit c = true -> 48 <= c <= 57.
Proof. unfold is_digit. lia. Qed.

(** A buffer that holds white space, an optional minus sign, digits and
    white space is read as the number the digits denote. *)
Lemma long_from_string_padded ws1 (negative : bool) c l value digits rest :
  forallb Py_ISSPACE ws1 = true ->
  is_digit c = true ->
  scan_digits (c :: l) false 0 0 = Some (value, digits, rest) ->
  forallb Py_ISSPACE rest = true ->
  (0 < digits <= max_str_digits)%nat ->
  long_from_string (ws1 ++ (if negative then [45] else []) ++ c :: l) =
  Ok (if negative then - value else value).
Proof.
  intros Hws Hc Hscan Hrest Hd. apply is_digit_range in Hc.
  assert (Hsp : Py_ISSPACE c = false) by (unfold Py_ISSPACE; lia).
  assert (Hneg : (c =? 45) = false) by lia.
  assert (Hplus : (c =? 43) = false) by lia.
  assert (Hus : (c =? UNDERSCORE) = false) by (unfold UNDERSCORE; lia).
  assert (E1 : (max_str_digits <? digits)%nat = false)
    by (apply Nat.ltb_ge; lia).
  assert (E2 : (digits =? 0)%nat = false) by (apply Nat.eqb_neq; lia).
  unfold long_from_string. rewrite skip_space_app by exact Hws.
  destruct negative; cbn [app].
  - change (skip_space (45 :: c :: l)) with (45 :: c :: l).
    cbv beta iota zeta. change (45 =? 45) with true.
    change ((45 =? 43) || true) with true. cbv beta iota zeta.
    rewrite Hus, Hscan, E1, E2, (skip_space_all rest Hrest). reflexivity.
  - cbn [skip_space]. rewrite Hsp. cbv beta iota zeta.
    rewrite Hneg, Hplus. cbn [orb]. cbv beta iota zeta.
    rewrite Hus, Hscan, E1, E2, (skip_space_all rest Hrest). reflexivity.
Qed.

Lemma string_of_uint_nonnil d :
  d <> Decimal.Nil ->
  DecimalString.NilZero.string_of_uint d =
  DecimalString.NilEmpty.string_of_uint d.
Proof. intros H. destruct d; [now elim H|..]; reflexivity. Qed.

(** The text of a number: an optional minus sign and the digits of its
    absolute value, which start with a digit. *)
Lemma py_str_int_shape n :
  exists d,
    d <> Decimal.Nil /\
    py_str_int (Z.abs n) = DecimalString.NilEmpty.string_of_uint d /\
    codepoints (py_str_int n) =
      (if n <? 0 then [45] else [])
      ++ codepoints (DecimalString.NilEmpty.string_of_uint d) /\
    uint_value d 0 = Z.abs n.
Proof.
  destruct n as [|p|p].
  - exists (Decimal.D0 Decimal.Nil). repeat split; try reflexivity.
    discriminate.
  - exists (Pos.to_uint p).
    pose proof (DecimalPos.Unsigned.to_uint_nonnil p) as Hnil.
    pose proof (DecimalZ.of_to (Z.pos p)) as Hval.
    cbn [Z.to_int Z.of_int] in Hval. rewrite <- uint_value_of_uint in Hval.
    unfold py_str_int. cbn [Z.abs Z.to_int DecimalString.NilZero.string_of_int].
    rewrite string_of_uint_nonnil by exact Hnil.
    repeat split; try reflexivity; assumption.
  - exists (Pos.to_uint p).
    pose proof (DecimalPos.Unsigned.to_uint_nonnil p) as Hnil.
    pose proof (DecimalZ.of_to (Z.pos p)) as Hval.
    cbn [Z.to_int Z.of_int] in Hval. rewrite <- uint_value_of_uint in Hval.
    unfold py_str_int. cbn [Z.abs Z.to_int DecimalString.NilZero.string_of_int].
    rewrite string_of_uint_nonnil by exact Hnil.
    repeat split; try reflexivity; assumption.
Qed.

(** [int] of the text of a number between white space is the number,
    within the digit limit. *)
Lemma py_int_padded pad1 pad2 n :
  forallb is_int_space (codepoints pad1) = true ->
  forallb is_int_space (codepoints pad2) = true ->
  (String.length (py_str_int (Z.abs n)) <= max_str_digits)%nat ->
  py_int (VStr (String.append pad1 (String.append (py_str_int n) pad2))) =
  Ok n.
Proof.
  intros H1 H2 Hlen.
  destruct (py_str_int_shape n) as (d & Hnil & Habs & Hcp & Hval).
  rewrite Habs in Hlen.
  cbn [py_int]. rewrite !codepoints_append, Hcp.
  set (body := codepoints (DecimalString.NilEmpty.string_of_uint d)) in *.
  set (sign := if n <? 0 then [45] else []) in *.
  assert (Hsign : forallb (fun c => c <? 127) sign = true)
    by (unfold sign; destruct (n <? 0); reflexivity).
  assert (Hbody : forallb (fun c => c <? 127) body = true) by apply uint_ascii.
  assert (Hpad : forall p, forallb is_int_space p = true ->
            forallb (fun c => (c <? 127) || Py_UNICODE_ISSPACE_high c) p =
            true).
  { intros p Hp. rewrite forallb_forall in *. intros c Hc.
    specialize (Hp c Hc). unfold is_int_space, Py_ISSPACE in Hp.
    destruct (Py_UNICODE_ISSPACE_high c); lia. }
  assert (Hlow : forall p, forallb (fun c => c <? 127) p = true ->
            forallb (fun c => (c <? 127) || Py_UNICODE_ISSPACE_high c) p =
              true /\ map to_ascii_space p = p).
  { intros p Hp. split.
    - rewrite forallb_forall in *. intros c Hc. now rewrite (Hp c Hc).
    - induction p as [|c p IH]; [reflexivity|].
      cbn [forallb] in Hp. apply andb_prop in Hp as [Hc Hp].
      cbn [map]. unfold to_ascii_space at 1. rewrite Hc, (IH Hp).
      reflexivity. }
  rewrite transform_map.
  2:{ rewrite !forallb_app, (Hpad _ H1), (Hpad _ H2),
        (proj1 (Hlow _ Hsign)), (proj1 (Hlow _ Hbody)). reflexivity. }
  rewrite !map_app, (proj2 (Hlow _ Hsign)), (proj2 (Hlow _ Hbody)).
  assert (Hsp : forall p, forallb is_int_space p = true ->
            forallb Py_ISSPACE (map to_ascii_space p) = true).
  { intros p Hp. rewrite forallb_forall in *. intros c Hc.
    apply in_map_iff in Hc as (c' & <- & Hc').
    apply is_int_space_to_ascii, Hp, Hc'. }
  destruct (uint_head d Hnil) as (c & l & Hcl & Hc).
  pose proof (scan_digits_uint d (map to_ascii_space (codepoints pad2)) 0 0
                (Hsp _ H2)) as Hscan.
  fold body in Hcl, Hscan. rewrite Hcl in *. cbn [app] in Hscan.
  assert (Hpos : (0 < String.length
                       (DecimalString.NilEmpty.string_of_uint d))%nat).
  { destruct d; [now elim Hnil|..]; cbn; lia. }
  pose proof (long_from_string_padded
                (map to_ascii_space (codepoints pad1)) (n <? 0) c
                (l ++ map to_ascii_space (codepoints pad2)) _ _ _
                (Hsp _ H1) Hc Hscan (Hsp _ H2) ltac:(cbn [Nat.add]; lia))
    as Hlong.
  unfold sign. rewrite <- app_assoc. cbn [app].
  rewrite Hlong, Hval. f_equal.
  destruct (n <? 0) eqn:E; lia.
Qed.

(** [int(str(n)) == n] for every [n] whose text stays within the digit
    limit. *)
Lemma py_int_py_str_int n :
  (String.length (py_str_int (Z.abs n)) <= max_str_digits)%nat ->
  py_int (VStr (py_str_int n)) = Ok n.
Proof.
  intros Hlen.
  pose proof (py_int_padded "" "" n eq_refl eq_refl Hlen) as H.
  cbn [String.append] in H.
  assert (E : forall s, String.append s "" = s).
  { induction s as [|a s IH]; cbn; [reflexivity|now rewrite IH]. }
  now rewrite E in H.
Qed.

Lemma skip_space_prefix cs :
  exists ws, cs = ws ++ skip_space cs /\ forallb Py_ISSPACE ws = true.
Proof.
  induction cs as [|c cs (ws & E & H)]; [exists []; split; reflexivity|].
  cbn [skip_space]. destruct (Py_ISSPACE c) eqn:Hc.
  - exists (c :: ws). cbn [app forallb]. rewrite Hc, H, <- E.
    split; reflexivity.
  - exists []. split; reflexivity.
Qed.

Lemma skip_space_nil cs : skip_space cs = [] -> forallb Py_ISSPACE cs = true.
Proof.
  intros H. destruct (skip_space_prefix cs) as (ws & E & Hws).
  rewrite H, app_nil_r in E. now subst ws.
Qed.

(** The digit scan reads digits and underscores only. *)
Lemma scan_digits_prefix cs : forall prev_us acc digits value digits' rest,
  scan_digits cs prev_us acc digits = Some (value, digits', rest) ->
  exists body,
    cs = body ++ rest /\
    forallb (fun c => is_digit c || (c =? UNDERSCORE)) body = true.
Proof.
  induction cs as [|c cs IH]; intros prev acc k v k' rest; cbn [scan_digits].
  - destruct prev; [discriminate|]. intros [= _ _ <-].
    exists []. split; reflexivity.
  - destruct (is_digit c) eqn:Hd.
    + intros H. destruct (IH _ _ _ _ _ _ H) as (body & -> & Hb).
      exists (c :: body). cbn [app forallb]. rewrite Hd, Hb.
      split; reflexivity.
    + destruct (c =? UNDERSCORE) eqn:Hu.
      * destruct prev; [discriminate|]. intros H.
        destruct (IH _ _ _ _ _ _ H) as (body & -> & Hb).
        exists (c :: body). cbn [app forallb]. rewrite Hd, Hu, Hb.
        split; reflexivity.
      * destruct prev; [discriminate|]. intros [= _ _ <-].
        exists []. split; reflexivity.
Qed.

(** A buffer that [PyLong_FromString] accepts holds white space, signs,
    digits and underscores only. *)
Lemma long_from_string_chars buf value :
  long_from_string buf = Ok value ->
  forallb (fun c => Py_ISSPACE c || is_digit c || (c =? UNDERSCORE)
                    || (c =? 43) || (c =? 45)) buf = true.
Proof.
  unfold long_from_string. cbv zeta.
  destruct (skip_space_prefix buf) as (ws & E & Hws).
  set (s1 := skip_space buf) in *.
  set (s2 := match s1 with
             | c :: r => if (c =? 43) || (c =? 45) then r else s1
             | [] => s1
             end).
  assert (Hs1 : forall P : Z -> bool,
            (forall c, (c =? 43) || (c =? 45) = true -> P c = true) ->
            forallb P s2 = true -> forallb P s1 = true).
  { intros P Hsign H. unfold s2 in H. destruct s1 as [|c r]; [exact H|].
    destruct ((c =? 43) || (c =? 45)) eqn:Ec; [|exact H].
    cbn [forallb]. now rewrite (Hsign c Ec), H. }
  destruct (match s2 with c :: _ => c =? UNDERSCORE | [] => false end);
    [discriminate|].
  destruct (scan_digits s2 false 0 0) as [[[v k] rest]|] eqn:Hscan;
    [|discriminate].
  destruct (max_str_digits <? k)%nat; [discriminate|].
  destruct (k =? 0)%nat; [discriminate|].
  destruct (skip_space rest) as [|c r] eqn:Hrest; [|discriminate].
  intros _. apply skip_space_nil in Hrest.
  destruct (scan_digits_prefix _ _ _ _ _ _ _ Hscan) as (body & Ebody & Hbody).
  rewrite E, forallb_app. apply andb_true_intro. split.
  - rewrite forallb_forall in *. intros c Hc. now rewrite (Hws c Hc).
  - apply Hs1.
    + intros c Hc. apply orb_prop in Hc as [Hc|Hc]; rewrite Hc;
        rewrite ?orb_true_r; reflexivity.
    + rewrite Ebody, forallb_app. apply andb_true_intro. split.
      * rewrite forallb_forall in *. intros c Hc. specialize (Hbody c Hc).
        apply orb_prop in Hbody as [H|H]; rewrite H;
          rewrite ?orb_true_r; reflexivity.
      * rewrite forallb_forall in *. intros c Hc. now rewrite (Hrest c Hc).
Qed.

(** Text that [int] accepts holds white space, signs, digits and
    underscores only. *)
Lemma py_int_text_chars s n :
  py_int (VStr s) = Ok n -> forallb is_int_char (codepoints s) = true.
Proof.
  cbn [py_int]. intros H. apply long_from_string_chars in H.
  revert H. unfold transform_decimal_and_space.
  assert (Hweak : forall c,
            Py_ISSPACE c || is_digit c || (c =? UNDERSCORE)
            || (c =? 43) || (c =? 45) = true ->
            is_int_char c = true).
  { intros c Hc. unfold is_int_char, is_int_space.
    destruct (Py_ISSPACE c); [reflexivity|]. cbn [orb] in *.
    destruct (Py_UNICODE_ISSPACE_high c); [reflexivity|exact Hc]. }
  destruct (forallb (fun c => c <? 128) (codepoints s)).
  - intros H. rewrite forallb_forall in *. intros c Hc. apply Hweak, H, Hc.
  - induction (codepoints s) as [|c cs IH]; [reflexivity|].
    cbn [transform_non_ascii]. destruct (c <? 127).
    + cbn [forallb]. intros H. apply andb_prop in H as [Hc H].
      now rewrite (Hweak c Hc), (IH H).
    + destruct (Py_UNICODE_ISSPACE_high c) eqn:Hh.
      * cbn [forallb]. intros H. apply andb_prop in H as [_ H].
        rewrite (IH H). unfold is_int_char, is_int_space. rewrite Hh.
        now rewrite orb_true_r.
      * intros H. discriminate H.
Qed.

(** *** base64 *)

(** A property checked on every integer below [n] holds on each of
    them. *)
Lemma forallb_below (P : Z -> bool) (n : nat) :
  forallb P (map Z.of_nat (seq 0 n)) = true ->
  forall i, 0 <= i < Z.of_nat n -> P i = true.
Proof.
  intros H i Hi. rewrite forallb_forall in H. apply H.
  apply in_map_iff. exists (Z.to_nat i). split; [lia|].
  apply in_seq. lia.
Qed.

Lemma forallb_below2 (P : Z -> Z -> bool) (n m : nat) :
  forallb (fun a => forallb (P a) (map Z.of_nat (seq 0 m)))
    (map Z.of_nat (seq 0 n)) = true ->
  forall a b, 0 <= a < Z.of_nat n -> 0 <= b < Z.of_nat m -> P a b = true.
Proof.
  intros H a b Ha Hb.
  apply (forallb_below (P a) m); [|exact Hb].
  apply (forallb_below
           (fun a => forallb (P a) (map Z.of_nat (seq 0 m))) n H a Ha).
Qed.

Lemma u8_range x : 0 <= u8 x <= 255.
Proof.
  assert (E : u8 x = x mod 2 ^ 8).
  { unfold u8. change 255 with (Z.ones 8). apply Z.land_ones. lia. }
  rewrite E. change (2 ^ 8) with 256.
  pose proof (Z.mod_pos_bound x 256 ltac:(lia)). lia.
Qed.

(** Whatever the input, [a2b_loop] only appends bytes. *)
Lemma a2b_loop_is_bytes data :
  forall quad_pos leftchar pads out,
    is_bytes out -> is_bytes (fst (a2b_loop data quad_pos leftchar pads out)).
Proof.
  assert (Happ : forall out x, is_bytes out -> is_bytes (out ++ [u8 x])).
  { intros out x H. apply Forall_app. split; [exact H|].
    constructor; [apply u8_range|constructor]. }
  induction data as [|c data IH]; intros q lc p out Hout; simpl; [exact Hout|].
  repeat match goal with
         | |- context [if ?b then _ else _] => destruct b
         end; simpl; auto.
Qed.

Lemma b64decode_is_bytes s bs : b64decode s = Ok bs -> is_bytes bs.
Proof.
  unfold b64decode, a2b_base64.
  destruct (forallb _ _); [|discriminate].
  pose proof (a2b_loop_is_bytes (codepoints s) 0 0 0 [] (Forall_nil _)) as H.
  destruct (a2b_loop (codepoints s) 0 0 0 []) as [out [q|]]; simpl in H.
  - destruct (q =? 0); [|discriminate]. intros E; inversion E; subst; exact H.
  - intros E; inversion E; subst; exact H.
Qed.

(** The digit table and its inverse. *)
Lemma b2a_digit i :
  0 <= i < 64 ->
  (b2a i =? BASE64_PAD) = false /\
  table_a2b_base64 (b2a i) = i /\
  0 <= b2a i < 128.
Proof.
  intros Hi.
  assert (H : ((negb (b2a i =? BASE64_PAD))
               && (table_a2b_base64 (b2a i) =? i)
               && (0 <=? b2a i) && (b2a i <? 128)) = true).
  { revert i Hi.
    apply (forallb_below
             (fun i => (negb (b2a i =? BASE64_PAD))
                       && (table_a2b_base64 (b2a i) =? i)
                       && (0 <=? b2a i) && (b2a i <? 128)) 64).
    vm_compute. reflexivity. }
  repeat (apply andb_prop in H as [H ?]).
  apply negb_true_iff in H. repeat split; first [exact H | lia].
Qed.

(** One step of the decoder on a digit. *)
Lemma a2b_loop_digit i rest quad_pos leftchar pads out :
  0 <= i < 64 ->
  a2b_loop (b2a i :: rest) quad_pos leftchar pads out =
  if quad_pos =? 0 then a2b_loop rest 1 i 0 out
  else if quad_pos =? 1 then
    a2b_loop rest 2 (Z.land i 15) 0
      (out ++ [u8 (Z.lor (Z.shiftl leftchar 2) (Z.shiftr i 4))])
  else if quad_pos =? 2 then
    a2b_loop rest 3 (Z.land i 3) 0
      (out ++ [u8 (Z.lor (Z.shiftl leftchar 4) (Z.shiftr i 2))])
  else
    a2b_loop rest 0 0 0 (out ++ [u8 (Z.lor (Z.shiftl leftchar 6) i)]).
Proof.
  intros Hi. destruct (b2a_digit i Hi) as (Hpad & Htab & _).
  simpl. rewrite Hpad, Htab.
  destruct (64 <=? i) eqn:E; [lia|]. reflexivity.
Qed.

(** Splitting bytes into 6-bit digits and joining them again, checked on
    every pair of bytes. *)
Lemma split_join_first a b :
  0 <= a <= 255 -> 0 <= b <= 255 ->
  let i1 := Z.shiftr a 2 in
  let i2 := Z.lor (Z.shiftl (Z.land a 3) 4) (Z.shiftr b 4) in
  0 <= i1 < 64 /\ 0 <= i2 < 64 /\
  u8 (Z.lor (Z.shiftl i1 2) (Z.shiftr i2 4)) = a /\
  Z.land i2 15 = Z.shiftr b 4.
Proof.
  intros Ha Hb.
  pose proof
    (forallb_below2
       (fun a b =>
          let i1 := Z.shiftr a 2 in
          let i2 := Z.lor (Z.shiftl (Z.land a 3) 4) (Z.shiftr b 4) in
          (0 <=? i1) && (i1 <? 64) && (0 <=? i2) && (i2 <? 64)
          && (u8 (Z.lor (Z.shiftl i1 2) (Z.shiftr i2 4)) =? a)
          && (Z.land i2 15 =? Z.shiftr b 4))
       256 256) as H.
  specialize (H ltac:(vm_compute; reflexivity) a b ltac:(lia) ltac:(lia)).
  cbv beta zeta in H.
  repeat (apply andb_prop in H as [H ?]).
  cbv zeta. repeat split; lia.
Qed.

Lemma split_join_second b c :
  0 <= b <= 255 -> 0 <= c <= 255 ->
  let i3 := Z.lor (Z.shiftl (Z.land b 15) 2) (Z.shiftr c 6) in
  let i4 := Z.land c 63 in
  0 <= i3 < 64 /\ 0 <= i4 < 64 /\
  u8 (Z.lor (Z.shiftl (Z.shiftr b 4) 4) (Z.shiftr i3 2)) = b /\
  u8 (Z.lor (Z.shiftl (Z.land i3 3) 6) i4) = c.
Proof.
  intros Hb Hc.
  pose proof
    (forallb_below2
       (fun b c =>
          let i3 := Z.lor (Z.shiftl (Z.land b 15) 2) (Z.shiftr c 6) in
          let i4 := Z.land c 63 in
          (0 <=? i3) && (i3 <? 64) && (0 <=? i4) && (i4 <? 64)
          && (u8 (Z.lor (Z.shiftl (Z.shiftr b 4) 4) (Z.shiftr i3 2)) =? b)
          && (u8 (Z.lor (Z.shiftl (Z.land i3 3) 6) i4) =? c))
       256 256) as H.
  specialize (H ltac:(vm_compute; reflexivity) b c ltac:(lia) ltac:(lia)).
  cbv beta zeta in H.
  repeat (apply andb_prop in H as [H ?]).
  cbv zeta. repeat split; lia.
Qed.

(** Induction on a list three elements at a time, as the encoder reads
    it. *)
Lemma list_ind3 {A : Type} (P : list A -> Prop) :
  P [] ->
  (forall a, P [a]) ->
  (forall a b, P [a; b]) ->
  (forall a b c l, P l -> P (a :: b :: c :: l)) ->
  forall l, P l.
Proof.
  intros H0 H1 H2 H3 l.
  assert (H : forall n l, (List.length l <= n)%nat -> P l).
  { induction n as [|n IH]; intros l' Hl.
    - destruct l'; [exact H0|simpl in Hl; lia].
    - destruct l' as [|a [|b [|c l']]]; auto.
      apply H3. apply IH. simpl in Hl. lia. }
  apply (H (List.length l)). lia.
Qed.

(** A full group of four digits decodes to the three bytes it encodes. *)
Lemma a2b_loop_group a b c rest leftchar pads out :
  0 <= a <= 255 -> 0 <= b <= 255 -> 0 <= c <= 255 ->
  a2b_loop
    (b2a (Z.shiftr a 2)
     :: b2a (Z.lor (Z.shiftl (Z.land a 3) 4) (Z.shiftr b 4))
     :: b2a (Z.lor (Z.shiftl (Z.land b 15) 2) (Z.shiftr c 6))
     :: b2a (Z.land c 63) :: rest) 0 leftchar pads out =
  a2b_loop rest 0 0 0 (out ++ [a; b; c]).
Proof.
  intros Ha Hb Hc.
  destruct (split_join_first a b Ha Hb) as (H1 & H2 & E1 & E2).
  destruct (split_join_second b c Hb Hc) as (H3 & H4 & E3 & E4).
  rewrite (a2b_loop_digit _ _ _ _ _ _ H1). simpl (0 =? 0).
  cbv iota.
  rewrite (a2b_loop_digit _ _ _ _ _ _ H2). simpl (1 =? 0). simpl (1 =? 1).
  cbv iota. rewrite E1, E2.
  rewrite (a2b_loop_digit _ _ _ _ _ _ H3).
  simpl (2 =? 0). simpl (2 =? 1). simpl (2 =? 2). cbv iota. rewrite E3.
  rewrite (a2b_loop_digit _ _ _ _ _ _ H4).
  simpl (3 =? 0). simpl (3 =? 1). simpl (3 =? 2). cbv iota. rewrite E4.
  rewrite <- !app_assoc. reflexivity.
Qed.

(** A final group of one byte: two digits and two pads. *)
Lemma a2b_loop_tail1 a leftchar pads out :
  0 <= a <= 255 ->
  a2b_loop
    [ b2a (Z.shiftr a 2); b2a (Z.shiftl (Z.land a 3) 4);
      BASE64_PAD; BASE64_PAD ] 0 leftchar pads out =
  (out ++ [a], None).
Proof.
  intros Ha.
  destruct (split_join_first a 0 Ha ltac:(lia)) as (H1 & H2 & E1 & _).
  change (Z.shiftr 0 4) with 0 in *. rewrite Z.lor_0_r in *.
  rewrite (a2b_loop_digit _ _ _ _ _ _ H1). simpl (0 =? 0). cbv iota.
  rewrite (a2b_loop_digit _ _ _ _ _ _ H2). simpl (1 =? 0). simpl (1 =? 1).
  cbv iota. rewrite E1. reflexivity.
Qed.

(** A final group of two bytes: three digits and one pad. *)
Lemma a2b_loop_tail2 a b leftchar pads out :
  0 <= a <= 255 -> 0 <= b <= 255 ->
  a2b_loop
    [ b2a (Z.shiftr a 2);
      b2a (Z.lor (Z.shiftl (Z.land a 3) 4) (Z.shiftr b 4));
      b2a (Z.shiftl (Z.land b 15) 2);
      BASE64_PAD ] 0 leftchar pads out =
  (out ++ [a; b], None).
Proof.
  intros Ha Hb.
  destruct (split_join_first a b Ha Hb) as (H1 & H2 & E1 & E2).
  destruct (split_join_second b 0 Hb ltac:(lia)) as (H3 & _ & E3 & _).
  change (Z.shiftr 0 6) with 0 in *. rewrite Z.lor_0_r in *.
  rewrite (a2b_loop_digit _ _ _ _ _ _ H1). simpl (0 =? 0). cbv iota.
  rewrite (a2b_loop_digit _ _ _ _ _ _ H2). simpl (1 =? 0). simpl (1 =? 1).
  cbv iota. rewrite E1, E2.
  rewrite (a2b_loop_digit _ _ _ _ _ _ H3).
  simpl (2 =? 0). simpl (2 =? 1). simpl (2 =? 2). cbv iota. rewrite E3.
  rewrite <- !app_assoc. reflexivity.
Qed.

(** The decoder loop inverts the encoder. *)
Lemma a2b_loop_b2a_base64 bs :
  is_bytes bs ->
  forall leftchar pads out,
  exists q,
    a2b_loop (b2a_base64 bs) 0 leftchar pads out = (out ++ bs, q) /\
    (q = None \/ q = Some 0).
Proof.
  induction bs as [ |a|a b|a b c bs IH] using list_ind3;
    intros Hbs leftchar pads out.
  - exists (Some 0). simpl. rewrite app_nil_r. auto.
  - inversion Hbs; subst. exists None. split; [|auto].
    apply a2b_loop_tail1; assumption.
  - inversion Hbs as [|? ? Ha Hbs']; subst. inversion Hbs'; subst.
    exists None. split; [|auto]. apply a2b_loop_tail2; assumption.
  - inversion Hbs as [|? ? Ha Hbs1]; subst.
    inversion Hbs1 as [|? ? Hb Hbs2]; subst.
    inversion Hbs2 as [|? ? Hc Hbs3]; subst.
    destruct (IH Hbs3 0 0 (out ++ [a; b; c])) as (q & Hq & Hq').
    exists q. split; [|exact Hq'].
    change (b2a_base64 (a :: b :: c :: bs)) with
      (b2a (Z.shiftr a 2)
       :: b2a (Z.lor (Z.shiftl (Z.land a 3) 4) (Z.shiftr b 4))
       :: b2a (Z.lor (Z.shiftl (Z.land b 15) 2) (Z.shiftr c 6))
       :: b2a (Z.land c 63) :: b2a_base64 bs).
    rewrite a2b_loop_group by assumption.
    rewrite Hq, <- app_assoc. reflexivity.
Qed.

(** The encoder writes ASCII characters only. *)
Lemma b2a_base64_ascii bs :
  is_bytes bs -> Forall (fun c => 0 <= c < 128) (b2a_base64 bs).
Proof.
  assert (Hpad : 0 <= BASE64_PAD < 128) by (unfold BASE64_PAD; lia).
  induction bs as [ |a|a b|a b c bs IH] using list_ind3; intros Hbs.
  - constructor.
  - inversion Hbs as [|? ? Ha _]; subst.
    destruct (split_join_first a 0 Ha ltac:(lia)) as (H1 & H2 & _).
    change (Z.shiftr 0 4) with 0 in *. rewrite Z.lor_0_r in *.
    simpl. repeat constructor; try apply b2a_digit; auto; lia.
  - inversion Hbs as [|? ? Ha Hbs']; subst.
    inversion Hbs' as [|? ? Hb _]; subst.
    destruct (split_join_first a b Ha Hb) as (H1 & H2 & _).
    destruct (split_join_second b 0 Hb ltac:(lia)) as (H3 & _).
    change (Z.shiftr 0 6) with 0 in *. rewrite Z.lor_0_r in *.
    simpl. repeat constructor; try apply b2a_digit; auto; lia.
  - inversion Hbs as [|? ? Ha Hbs1]; subst.
    inversion Hbs1 as [|? ? Hb Hbs2]; subst.
    inversion Hbs2 as [|? ? Hc Hbs3]; subst.
    destruct (split_join_first a b Ha Hb) as (H1 & H2 & _).
    destruct (split_join_second b c Hb Hc) as (H3 & H4 & _).
    change (b2a_base64 (a :: b :: c :: bs)) with
      (b2a (Z.shiftr a 2)
       :: b2a (Z.lor (Z.shiftl (Z.land a 3) 4) (Z.shiftr b 4))
       :: b2a (Z.lor (Z.shiftl (Z.land b 15) 2) (Z.shiftr c 6))
       :: b2a (Z.land c 63) :: b2a_base64 bs).
    repeat (constructor; [apply b2a_digit; assumption|]).
    apply IH; assumption.
Qed.

Lemma ord_chr c : 0 <= c < 256 -> ord (chr c) = c.
Proof.
  intros Hc. unfold ord, chr.
  rewrite N_ascii_embedding by lia. lia.
Qed.

Lemma codepoints_b64encode bs :
  is_bytes bs -> codepoints (b64encode bs) = b2a_base64 bs.
Proof.
  intros Hbs. unfold codepoints, b64encode.
  rewrite list_ascii_of_string_of_list_ascii, map_map.
  pose proof (b2a_base64_ascii bs Hbs) as H.
  induction H as [|c l Hc _ IH]; simpl; [reflexivity|].
  rewrite ord_chr by lia. now rewrite IH.
Qed.

(** Decoding the base64 encoding of a byte sequence gives it back. *)
Lemma b64decode_b64encode bs :
  is_bytes bs -> b64decode (b64encode bs) = Ok bs.
Proof.
  intros Hbs. unfold b64decode.
  rewrite codepoints_b64encode by assumption.
  assert (Hascii : forallb (fun c => c <? 128) (b2a_base64 bs) = true).
  { apply forallb_forall. intros c Hc.
    pose proof (b2a_base64_ascii bs Hbs) as H.
    rewrite Forall_forall in H. specialize (H c Hc). lia. }
  rewrite Hascii. unfold a2b_base64.
  destruct (a2b_loop_b2a_base64 bs Hbs 0 0 []) as (q & Hq & [-> | ->]);
    rewrite Hq; reflexivity.
Qed.

(** *** Characters that the decoder skips *)

Lemma a2b_loop_filter data :
  forall quad_pos leftchar pads out,
    a2b_loop (filter is_base64_char data) quad_pos leftchar pads out =
    a2b_loop data quad_pos leftchar pads out.
Proof.
  induction data as [|c data IH]; intros q lc p out; [reflexivity|].
  cbn [filter]. destruct (is_base64_char c) eqn:E.
  - cbn [a2b_loop]. rewrite !IH. reflexivity.
  - unfold is_base64_char in E. apply orb_false_iff in E as [Epad Edig].
    cbn [a2b_loop]. rewrite Epad.
    assert (E64 : (64 <=? table_a2b_base64 c) = true)
      by (apply Z.leb_le; apply Z.ltb_ge in Edig; exact Edig).
    rewrite E64. apply IH.
Qed.

Lemma is_base64_char_ascii c : is_base64_char c = true -> c < 128.
Proof.
  unfold is_base64_char, table_a2b_base64, BASE64_PAD. intros H.
  apply orb_true_iff in H as [H|H]; [lia|].
  destruct ((65 <=? c) && (c <=? 90)) eqn:E1; [lia|].
  destruct ((97 <=? c) && (c <=? 122)) eqn:E2; [lia|].
  destruct ((48 <=? c) && (c <=? 57)) eqn:E3; [lia|].
  destruct (c =? 43) eqn:E4; [lia|].
  destruct (c =? 47) eqn:E5; [lia|].
  discriminate H.
Qed.

Lemma codepoints_strip_noise s :
  codepoints (strip_noise s) = filter is_base64_char (codepoints s).
Proof.
  unfold strip_noise, codepoints.
  rewrite list_ascii_of_string_of_list_ascii.
  induction (list_ascii_of_string s) as [|a l IH]; [reflexivity|].
  cbn [filter map]. destruct (is_base64_char (ord a)); cbn [map];
    rewrite IH; reflexivity.
Qed.

Lemma b64decode_strip_noise s :
  is_ascii s = true -> b64decode (strip_noise s) = b64decode s.
Proof.
  unfold is_ascii, b64decode. intros Hs.
  rewrite Hs, codepoints_strip_noise.
  assert (Hf : forallb (fun c => c <? 128)
                 (filter is_base64_char (codepoints s)) = true).
  { apply forallb_forall. intros c Hc. apply filter_In in Hc as [_ Hc].
    apply Z.ltb_lt, is_base64_char_ascii, Hc. }
  rewrite Hf. unfold a2b_base64. rewrite a2b_loop_filter. reflexivity.
Qed.

(** Without pads, the parse ends in the middle of a group unless the
    digits come in fours. *)
Lemma a2b_loop_no_pad data : forall quad_pos leftchar pads out,
  0 <= quad_pos < 4 ->
  forallb (fun c => negb (c =? BASE64_PAD)) data = true ->
  snd (a2b_loop data quad_pos leftchar pads out) =
  Some ((quad_pos
         + Z.of_nat
             (List.length
                (filter (fun c => table_a2b_base64 c <? 64) data))) mod 4).
Proof.
  induction data as [|c data IH]; intros q lc p out Hq Hnp.
  - cbn [a2b_loop snd filter List.length]. f_equal.
    rewrite Z.add_0_r, Z.mod_small; lia.
  - cbn [forallb] in Hnp. apply andb_prop in Hnp as [Hc Hnp].
    apply negb_true_iff in Hc. cbn [a2b_loop filter]. rewrite Hc.
    destruct (64 <=? table_a2b_base64 c) eqn:E64.
    + assert (E : (table_a2b_base64 c <? 64) = false) by lia.
      rewrite E. apply IH; assumption.
    + assert (E : (table_a2b_base64 c <? 64) = true) by lia.
      rewrite E. cbn [List.length]. rewrite Nat2Z.inj_succ.
      destruct (q =? 0) eqn:E0; [|destruct (q =? 1) eqn:E1;
                                   [|destruct (q =? 2) eqn:E2]];
        rewrite IH by (assumption || lia); f_equal;
        Z.to_euclidean_division_equations; lia.
Qed.

Lemma b64decode_incomplete s :
  is_ascii s = true ->
  forallb (fun c => negb (c =? BASE64_PAD)) (codepoints s) = true ->
  Z.of_nat (List.length (base64_digits s)) mod 4 <> 0 ->
  b64decode s = Raise BinasciiError.
Proof.
  unfold is_ascii, b64decode, a2b_base64, base64_digits.
  intros Ha Hnp Hmod. rewrite Ha.
  pose proof (a2b_loop_no_pad (codepoints s) 0 0 0 [] ltac:(lia) Hnp) as H.
  destruct (a2b_loop (codepoints s) 0 0 0 []) as [out [q|]];
    cbn [snd] in H; [|discriminate H].
  injection H as ->.
  destruct (_ =? 0) eqn:E; [|reflexivity].
  apply Z.eqb_eq in E. exfalso. apply Hmod. exact E.
Qed.

(** The quotient [raw_value * 100 / 255] of a byte is an integer or at
    least 5/255 away from the next one, so rounding the floating-point
    division to 53 bits cannot change its integer part. *)
Lemma byte_scale_gap raw_value :
  0 <= raw_value <= 255 ->
  (raw_value * 100) mod 255 = 0 \/ 5 <= (raw_value * 100) mod 255 <= 250.
Proof.
  intros H.
  pose proof
    (forallb_below
       (fun r => ((r * 100) mod 255 =? 0)
                 || ((5 <=? (r * 100) mod 255) && ((r * 100) mod 255 <=? 250)))
       256 ltac:(vm_compute; reflexivity) raw_value ltac:(lia)) as E.
  cbv beta in E. lia.
Qed.

(* ================================================================= *)
(** ** The processing methods, one equation each *)

Lemma assign_assign f g self :
  assign g (assign f self) = assign (fun pd => g (f pd)) self.
Proof. reflexivity. Qed.

Lemma raw_data_assign f self : raw_data (assign f self) = raw_data self.
Proof. reflexivity. Qed.

Lemma process_battery_eq self :
  _process_battery self =
  match dict_get "163" (raw_data self) with
  | None => (Ok tt, self)
  | Some raw =>
      match py_int raw with
      | Ok n =>
          (Ok tt, assign (with_battery (Some (Z.max 0 (Z.min 100 n)))) self)
      | Raise e =>
          if existsb (isinstance_exn e) [CValueError; CTypeError]
          then (Ok tt, self) else (Raise e, self)
      end
  end.
Proof.
  unfold _process_battery, bind, get_self.
  destruct (dict_get "163" (raw_data self)) as [raw|] eqn:E.
  - rewrite (dict_get_contains _ _ _ E). simpl negb. cbv iota.
    unfold try_except, bind, lift, dict_getitem. rewrite E.
    destruct (py_int raw) as [n|e]; reflexivity.
  - rewrite (dict_get_None_contains _ _ E). reflexivity.
Qed.

Lemma list_getitem_nth (bs : list Z) (i : nat) :
  (i < List.length bs)%nat ->
  list_getitem bs (Z.of_nat i) = Ok (nth i bs 0).
Proof.
  intros Hi. unfold list_getitem.
  destruct (Z.of_nat i <? 0) eqn:E; [lia|]. rewrite E.
  rewrite Nat2Z.id.
  destruct (nth_error bs i) as [x|] eqn:En.
  - now rewrite (nth_error_nth _ _ 0 En).
  - apply nth_error_None in En. lia.
Qed.

Lemma process_water_tank_eq self :
  _process_water_tank self =
  match dict_get "167" (raw_data self) with
  | Some (VStr s) =>
      match b64decode s with
      | Ok binary_data =>
          if 4 <? py_len binary_data then
            (Ok tt,
             assign (with_water_tank
                       (Some (Z.min 100 (nth 4 binary_data 0 * 100 / 255))))
               self)
          else (Ok tt, self)
      | Raise _ => (Ok tt, self)
      end
  | _ => (Ok tt, self)
  end.
Proof.
  unfold _process_water_tank, bind, get_self.
  destruct (dict_get "167" (raw_data self)) as [raw|] eqn:E.
  - rewrite (dict_get_contains _ _ _ E). simpl negb. cbv iota.
    unfold try_except, bind, lift, dict_getitem. rewrite E.
    destruct raw as [ |b|n|f|s|l|d]; try reflexivity.
    destruct (b64decode s) as [bs|e]; [|reflexivity].
    destruct (4 <? py_len bs) eqn:Hlen; [|reflexivity].
    change 4 with (Z.of_nat 4) at 1.
    rewrite list_getitem_nth by (unfold py_len in Hlen; lia).
    reflexivity.
  - rewrite (dict_get_None_contains _ _ E). reflexivity.
Qed.

Lemma process_clean_speed_eq self :
  _process_clean_speed self =
  match dict_get "158" (raw_data self) with
  | Some speed_raw =>
      if isinstance_int speed_raw
         && (0 <=? int_value speed_raw)
         && (int_value speed_raw <? 4)
      then
        (Ok tt,
         assign (with_clean_speed
                   (nth_error CLEAN_SPEED_NAMES (Z.to_nat (int_value speed_raw))))
           self)
      else (Ok tt, self)
  | None => (Ok tt, self)
  end.
Proof.
  unfold _process_clean_speed, bind, get_self.
  destruct (dict_get "158" (raw_data self)) as [raw|] eqn:E.
  - rewrite (dict_get_contains _ _ _ E). simpl negb. cbv iota.
    unfold try_except, bind, lift, dict_getitem. rewrite E.
    change (py_len CLEAN_SPEED_NAMES) with 4.
    destruct (isinstance_int raw && (0 <=? int_value raw)
              && (int_value raw <? 4)) eqn:Hc; [|reflexivity].
    apply andb_prop in Hc as [Hc H4]. apply andb_prop in Hc as [_ H0].
    unfold list_getitem. change (py_len CLEAN_SPEED_NAMES) with 4.
    destruct (int_value raw <? 0) eqn:Hneg; [lia|]. rewrite Hneg.
    destruct (nth_error CLEAN_SPEED_NAMES (Z.to_nat (int_value raw)))
      as [name|] eqn:En; [reflexivity|].
    apply nth_error_None in En. simpl in En. lia.
  - rewrite (dict_get_None_contains _ _ E). reflexivity.
Qed.

Lemma process_work_status_eq self :
  _process_work_status self =
  match dict_get "153" (raw_data self) with
  | Some status_raw =>
      if isinstance_int status_raw then
        match intdict_get (int_value status_raw) WORK_STATUS_MAP with
        | Some status_name =>
            (Ok tt, assign (with_work_status (Some status_name)) self)
        | None => (Ok tt, self)
        end
      else (Ok tt, self)
  | None => (Ok tt, self)
  end.
Proof.
  unfold _process_work_status, bind, get_self.
  destruct (dict_get "153" (raw_data self)) as [raw|] eqn:E.
  - rewrite (dict_get_contains _ _ _ E). simpl negb. cbv iota.
    unfold try_except, bind, lift, dict_getitem. rewrite E.
    unfold intdict_contains, intdict_getitem.
    destruct (isinstance_int raw); [|reflexivity]. simpl andb.
    destruct (intdict_get (int_value raw) WORK_STATUS_MAP); reflexivity.
  - rewrite (dict_get_None_contains _ _ E). reflexivity.
Qed.

Lemma process_play_pause_eq self :
  _process_play_pause self =
  match dict_get "152" (raw_data self) with
  | Some raw => (Ok tt, assign (with_play_pause (Some (py_bool raw))) self)
  | None => (Ok tt, self)
  end.
Proof.
  unfold _process_play_pause, bind, get_self.
  destruct (dict_get "152" (raw_data self)) as [raw|] eqn:E.
  - rewrite (dict_get_contains _ _ _ E). simpl negb. cbv iota.
    unfold try_except, bind, lift, dict_getitem. rewrite E. reflexivity.
  - rewrite (dict_get_None_contains _ _ E). reflexivity.
Qed.

(* ================================================================= *)
(** ** The classification loop and the chain of decoders *)

(** The loop over [MONITORED_KEYS] appends every key to one of the two
    lists and touches nothing else. *)
Lemma fold_classify raw l pd :
  fold_left (classify raw) l pd =
  mkParsedData (pd_device_id pd) (battery pd) (water_tank pd) (clean_speed pd)
    (work_status pd) (play_pause pd) (raw_keys pd)
    (monitored_keys_found pd ++ filter (fun k => dict_contains k raw) l)
    (monitored_keys_missing pd
       ++ filter (fun k => negb (dict_contains k raw)) l)
    (pd_last_update pd) (pd_update_count pd).
Proof.
  revert pd. induction l as [|key l IH]; intros pd; simpl.
  - rewrite !app_nil_r. destruct pd; reflexivity.
  - rewrite IH. destruct (dict_contains key raw); simpl;
      rewrite <- app_assoc; reflexivity.
Qed.

Lemma monitored_loop_eq l self :
  for_each l
    (fun key =>
       self <- get_self ;;
       if dict_contains key (raw_data self)
       then update_parsed_data (append_found key)
       else update_parsed_data (append_missing key))%py self =
  (Ok tt, assign (fun pd => fold_left (classify (raw_data self)) l pd) self).
Proof.
  revert self. induction l as [|key l IH]; intros self.
  - destruct self; reflexivity.
  - simpl for_each. unfold bind at 1. unfold bind at 1. unfold get_self.
    destruct (dict_contains key (raw_data self)) eqn:E;
      unfold update_parsed_data; rewrite IH, raw_data_assign, assign_assign;
      simpl fold_left; rewrite E; reflexivity.
Qed.

(** [_process_data] is the chain of decoders run on the freshly
    initialised and classified snapshot. *)
Lemma process_data_eq now self :
  _process_data now self =
  decoders
    (assign
       (fun _ =>
          mkParsedData (device_id self) None None None None None
            (dict_keys (raw_data self))
            (filter (fun k => dict_contains k (raw_data self)) MONITORED_KEYS)
            (filter (fun k => negb (dict_contains k (raw_data self)))
               MONITORED_KEYS)
            now (update_count self))
       self).
Proof.
  unfold _process_data.
  unfold bind at 1. unfold get_self at 1.
  unfold bind at 1. unfold set_parsed_data.
  unfold bind at 1. rewrite monitored_loop_eq.
  rewrite raw_data_assign, assign_assign, fold_classify. reflexivity.
Qed.

(** *** Sequencing *)

Lemma preserves_seq P (m k : M unit) :
  preserves P m -> preserves P k -> preserves P (m ;; k)%py.
Proof.
  intros Hm Hk self HP. unfold bind.
  specialize (Hm self HP).
  destruct (m self) as [[[]|e] self']; simpl in *; auto.
Qed.

Lemma deterministic_seq (m k : M unit) :
  deterministic m -> deterministic k -> deterministic (m ;; k)%py.
Proof.
  intros Hm Hk s1 s2 H. unfold bind.
  destruct (Hm s1 s2 H) as [Hr Hs].
  destruct (m s1) as [[[]|e1] s1'], (m s2) as [[[]|e2] s2'];
    simpl in *; try discriminate; auto.
Qed.

Lemma returns_seq (m k : M unit) :
  (forall self, fst (m self) = Ok tt) ->
  (forall self, fst (k self) = Ok tt) ->
  forall self, fst ((m ;; k)%py self) = Ok tt.
Proof.
  intros Hm Hk self. unfold bind. specialize (Hm self).
  destruct (m self) as [[[]|e] self']; simpl in *; [apply Hk|discriminate].
Qed.

(** *** What each decoder can change *)

Lemma process_battery_preserves P :
  (forall s n, P s -> P (assign (with_battery (Some (Z.max 0 (Z.min 100 n)))) s)) ->
  preserves P _process_battery.
Proof.
  intros H self HP. rewrite process_battery_eq.
  destruct (dict_get "163" (raw_data self)) as [raw|]; [|exact HP].
  destruct (py_int raw) as [n|e]; [apply H; exact HP|].
  destruct e; exact HP.
Qed.

Lemma process_water_tank_preserves P :
  (forall s b, 0 <= b <= 255 -> P s ->
     P (assign (with_water_tank (Some (Z.min 100 (b * 100 / 255)))) s)) ->
  preserves P _process_water_tank.
Proof.
  intros H self HP. rewrite process_water_tank_eq.
  destruct (dict_get "167" (raw_data self)) as [[ |b|n|f|s|l|d]|];
    try exact HP.
  destruct (b64decode s) as [bs|e] eqn:E; [|exact HP].
  destruct (4 <? py_len bs) eqn:Hlen; [|exact HP].
  simpl. apply H; [|exact HP].
  pose proof (b64decode_is_bytes _ _ E) as Hbs.
  unfold is_bytes in Hbs. rewrite Forall_forall in Hbs.
  apply Hbs, nth_In. unfold py_len in Hlen. lia.
Qed.

Lemma process_clean_speed_preserves P :
  (forall s v, P s -> P (assign (with_clean_speed (Some v)) s)) ->
  preserves P _process_clean_speed.
Proof.
  intros H self HP. rewrite process_clean_speed_eq.
  destruct (dict_get "158" (raw_data self)) as [raw|]; [|exact HP].
  destruct (isinstance_int raw && (0 <=? int_value raw)
            && (int_value raw <? 4)) eqn:Hc; [|exact HP].
  apply andb_prop in Hc as [Hc H4]. apply andb_prop in Hc as [_ H0].
  destruct (nth_error CLEAN_SPEED_NAMES (Z.to_nat (int_value raw)))
    as [name|] eqn:En.
  - simpl. apply H; exact HP.
  - apply nth_error_None in En. simpl in En. lia.
Qed.

Lemma process_work_status_preserves P :
  (forall s v, P s -> P (assign (with_work_status (Some v)) s)) ->
  preserves P _process_work_status.
Proof.
  intros H self HP. rewrite process_work_status_eq.
  destruct (dict_get "153" (raw_data self)) as [raw|]; [|exact HP].
  destruct (isinstance_int raw); [|exact HP].
  destruct (intdict_get _ _); [apply H|]; exact HP.
Qed.

Lemma process_play_pause_preserves P :
  (forall s v, P s -> P (assign (with_play_pause (Some v)) s)) ->
  preserves P _process_play_pause.
Proof.
  intros H self HP. rewrite process_play_pause_eq.
  destruct (dict_get "152" (raw_data self)) as [raw|]; [apply H|]; exact HP.
Qed.

(** An invariant that survives each of the five field assignments
    survives the chain of decoders, also when the chain raises. *)
Lemma decoders_preserve P :
  (forall s n, P s -> P (assign (with_battery (Some (Z.max 0 (Z.min 100 n)))) s)) ->
  (forall s b, 0 <= b <= 255 -> P s ->
     P (assign (with_water_tank (Some (Z.min 100 (b * 100 / 255)))) s)) ->
  (forall s v, P s -> P (assign (with_clean_speed (Some v)) s)) ->
  (forall s v, P s -> P (assign (with_work_status (Some v)) s)) ->
  (forall s v, P s -> P (assign (with_play_pause (Some v)) s)) ->
  preserves P decoders.
Proof.
  intros Hb Hw Hc Hs Hp.
  apply preserves_seq; [now apply process_battery_preserves|].
  apply preserves_seq; [now apply process_water_tank_preserves|].
  apply preserves_seq; [now apply process_clean_speed_preserves|].
  apply preserves_seq; [now apply process_work_status_preserves|].
  now apply process_play_pause_preserves.
Qed.

(** *** Each decoder reads the sample only *)

Lemma process_battery_deterministic : deterministic _process_battery.
Proof.
  intros s1 s2 [Hraw Hf]. rewrite !process_battery_eq, Hraw.
  destruct (dict_get "163" (raw_data s2)) as [raw|]; [|same_cycle_step].
  destruct (py_int raw) as [n|e]; [same_cycle_step|].
  destruct e; same_cycle_step.
Qed.

Lemma process_water_tank_deterministic : deterministic _process_water_tank.
Proof.
  intros s1 s2 [Hraw Hf]. rewrite !process_water_tank_eq, Hraw.
  destruct (dict_get "167" (raw_data s2)) as [[ |b|n|f|s|l|d]|];
    try same_cycle_step.
  destruct (b64decode s) as [bs|e]; [|same_cycle_step].
  destruct (4 <? py_len bs); same_cycle_step.
Qed.

Lemma process_clean_speed_deterministic : deterministic _process_clean_speed.
Proof.
  intros s1 s2 [Hraw Hf]. rewrite !process_clean_speed_eq, Hraw.
  destruct (dict_get "158" (raw_data s2)) as [raw|]; [|same_cycle_step].
  destruct (isinstance_int raw && (0 <=? int_value raw)
            && (int_value raw <? 4)); same_cycle_step.
Qed.

Lemma process_work_status_deterministic : deterministic _process_work_status.
Proof.
  intros s1 s2 [Hraw Hf]. rewrite !process_work_status_eq, Hraw.
  destruct (dict_get "153" (raw_data s2)) as [raw|]; [|same_cycle_step].
  destruct (isinstance_int raw); [|same_cycle_step].
  destruct (intdict_get _ _); same_cycle_step.
Qed.

Lemma process_play_pause_deterministic : deterministic _process_play_pause.
Proof.
  intros s1 s2 [Hraw Hf]. rewrite !process_play_pause_eq, Hraw.
  destruct (dict_get "152" (raw_data s2)) as [raw|]; same_cycle_step.
Qed.

Lemma decoders_deterministic : deterministic decoders.
Proof.
  apply deterministic_seq; [apply process_battery_deterministic|].
  apply deterministic_seq; [apply process_water_tank_deterministic|].
  apply deterministic_seq; [apply process_clean_speed_deterministic|].
  apply deterministic_seq; [apply process_work_status_deterministic|].
  apply process_play_pause_deterministic.
Qed.

(** *** Which decoders can raise *)

(** A body under [except Exception] never raises. *)
Lemma try_except_exception_returns body self :
  fst (try_except body [CException] self) = Ok tt.
Proof.
  unfold try_except. destruct (body self) as [[[]|e] self']; reflexivity.
Qed.

Lemma process_water_tank_returns self : fst (_process_water_tank self) = Ok tt.
Proof.
  unfold _process_water_tank, bind, get_self.
  destruct (negb _); [reflexivity|apply try_except_exception_returns].
Qed.

Lemma process_clean_speed_returns self : fst (_process_clean_speed self) = Ok tt.
Proof.
  unfold _process_clean_speed, bind, get_self.
  destruct (negb _); [reflexivity|apply try_except_exception_returns].
Qed.

Lemma process_work_status_returns self : fst (_process_work_status self) = Ok tt.
Proof.
  unfold _process_work_status, bind, get_self.
  destruct (negb _); [reflexivity|apply try_except_exception_returns].
Qed.

Lemma process_play_pause_returns self : fst (_process_play_pause self) = Ok tt.
Proof.
  unfold _process_play_pause, bind, get_self.
  destruct (negb _); [reflexivity|apply try_except_exception_returns].
Qed.

(** The battery decoder, under [except (ValueError, TypeError)], lets the
    [OverflowError] of an infinite float through and nothing else. *)
Lemma process_battery_outcome self :
  fst (_process_battery self) =
  match dict_get "163" (raw_data self) with
  | Some (VFloat (S754_infinity _)) => Raise OverflowError
  | _ => Ok tt
  end.
Proof.
  rewrite process_battery_eq.
  destruct (dict_get "163" (raw_data self)) as [raw|]; [|reflexivity].
  destruct (py_int raw) as [n|e] eqn:E.
  - destruct raw as [ |b|z|f|s|l|d]; try reflexivity.
    destruct f; simpl in E; try discriminate; reflexivity.
  - destruct (py_int_raises _ _ E) as [-> | [-> | [-> [sgn ->]]]];
      try reflexivity.
    + destruct raw as [ |b|z|f|s|l|d]; try reflexivity.
      destruct f; simpl in E; try discriminate; reflexivity.
    + destruct raw as [ |b|z|f|s|l|d]; try reflexivity.
      destruct f; simpl in E; try discriminate; reflexivity.
Qed.

Lemma decoders_outcome self :
  fst (decoders self) =
  match dict_get "163" (raw_data self) with
  | Some (VFloat (S754_infinity _)) => Raise OverflowError
  | _ => Ok tt
  end.
Proof.
  rewrite <- process_battery_outcome. unfold bind at 1.
  destruct (_process_battery self) as [[[]|e] self']; [|reflexivity].
  simpl fst.
  apply returns_seq; [apply process_water_tank_returns|].
  apply returns_seq; [apply process_clean_speed_returns|].
  apply returns_seq; [apply process_work_status_returns|].
  apply process_play_pause_returns.
Qed.

(** When the battery decoder returns, the chain runs the five decoders
    one after the other. *)
Lemma decoders_run self :
  fst (_process_battery self) = Ok tt ->
  snd (decoders self) =
  snd (_process_play_pause
         (snd (_process_work_status
                 (snd (_process_clean_speed
                         (snd (_process_water_tank
                                 (snd (_process_battery self))))))))).
Proof.
  intros Hb. unfold bind.
  destruct (_process_battery self) as [[[]|e] s1]; [|discriminate Hb].
  simpl snd.
  pose proof (process_water_tank_returns s1) as Hw.
  destruct (_process_water_tank s1) as [[[]|e] s2]; [|discriminate Hw].
  simpl snd.
  pose proof (process_clean_speed_returns s2) as Hc.
  destruct (_process_clean_speed s2) as [[[]|e] s3]; [|discriminate Hc].
  simpl snd.
  pose proof (process_work_status_returns s3) as Hs.
  destruct (_process_work_status s3) as [[[]|e] s4]; [|discriminate Hs].
  reflexivity.
Qed.

(** *** Each field depends on its own key only *)

Lemma decoders_agree {T : Type} (key : string) (field : ParsedData -> T) :
  (forall s1 s2, agree_on key field s1 s2 ->
     agree_on key field (snd (_process_battery s1)) (snd (_process_battery s2))) ->
  (forall s1 s2, agree_on key field s1 s2 ->
     agree_on key field (snd (_process_water_tank s1))
       (snd (_process_water_tank s2))) ->
  (forall s1 s2, agree_on key field s1 s2 ->
     agree_on key field (snd (_process_clean_speed s1))
       (snd (_process_clean_speed s2))) ->
  (forall s1 s2, agree_on key field s1 s2 ->
     agree_on key field (snd (_process_work_status s1))
       (snd (_process_work_status s2))) ->
  (forall s1 s2, agree_on key field s1 s2 ->
     agree_on key field (snd (_process_play_pause s1))
       (snd (_process_play_pause s2))) ->
  forall s1 s2,
    fst (_process_battery s1) = Ok tt ->
    fst (_process_battery s2) = Ok tt ->
    agree_on key field s1 s2 ->
    agree_on key field (snd (decoders s1)) (snd (decoders s2)).
Proof.
  intros Hb Hw Hc Hs Hp s1 s2 H1 H2 H.
  rewrite !decoders_run by assumption.
  apply Hp, Hs, Hc, Hw, Hb, H.
Qed.

Lemma battery_agree s1 s2 :
  fst (_process_battery s1) = Ok tt ->
  fst (_process_battery s2) = Ok tt ->
  agree_on "163" battery s1 s2 ->
  agree_on "163" battery (snd (decoders s1)) (snd (decoders s2)).
Proof.
  apply decoders_agree.
  - agree_step process_battery_eq.
  - agree_step process_water_tank_eq.
  - agree_step process_clean_speed_eq.
  - agree_step process_work_status_eq.
  - agree_step process_play_pause_eq.
Qed.

Lemma water_tank_agree s1 s2 :
  fst (_process_battery s1) = Ok tt ->
  fst (_process_battery s2) = Ok tt ->
  agree_on "167" water_tank s1 s2 ->
  agree_on "167" water_tank (snd (decoders s1)) (snd (decoders s2)).
Proof.
  apply decoders_agree.
  - agree_step process_battery_eq.
  - agree_step process_water_tank_eq.
  - agree_step process_clean_speed_eq.
  - agree_step process_work_status_eq.
  - agree_step process_play_pause_eq.
Qed.

Lemma clean_speed_agree s1 s2 :
  fst (_process_battery s1) = Ok tt ->
  fst (_process_battery s2) = Ok tt ->
  agree_on "158" clean_speed s1 s2 ->
  agree_on "158" clean_speed (snd (decoders s1)) (snd (decoders s2)).
Proof.
  apply decoders_agree.
  - agree_step process_battery_eq.
  - agree_step process_water_tank_eq.
  - agree_step process_clean_speed_eq.
  - agree_step process_work_status_eq.
  - agree_step process_play_pause_eq.
Qed.

Lemma work_status_agree s1 s2 :
  fst (_process_battery s1) = Ok tt ->
  fst (_process_battery s2) = Ok tt ->
  agree_on "153" work_status s1 s2 ->
  agree_on "153" work_status (snd (decoders s1)) (snd (decoders s2)).
Proof.
  apply decoders_agree.
  - agree_step process_battery_eq.
  - agree_step process_water_tank_eq.
  - agree_step process_clean_speed_eq.
  - agree_step process_work_status_eq.
  - agree_step process_play_pause_eq.
Qed.

Lemma play_pause_agree s1 s2 :
  fst (_process_battery s1) = Ok tt ->
  fst (_process_battery s2) = Ok tt ->
  agree_on "152" play_pause s1 s2 ->
  agree_on "152" play_pause (snd (decoders s1)) (snd (decoders s2)).
Proof.
  apply decoders_agree.
  - agree_step process_battery_eq.
  - agree_step process_water_tank_eq.
  - agree_step process_clean_speed_eq.
  - agree_step process_work_status_eq.
  - agree_step process_play_pause_eq.
Qed.

(* ================================================================= *)
(** ** Found and missing keys *)

Lemma filter_negb_partition {A : Type} (f : A -> bool) (l : list A) :
  Permutation (filter f l ++ filter (fun x => negb (f x)) l) l.
Proof.
  induction l as [|x l IH]; simpl; [constructor|].
  destruct (f x); simpl.
  - now constructor.
  - rewrite <- Permutation_middle. now constructor.
Qed.

Lemma filter_subsequence {A : Type} (f : A -> bool) (l : list A) :
  subsequence (filter f l) l.
Proof.
  induction l as [|x l IH]; simpl; [constructor|].
  destruct (f x); now constructor.
Qed.

Lemma MONITORED_KEYS_NoDup : NoDup MONITORED_KEYS.
Proof.
  unfold MONITORED_KEYS.
  repeat (constructor;
          [ simpl; intros H;
            repeat (destruct H as [H|H]; [discriminate H|]); exact H | ]).
  constructor.
Qed.

(** C1. For every sample, the found list and the missing list built by
    [_process_data] partition [MONITORED_KEYS]: they are [MONITORED_KEYS]
    filtered by "the key is in the sample" and by its negation, so each of
    the 12 keys is in exactly one of them, nothing is duplicated or left
    out, and each list keeps the order of [MONITORED_KEYS].  A key is
    found exactly when it is a key of the sample; the value stored under
    it, and whether the cycle later raises, play no role. *)
Theorem C1_found_missing_partition :
  forall (now : spec_float) (self : EufyX10DebugCoordinator),
    let pd := parsed_data (snd (_process_data now self)) in
    let found := monitored_keys_found pd in
    let missing := monitored_keys_missing pd in
    found = filter (fun k => dict_contains k (raw_data self)) MONITORED_KEYS /\
    missing =
      filter (fun k => negb (dict_contains k (raw_data self))) MONITORED_KEYS /\
    List.length MONITORED_KEYS = 12%nat /\
    Permutation (found ++ missing) MONITORED_KEYS /\
    NoDup (found ++ missing) /\
    subsequence found MONITORED_KEYS /\
    subsequence missing MONITORED_KEYS /\
    (forall key, In key MONITORED_KEYS ->
       (In key found /\ ~ In key missing) \/
       (In key missing /\ ~ In key found)) /\
    (forall key, In key found <->
       In key MONITORED_KEYS /\ dict_contains key (raw_data self) = true).
Proof.
  intros now self pd found missing.
  assert (Hlists :
    found = filter (fun k => dict_contains k (raw_data self)) MONITORED_KEYS /\
    missing =
      filter (fun k => negb (dict_contains k (raw_data self))) MONITORED_KEYS).
  { subst found missing pd. rewrite process_data_eq.
    apply (decoders_preserve
             (fun s =>
                monitored_keys_found (parsed_data s) =
                  filter (fun k => dict_contains k (raw_data self)) MONITORED_KEYS /\
                monitored_keys_missing (parsed_data s) =
                  filter (fun k => negb (dict_contains k (raw_data self)))
                    MONITORED_KEYS)); auto. }
  destruct Hlists as [Hf Hm].
  assert (Hperm : Permutation (found ++ missing) MONITORED_KEYS).
  { rewrite Hf, Hm. apply filter_negb_partition. }
  split; [exact Hf|]. split; [exact Hm|]. split; [reflexivity|].
  split; [exact Hperm|].
  split.
  { apply (Permutation_NoDup (Permutation_sym Hperm)), MONITORED_KEYS_NoDup. }
  split; [rewrite Hf; apply filter_subsequence|].
  split; [rewrite Hm; apply filter_subsequence|].
  split.
  - intros key Hin. rewrite Hf, Hm, !filter_In.
    destruct (dict_contains key (raw_data self)); simpl.
    + left. split; [auto|]. intros [_ H]; discriminate.
    + right. split; [auto|]. intros [_ H]; discriminate.
  - intros key. rewrite Hf, filter_In. reflexivity.
Qed.

(** C1 on the scenario sample and on a sample whose values do not decode:
    the same keys are found. *)
Lemma C1_found_missing_partition_witness :
  monitored_keys_found
    (parsed_data (snd (_process_data (S754_zero false)
                         (coordinator_with scenario_sample)))) =
    ["163"; "167"; "153"; "152"; "158"] /\
  monitored_keys_found
    (parsed_data (snd (_process_data (S754_zero false)
                         (coordinator_with
                            [ ("163", VStr "n/a"); ("158", VInt 7);
                              ("153", VNone); ("152", VList []);
                              ("167", VStr "AAAAANI") ])))) =
    ["163"; "167"; "153"; "152"; "158"] /\
  (In "177" MONITORED_KEYS ->
   In "177"
     (monitored_keys_missing
        (parsed_data (snd (_process_data (S754_zero false)
                             (coordinator_with scenario_sample)))))).
Proof.
  split; [|split].
  - exact (proj1 (C1_found_missing_partition (S754_zero false)
                    (coordinator_with scenario_sample))).
  - exact (proj1 (C1_found_missing_partition (S754_zero false)
                    (coordinator_with
                       [ ("163", VStr "n/a"); ("158", VInt 7);
                         ("153", VNone); ("152", VList []);
                         ("167", VStr "AAAAANI") ]))).
  - intros Hin.
    destruct (C1_found_missing_partition (S754_zero false)
                (coordinator_with scenario_sample))
      as (_ & Hm & _).
    rewrite Hm. vm_compute. tauto.
Defined.

(* ================================================================= *)
(** ** The end-to-end scenario *)

(** C2, as stated, fails: on the scenario sample the found list is not
    ["163"; "167"; "158"; "153"; "152"].  The loop walks [MONITORED_KEYS],
    where "153" and "152" come before "158". *)
Lemma C2_found_order_counterexample :
  monitored_keys_found
    (parsed_data (snd (_process_data (S754_zero false)
                         (coordinator_with scenario_sample)))) <>
  ["163"; "167"; "158"; "153"; "152"].
Proof. vm_compute. discriminate. Qed.

(** C2, amended.  For a sample holding exactly "163" -> 85, "158" -> 2,
    "153" -> 5, "152" -> true and "167" -> the base64 encoding of the bytes
    0, 0, 0, 0, 210, one cycle completes with battery 85, clean speed
    "turbo", work status "cleaning", play/pause true, water tank 82, the
    found list ["163"; "167"; "153"; "152"; "158"] (the order of
    [MONITORED_KEYS]) and the other seven monitored keys, in that order, as
    the missing list. *)
Theorem C2_scenario_snapshot :
  forall (now : spec_float) (self : EufyX10DebugCoordinator),
    raw_data self = scenario_sample ->
    let result := _process_data now self in
    let pd := parsed_data (snd result) in
    fst result = Ok tt /\
    battery pd = Some 85 /\
    clean_speed pd = Some "turbo" /\
    work_status pd = Some "cleaning" /\
    play_pause pd = Some true /\
    water_tank pd = Some 82 /\
    monitored_keys_found pd = ["163"; "167"; "153"; "152"; "158"] /\
    monitored_keys_missing pd =
      ["177"; "178"; "168"; "154"; "155"; "160"; "173"].
Proof.
  intros now [dev dbg raw pd0 lu uc] Hraw. simpl in Hraw. subst raw.
  vm_compute. repeat split; reflexivity.
Qed.

Lemma C2_scenario_snapshot_witness :
  raw_data (coordinator_with scenario_sample) = scenario_sample /\
  water_tank
    (parsed_data (snd (_process_data (S754_zero false)
                         (coordinator_with scenario_sample)))) = Some 82 /\
  monitored_keys_found
    (parsed_data (snd (_process_data (S754_zero false)
                         (coordinator_with scenario_sample)))) =
    ["163"; "167"; "153"; "152"; "158"].
Proof.
  split; [reflexivity|].
  pose proof (C2_scenario_snapshot (S754_zero false)
                (coordinator_with scenario_sample) eq_refl) as H.
  cbv zeta in H. destruct H as (_ & _ & _ & _ & _ & Hw & Hf & _).
  split; [exact Hw|exact Hf].
Defined.

(* ================================================================= *)
(** ** The decoders, one by one

    A decoder that "returns absent" leaves the coordinator as it is: the
    field keeps the [None] that [_process_data] stored in it before the
    decoders ran. *)

(** C3, as stated, fails on malformed base64: ["AAAA*ANI="] is the
    encoding of no byte sequence, yet the decoder skips the ['*'] and
    stores 82, as for ["AAAAANI="]; the same goes for a pad in front. *)
Lemma C3_malformed_counterexample :
  ~ well_formed_base64 "AAAA*ANI=" /\
  water_tank
    (parsed_data
       (snd (_process_water_tank
               (coordinator_with [("167", VStr "AAAA*ANI=")])))) = Some 82 /\
  ~ well_formed_base64 "=AAAAANI=" /\
  water_tank
    (parsed_data
       (snd (_process_water_tank
               (coordinator_with [("167", VStr "=AAAAANI=")])))) = Some 82.
Proof.
  assert (Hmal : forall s,
            b64decode s = Ok [0; 0; 0; 0; 210] ->
            s <> b64encode [0; 0; 0; 0; 210] -> ~ well_formed_base64 s).
  { intros s Hdec Hne (bs & Hbs & ->).
    rewrite (b64decode_b64encode bs Hbs) in Hdec. injection Hdec as ->.
    now apply Hne. }
  split; [|split; [|split]].
  - apply Hmal; [reflexivity|discriminate].
  - reflexivity.
  - apply Hmal; [reflexivity|discriminate].
  - reflexivity.
Qed.

(** C3, amended.  [_process_water_tank] on a string under key 167.  A
    well-formed string decodes to the bytes it encodes; whenever the
    string decodes to at least five bytes, the water tank becomes
    [min(100, floor(byte4 * 100 / 255))], which gives 82 for the encoding
    of 0, 0, 0, 0, 210.  The field stays absent, and the decoder returns
    normally, when the string decodes to four bytes or fewer and when
    [b64decode] rejects it: for a non-ASCII character, and for digits that
    stop in the middle of a group of four (as in every ASCII string
    without pads whose number of digits is no multiple of four).  Other
    malformed strings are not rejected: the ASCII characters that are
    neither digits nor pads are skipped, and the string is decoded like
    the string without them. *)
Theorem C3_water_tank_decoding :
  forall (self : EufyX10DebugCoordinator) (s : string),
    dict_get "167" (raw_data self) = Some (VStr s) ->
    let stores bs :=
      _process_water_tank self =
      (Ok tt,
       assign (with_water_tank (Some (Z.min 100 (nth 4 bs 0 * 100 / 255))))
         self) in
    let absent := _process_water_tank self = (Ok tt, self) in
    (well_formed_base64 s ->
       exists bs,
         is_bytes bs /\ s = b64encode bs /\ b64decode s = Ok bs /\
         ((5 <= List.length bs)%nat -> stores bs) /\
         ((List.length bs <= 4)%nat -> absent)) /\
    (forall bs, b64decode s = Ok bs -> (5 <= List.length bs)%nat ->
       stores bs) /\
    (forall bs, is_bytes bs -> (5 <= List.length bs)%nat ->
       s = b64encode bs -> stores bs) /\
    (s = b64encode [0; 0; 0; 0; 210] ->
       _process_water_tank self =
       (Ok tt, assign (with_water_tank (Some 82)) self)) /\
    (forall e, b64decode s = Raise e -> absent) /\
    ((exists c, In c (codepoints s) /\ 128 <= c) -> absent) /\
    (is_ascii s = true ->
     forallb (fun c => negb (c =? BASE64_PAD)) (codepoints s) = true ->
     Z.of_nat (List.length (base64_digits s)) mod 4 <> 0 -> absent) /\
    (forall bs, b64decode s = Ok bs -> (List.length bs <= 4)%nat -> absent) /\
    (is_ascii s = true ->
     b64decode s = b64decode (strip_noise s) /\
     forall bs, b64decode (strip_noise s) = Ok bs ->
       (5 <= List.length bs)%nat -> stores bs).
Proof.
  intros self s Hget stores absent. subst stores absent. cbv beta.
  assert (Hlong : forall bs, b64decode s = Ok bs -> (5 <= List.length bs)%nat ->
            _process_water_tank self =
            (Ok tt,
             assign (with_water_tank
                       (Some (Z.min 100 (nth 4 bs 0 * 100 / 255)))) self)).
  { intros bs Hdec Hlen. rewrite process_water_tank_eq, Hget, Hdec.
    destruct (4 <? py_len bs) eqn:E; [reflexivity|].
    unfold py_len in E. lia. }
  assert (Hshort : forall bs, b64decode s = Ok bs ->
            (List.length bs <= 4)%nat ->
            _process_water_tank self = (Ok tt, self)).
  { intros bs Hdec Hlen. rewrite process_water_tank_eq, Hget, Hdec.
    destruct (4 <? py_len bs) eqn:E; [|reflexivity].
    unfold py_len in E. lia. }
  assert (Hrej : forall e, b64decode s = Raise e ->
                 _process_water_tank self = (Ok tt, self)).
  { intros e Hdec. rewrite process_water_tank_eq, Hget, Hdec. reflexivity. }
  split; [|split; [exact Hlong|split; [|split; [|split; [exact Hrej|
    split; [|split; [|split; [exact Hshort|]]]]]]]].
  - intros (bs & Hbs & E). exists bs.
    pose proof (b64decode_b64encode bs Hbs) as Hdec. rewrite <- E in Hdec.
    split; [exact Hbs|split; [exact E|split; [exact Hdec|split]]].
    + exact (Hlong bs Hdec).
    + exact (Hshort bs Hdec).
  - intros bs Hbs Hlen ->. apply Hlong; [|exact Hlen].
    apply b64decode_b64encode; exact Hbs.
  - intros ->. apply (Hlong [0; 0; 0; 0; 210]); [reflexivity|simpl; lia].
  - intros [c [Hin Hc]]. apply (Hrej ValueError). unfold b64decode.
    destruct (forallb (fun c => c <? 128) (codepoints s)) eqn:E;
      [|reflexivity].
    rewrite forallb_forall in E. specialize (E c Hin). lia.
  - intros Ha Hnp Hmod. apply (Hrej BinasciiError).
    apply b64decode_incomplete; assumption.
  - intros Ha. rewrite (b64decode_strip_noise s Ha).
    split; [reflexivity|]. intros bs Hdec Hlen.
    exact (Hlong bs Hdec Hlen).
Qed.

Lemma C3_water_tank_decoding_witness :
  water_tank
    (parsed_data
       (snd (_process_water_tank
               (coordinator_with [("167", VStr "AAAAANI=")])))) = Some 82 /\
  water_tank
    (parsed_data
       (snd (_process_water_tank
               (coordinator_with [("167", VStr "AAAAANI")])))) = None /\
  water_tank
    (parsed_data
       (snd (_process_water_tank
               (coordinator_with [("167", VStr "AAAAAA==")])))) = None /\
  water_tank
    (parsed_data
       (snd (_process_water_tank
               (coordinator_with [("167", VStr "AAAA AN*I=")])))) = Some 82.
Proof.
  split; [|split; [|split]].
  - destruct (C3_water_tank_decoding
                (coordinator_with [("167", VStr "AAAAANI=")]) "AAAAANI="
                eq_refl) as (_ & _ & _ & H & _).
    rewrite (H eq_refl). reflexivity.
  - destruct (C3_water_tank_decoding
                (coordinator_with [("167", VStr "AAAAANI")]) "AAAAANI"
                eq_refl) as (_ & _ & _ & _ & _ & _ & H & _).
    rewrite (H eq_refl eq_refl ltac:(vm_compute; discriminate)).
    reflexivity.
  - destruct (C3_water_tank_decoding
                (coordinator_with [("167", VStr "AAAAAA==")]) "AAAAAA=="
                eq_refl) as (_ & _ & _ & _ & _ & _ & _ & H & _).
    rewrite (H [0; 0; 0; 0] eq_refl ltac:(simpl; lia)). reflexivity.
  - destruct (C3_water_tank_decoding
                (coordinator_with [("167", VStr "AAAA AN*I=")]) "AAAA AN*I="
                eq_refl) as (_ & _ & _ & _ & _ & _ & _ & _ & H).
    destruct (H eq_refl) as [_ H'].
    rewrite (H' [0; 0; 0; 0; 210] eq_refl ltac:(simpl; lia)). reflexivity.
Defined.

(** C4. [_process_battery] on the value under key 163.  Whatever [int]
    converts to a number [n] is stored as [n] clamped to [0..100]: an
    integer (the value itself inside the range, 0 below it and 100 above
    it), a boolean (1 or 0), and decimal text, that is [str(n)] of at most
    4300 digits, also between white space.  On a value whose conversion
    fails with a [ValueError] or a [TypeError] -- [None], a list, a dict,
    a string without a decimal digit, a string with a character other
    than white space, signs, digits and underscores -- the decoder returns
    normally and the battery stays absent.  On every value of a RawSample
    the decoder returns normally. *)
Theorem C4_battery_decoding :
  forall (self : EufyX10DebugCoordinator) (raw : pyval),
    dict_get "163" (raw_data self) = Some raw ->
    let stores n :=
      _process_battery self =
      (Ok tt, assign (with_battery (Some (Z.max 0 (Z.min 100 n)))) self) in
    let absent := _process_battery self = (Ok tt, self) in
    (forall n, raw = VInt n ->
       stores n /\
       0 <= Z.max 0 (Z.min 100 n) <= 100 /\
       (0 <= n <= 100 -> Z.max 0 (Z.min 100 n) = n) /\
       (n < 0 -> Z.max 0 (Z.min 100 n) = 0) /\
       (100 < n -> Z.max 0 (Z.min 100 n) = 100)) /\
    (forall b : bool, raw = VBool b -> stores (if b then 1 else 0)) /\
    (forall n pad1 pad2,
       raw = VStr (String.append pad1 (String.append (py_str_int n) pad2)) ->
       forallb is_int_space (codepoints pad1) = true ->
       forallb is_int_space (codepoints pad2) = true ->
       (String.length (py_str_int (Z.abs n)) <= max_str_digits)%nat ->
       stores n) /\
    (forall n, raw = VStr (py_str_int n) ->
       (String.length (py_str_int (Z.abs n)) <= max_str_digits)%nat ->
       stores n) /\
    (forall n, py_int raw = Ok n -> stores n) /\
    (py_int raw = Raise ValueError \/ py_int raw = Raise TypeError ->
       absent) /\
    (raw = VNone \/ (exists l, raw = VList l) \/ (exists d, raw = VDict d) \/
     (exists s, raw = VStr s /\
                forallb (fun c => negb (is_digit c)) (codepoints s) = true) ->
       absent) /\
    (forall s, raw = VStr s ->
       (exists c, In c (codepoints s) /\ is_int_char c = false) -> absent) /\
    (is_raw_sample_value raw = true -> fst (_process_battery self) = Ok tt).
Proof.
  intros self raw Hget stores absent. subst stores absent. cbv beta.
  assert (Hok : forall n, py_int raw = Ok n ->
            _process_battery self =
            (Ok tt,
             assign (with_battery (Some (Z.max 0 (Z.min 100 n)))) self)).
  { intros n E. rewrite process_battery_eq, Hget, E. reflexivity. }
  assert (Hfail : py_int raw = Raise ValueError \/ py_int raw = Raise TypeError ->
                  _process_battery self = (Ok tt, self)).
  { intros [E|E]; rewrite process_battery_eq, Hget, E; reflexivity. }
  split; [|split; [|split; [|split; [|split; [exact Hok|
    split; [exact Hfail|split; [|split]]]]]]].
  - intros n ->. split; [|lia]. apply Hok. reflexivity.
  - intros b ->. apply Hok. reflexivity.
  - intros n pad1 pad2 -> H1 H2 Hlen. apply Hok.
    apply py_int_padded; assumption.
  - intros n -> Hlen. apply Hok. apply py_int_py_str_int, Hlen.
  - intros [-> | [[l ->] | [[d ->] | [s [-> Hs]]]]]; apply Hfail; simpl; auto.
    left. apply long_from_string_no_digit, transform_no_digit, Hs.
  - intros s -> (c & Hin & Hc). apply Hfail. left.
    destruct (py_int (VStr s)) as [n|e] eqn:E.
    + pose proof (py_int_text_chars s n E) as H.
      rewrite forallb_forall in H. rewrite (H c Hin) in Hc. discriminate Hc.
    + f_equal. cbn [py_int] in E. exact (long_from_string_raises _ _ E).
  - intros Htyped. rewrite process_battery_outcome, Hget.
    destruct raw; try reflexivity; discriminate Htyped.
Qed.

Lemma C4_battery_decoding_witness :
  battery
    (parsed_data (snd (_process_battery (coordinator_with [("163", VInt (-5))]))))
    = Some 0 /\
  battery
    (parsed_data (snd (_process_battery (coordinator_with [("163", VInt 150)]))))
    = Some 100 /\
  battery
    (parsed_data (snd (_process_battery (coordinator_with [("163", VInt 85)]))))
    = Some 85 /\
  battery
    (parsed_data
       (snd (_process_battery (coordinator_with [("163", VBool true)]))))
    = Some 1 /\
  battery
    (parsed_data
       (snd (_process_battery (coordinator_with [("163", VStr " -85 ")]))))
    = Some 0 /\
  _process_battery (coordinator_with [("163", VStr "n/a")]) =
    (Ok tt, coordinator_with [("163", VStr "n/a")]) /\
  _process_battery (coordinator_with [("163", VStr "85%")]) =
    (Ok tt, coordinator_with [("163", VStr "85%")]) /\
  _process_battery (coordinator_with [("163", VNone)]) =
    (Ok tt, coordinator_with [("163", VNone)]).
Proof.
  split; [|split; [|split; [|split; [|split; [|split; [|split]]]]]].
  - destruct (C4_battery_decoding (coordinator_with [("163", VInt (-5))])
                (VInt (-5)) eq_refl) as (H & _).
    destruct (H (-5) eq_refl) as (E & _). rewrite E. reflexivity.
  - destruct (C4_battery_decoding (coordinator_with [("163", VInt 150)])
                (VInt 150) eq_refl) as (H & _).
    destruct (H 150 eq_refl) as (E & _). rewrite E. reflexivity.
  - destruct (C4_battery_decoding (coordinator_with [("163", VInt 85)])
                (VInt 85) eq_refl) as (H & _).
    destruct (H 85 eq_refl) as (E & _). rewrite E. reflexivity.
  - destruct (C4_battery_decoding (coordinator_with [("163", VBool true)])
                (VBool true) eq_refl) as (_ & H & _).
    rewrite (H true eq_refl). reflexivity.
  - destruct (C4_battery_decoding (coordinator_with [("163", VStr " -85 ")])
                (VStr " -85 ") eq_refl) as (_ & _ & H & _).
    rewrite (H (-85) " " " " eq_refl eq_refl eq_refl
               ltac:(change (2 <= max_str_digits)%nat;
                     unfold max_str_digits; lia)).
    reflexivity.
  - destruct (C4_battery_decoding (coordinator_with [("163", VStr "n/a")])
                (VStr "n/a") eq_refl) as (_ & _ & _ & _ & _ & _ & H & _).
    apply H. right; right; right. exists "n/a". split; reflexivity.
  - destruct (C4_battery_decoding (coordinator_with [("163", VStr "85%")])
                (VStr "85%") eq_refl) as (_ & _ & _ & _ & _ & _ & _ & H & _).
    apply (H "85%" eq_refl). exists 37. split; [|reflexivity].
    cbn. auto.
  - destruct (C4_battery_decoding (coordinator_with [("163", VNone)])
                VNone eq_refl) as (_ & _ & _ & _ & _ & _ & H & _).
    apply H. left. reflexivity.
Defined.

(** C5, as stated, fails: a boolean is not an integer of the sample's
    value type, yet [True] under key 158 decodes to "standard" instead of
    staying absent ([isinstance(True, int)] holds in Python). *)
Lemma C5_boolean_counterexample :
  clean_speed
    (parsed_data
       (snd (_process_clean_speed (coordinator_with [("158", VBool true)]))))
    = Some "standard" /\
  clean_speed
    (parsed_data
       (snd (_process_clean_speed (coordinator_with [("158", VBool true)]))))
    <> None.
Proof. split; [reflexivity|discriminate]. Qed.

(** C5, amended.  [_process_clean_speed] on an integer [i] under key 158
    with [0 <= i < 4] stores the [i]-th name of
    ["quiet"; "standard"; "turbo"; "max"] (so 2 gives "turbo"); on an
    integer that is negative or at least 4, and on a value that is neither
    an integer nor a boolean ([None], a float, a string, a list, a dict),
    it returns normally and the clean speed stays absent. *)
Theorem C5_clean_speed_decoding :
  forall (self : EufyX10DebugCoordinator) (raw : pyval),
    dict_get "158" (raw_data self) = Some raw ->
    CLEAN_SPEED_NAMES = ["quiet"; "standard"; "turbo"; "max"] /\
    (forall i, raw = VInt i -> 0 <= i < 4 ->
       exists name,
         nth_error CLEAN_SPEED_NAMES (Z.to_nat i) = Some name /\
         _process_clean_speed self =
         (Ok tt, assign (with_clean_speed (Some name)) self)) /\
    (raw = VInt 2 ->
       _process_clean_speed self =
       (Ok tt, assign (with_clean_speed (Some "turbo")) self)) /\
    (forall i, raw = VInt i -> i < 0 \/ 4 <= i ->
       _process_clean_speed self = (Ok tt, self)) /\
    (isinstance_int raw = false ->
       _process_clean_speed self = (Ok tt, self)).
Proof.
  intros self raw Hget.
  split; [reflexivity|]. split; [|split; [|split]].
  - intros i -> Hi. rewrite process_clean_speed_eq, Hget. simpl.
    destruct (0 <=? i) eqn:E0; [|lia]. destruct (i <? 4) eqn:E4; [|lia].
    simpl.
    destruct (nth_error CLEAN_SPEED_NAMES (Z.to_nat i)) as [name|] eqn:En.
    + exists name. split; reflexivity.
    + apply nth_error_None in En. simpl in En. lia.
  - intros ->. rewrite process_clean_speed_eq, Hget. reflexivity.
  - intros i -> Hi. rewrite process_clean_speed_eq, Hget. simpl.
    destruct (0 <=? i) eqn:E0; [|reflexivity].
    destruct (i <? 4) eqn:E4; [lia|reflexivity].
  - intros Hn. rewrite process_clean_speed_eq, Hget, Hn. reflexivity.
Qed.

Lemma C5_clean_speed_decoding_witness :
  clean_speed
    (parsed_data
       (snd (_process_clean_speed (coordinator_with [("158", VInt 2)]))))
    = Some "turbo" /\
  _process_clean_speed (coordinator_with [("158", VInt 4)]) =
    (Ok tt, coordinator_with [("158", VInt 4)]) /\
  _process_clean_speed (coordinator_with [("158", VInt (-1))]) =
    (Ok tt, coordinator_with [("158", VInt (-1))]) /\
  _process_clean_speed (coordinator_with [("158", VStr "2")]) =
    (Ok tt, coordinator_with [("158", VStr "2")]).
Proof.
  split; [|split; [|split]].
  - destruct (C5_clean_speed_decoding (coordinator_with [("158", VInt 2)])
                (VInt 2) eq_refl) as (_ & _ & H & _).
    rewrite (H eq_refl). reflexivity.
  - destruct (C5_clean_speed_decoding (coordinator_with [("158", VInt 4)])
                (VInt 4) eq_refl) as (_ & _ & _ & H & _).
    apply (H 4 eq_refl). lia.
  - destruct (C5_clean_speed_decoding (coordinator_with [("158", VInt (-1))])
                (VInt (-1)) eq_refl) as (_ & _ & _ & H & _).
    apply (H (-1) eq_refl). lia.
  - destruct (C5_clean_speed_decoding (coordinator_with [("158", VStr "2")])
                (VStr "2") eq_refl) as (_ & _ & _ & _ & H).
    apply H. reflexivity.
Defined.

(** C6, as stated, fails: a boolean is not an integer of the sample's
    value type, yet [True] under key 153 decodes to "sleep" instead of
    staying absent ([True] is an [int] instance equal to the key 1). *)
Lemma C6_boolean_counterexample :
  work_status
    (parsed_data
       (snd (_process_work_status (coordinator_with [("153", VBool true)]))))
    = Some "sleep" /\
  work_status
    (parsed_data
       (snd (_process_work_status (coordinator_with [("153", VBool true)]))))
    <> None.
Proof. split; [reflexivity|discriminate]. Qed.

(** C6, amended.  [_process_work_status] on an integer under key 153 that
    is a key of the nine-entry [WORK_STATUS_MAP] (the integers 0 to 8)
    stores the mapped name (5 gives "cleaning"); on an integer that is not
    a key (such as 99), and on a value that is neither an integer nor a
    boolean, it returns normally and the work status stays absent. *)
Theorem C6_work_status_decoding :
  forall (self : EufyX10DebugCoordinator) (raw : pyval),
    dict_get "153" (raw_data self) = Some raw ->
    WORK_STATUS_MAP =
      [ (0, "standby"); (1, "sleep"); (2, "fault"); (3, "charging");
        (4, "fast_mapping"); (5, "cleaning"); (6, "remote_ctrl");
        (7, "go_home"); (8, "cruising") ] /\
    (forall i, intdict_contains i WORK_STATUS_MAP = true <-> 0 <= i <= 8) /\
    (forall i name, raw = VInt i ->
       intdict_get i WORK_STATUS_MAP = Some name ->
       _process_work_status self =
       (Ok tt, assign (with_work_status (Some name)) self)) /\
    (raw = VInt 5 ->
       _process_work_status self =
       (Ok tt, assign (with_work_status (Some "cleaning")) self)) /\
    (forall i, raw = VInt i -> intdict_contains i WORK_STATUS_MAP = false ->
       _process_work_status self = (Ok tt, self)) /\
    (raw = VInt 99 -> _process_work_status self = (Ok tt, self)) /\
    (isinstance_int raw = false ->
       _process_work_status self = (Ok tt, self)).
Proof.
  intros self raw Hget.
  split; [reflexivity|]. split; [|split; [|split; [|split; [|split]]]].
  - intros i. unfold intdict_contains, WORK_STATUS_MAP. simpl.
    repeat match goal with
           | |- context [i =? ?k] => destruct (Z.eqb_spec i k)
           end; split; intros H; try reflexivity; try discriminate; lia.
  - intros i name -> Hname.
    rewrite process_work_status_eq, Hget. cbn [isinstance_int int_value].
    rewrite Hname. reflexivity.
  - intros ->. rewrite process_work_status_eq, Hget. reflexivity.
  - intros i -> Hno. rewrite process_work_status_eq, Hget.
    cbn [isinstance_int int_value]. unfold intdict_contains in Hno.
    destruct (intdict_get i WORK_STATUS_MAP); [discriminate|reflexivity].
  - intros ->. rewrite process_work_status_eq, Hget. reflexivity.
  - intros Hn. rewrite process_work_status_eq, Hget, Hn. reflexivity.
Qed.

Lemma C6_work_status_decoding_witness :
  work_status
    (parsed_data
       (snd (_process_work_status (coordinator_with [("153", VInt 5)]))))
    = Some "cleaning" /\
  _process_work_status (coordinator_with [("153", VInt 99)]) =
    (Ok tt, coordinator_with [("153", VInt 99)]) /\
  _process_work_status (coordinator_with [("153", VStr "5")]) =
    (Ok tt, coordinator_with [("153", VStr "5")]).
Proof.
  split; [|split].
  - destruct (C6_work_status_decoding (coordinator_with [("153", VInt 5)])
                (VInt 5) eq_refl) as (_ & _ & _ & H & _).
    rewrite (H eq_refl). reflexivity.
  - destruct (C6_work_status_decoding (coordinator_with [("153", VInt 99)])
                (VInt 99) eq_refl) as (_ & _ & _ & _ & _ & H & _).
    apply H. reflexivity.
  - destruct (C6_work_status_decoding (coordinator_with [("153", VStr "5")])
                (VStr "5") eq_refl) as (_ & _ & _ & _ & _ & _ & H).
    apply H. reflexivity.
Defined.

(** C10. [_process_clean_speed] takes a boolean under key 158 as an index:
    the test [isinstance(speed_raw, int)] accepts it, [True] gives
    "standard" (index 1) and [False] gives "quiet" (index 0). *)
Theorem C10_boolean_clean_speed :
  forall (self : EufyX10DebugCoordinator) (b : bool),
    dict_get "158" (raw_data self) = Some (VBool b) ->
    isinstance_int (VBool b) = true /\
    int_value (VBool b) = (if b then 1 else 0) /\
    nth_error CLEAN_SPEED_NAMES 1 = Some "standard" /\
    nth_error CLEAN_SPEED_NAMES 0 = Some "quiet" /\
    _process_clean_speed self =
    (Ok tt,
     assign (with_clean_speed (Some (if b then "standard" else "quiet"))) self).
Proof.
  intros self b Hget. repeat (split; [reflexivity|]).
  rewrite process_clean_speed_eq, Hget. destruct b; reflexivity.
Qed.

Lemma C10_boolean_clean_speed_witness :
  clean_speed
    (parsed_data
       (snd (_process_clean_speed (coordinator_with [("158", VBool true)]))))
    = Some "standard" /\
  clean_speed
    (parsed_data
       (snd (_process_clean_speed (coordinator_with [("158", VBool false)]))))
    = Some "quiet".
Proof.
  split.
  - destruct (C10_boolean_clean_speed (coordinator_with [("158", VBool true)])
                true eq_refl) as (_ & _ & _ & _ & H).
    rewrite H. reflexivity.
  - destruct (C10_boolean_clean_speed (coordinator_with [("158", VBool false)])
                false eq_refl) as (_ & _ & _ & _ & H).
    rewrite H. reflexivity.
Defined.

(* ================================================================= *)
(** ** The whole cycle *)

(** The cycle leaves the sample and the sequence number alone. *)
Lemma process_data_keeps_sample now self :
  raw_data (snd (_process_data now self)) = raw_data self /\
  update_count (snd (_process_data now self)) = update_count self.
Proof.
  rewrite process_data_eq.
  apply (decoders_preserve
           (fun s => raw_data s = raw_data self /\
                     update_count s = update_count self)); auto.
Qed.

(** C7. For every sample, after [_process_data] the battery and the water
    tank percentage, when present, lie in [0..100] (also when the cycle
    raises). *)
Theorem C7_percentages_in_range :
  forall (now : spec_float) (self : EufyX10DebugCoordinator),
    let pd := parsed_data (snd (_process_data now self)) in
    (forall b, battery pd = Some b -> 0 <= b <= 100) /\
    (forall w, water_tank pd = Some w -> 0 <= w <= 100).
Proof.
  intros now self. cbv zeta. rewrite process_data_eq.
  apply (decoders_preserve (fun s => percentages_in_range (parsed_data s))).
  - intros s n [_ Hw]. split; simpl; [|exact Hw].
    intros b E. inversion E. lia.
  - intros s b Hb [Hbat _]. split; simpl; [exact Hbat|].
    intros w E. inversion E.
    pose proof (Z.div_pos (b * 100) 255 ltac:(lia) ltac:(lia)). lia.
  - intros s v H; exact H.
  - intros s v H; exact H.
  - intros s v H; exact H.
  - split; simpl; intros ? E; discriminate E.
Qed.

Lemma C7_percentages_in_range_witness :
  battery
    (parsed_data (snd (_process_data (S754_zero false)
                         (coordinator_with [("163", VInt 150)])))) = Some 100 /\
  0 <= 100 <= 100.
Proof.
  split; [reflexivity|].
  exact (proj1 (C7_percentages_in_range (S754_zero false)
                  (coordinator_with [("163", VInt 150)])) 100 eq_refl).
Defined.

(** C8. For every RawSample -- a sample whose values are integers,
    booleans, strings or [None] -- the cycle returns normally, and so
    does each of the five decoders on its own; the value under key 163
    alone decides it.  In a cycle that returns, the five decoders are
    independent: each field is a function of the value under its own key,
    whatever the other keys hold and whether or not their values
    decode. *)
Theorem C8_cycle_completion :
  (forall (now : spec_float) (self : EufyX10DebugCoordinator),
     is_raw_sample (raw_data self) = true ->
     fst (_process_data now self) = Ok tt /\
     fst (_process_battery self) = Ok tt /\
     fst (_process_water_tank self) = Ok tt /\
     fst (_process_clean_speed self) = Ok tt /\
     fst (_process_work_status self) = Ok tt /\
     fst (_process_play_pause self) = Ok tt) /\
  (forall (now : spec_float) (self : EufyX10DebugCoordinator),
     (forall v, dict_get "163" (raw_data self) = Some v ->
        is_raw_sample_value v = true) ->
     fst (_process_data now self) = Ok tt) /\
  (forall (now1 now2 : spec_float) (s1 s2 : EufyX10DebugCoordinator),
     fst (_process_data now1 s1) = Ok tt ->
     fst (_process_data now2 s2) = Ok tt ->
     let pd1 := parsed_data (snd (_process_data now1 s1)) in
     let pd2 := parsed_data (snd (_process_data now2 s2)) in
     (dict_get "163" (raw_data s1) = dict_get "163" (raw_data s2) ->
        battery pd1 = battery pd2) /\
     (dict_get "167" (raw_data s1) = dict_get "167" (raw_data s2) ->
        water_tank pd1 = water_tank pd2) /\
     (dict_get "158" (raw_data s1) = dict_get "158" (raw_data s2) ->
        clean_speed pd1 = clean_speed pd2) /\
     (dict_get "153" (raw_data s1) = dict_get "153" (raw_data s2) ->
        work_status pd1 = work_status pd2) /\
     (dict_get "152" (raw_data s1) = dict_get "152" (raw_data s2) ->
        play_pause pd1 = play_pause pd2)).
Proof.
  assert (Hkey : forall now self,
            (forall v, dict_get "163" (raw_data self) = Some v ->
               is_raw_sample_value v = true) ->
            fst (_process_data now self) = Ok tt).
  { intros now self Htyped.
    rewrite process_data_eq, decoders_outcome, raw_data_assign.
    destruct (dict_get "163" (raw_data self)) as [[ |b|n|f|s|l|d]|];
      try reflexivity.
    discriminate (Htyped _ eq_refl). }
  split; [|split; [exact Hkey|]].
  - intros now self Htyped.
    split; [|split; [|split; [|split; [|split]]]].
    + apply Hkey. intros v Hv. exact (dict_get_raw_sample _ _ _ Htyped Hv).
    + rewrite process_battery_outcome.
      destruct (dict_get "163" (raw_data self)) as [[ |b|n|f|s|l|d]|] eqn:E;
        try reflexivity.
      discriminate (dict_get_raw_sample _ _ _ Htyped E).
    + apply process_water_tank_returns.
    + apply process_clean_speed_returns.
    + apply process_work_status_returns.
    + apply process_play_pause_returns.
  - intros now1 now2 s1 s2 H1 H2. cbv zeta.
    rewrite !process_data_eq. rewrite process_data_eq in H1, H2.
    rewrite decoders_outcome, <- process_battery_outcome in H1, H2.
    split; [|split; [|split; [|split]]]; intros Hkey'.
    + exact (proj2 (battery_agree _ _ H1 H2 (conj Hkey' eq_refl))).
    + exact (proj2 (water_tank_agree _ _ H1 H2 (conj Hkey' eq_refl))).
    + exact (proj2 (clean_speed_agree _ _ H1 H2 (conj Hkey' eq_refl))).
    + exact (proj2 (work_status_agree _ _ H1 H2 (conj Hkey' eq_refl))).
    + exact (proj2 (play_pause_agree _ _ H1 H2 (conj Hkey' eq_refl))).
Qed.

(** On the scenario sample the cycle returns; replacing the battery value
    by a string that is no number leaves the water tank of the cycle as it
    was. *)
Lemma C8_cycle_completion_witness :
  fst (_process_data (S754_zero false) (coordinator_with scenario_sample)) =
    Ok tt /\
  water_tank
    (parsed_data
       (snd (_process_data (S754_zero false)
               (coordinator_with scenario_sample)))) =
  water_tank
    (parsed_data
       (snd (_process_data (S754_zero false)
               (coordinator_with
                  [ ("163", VStr "n/a");
                    ("167", VStr (b64encode [0; 0; 0; 0; 210])) ])))).
Proof.
  destruct C8_cycle_completion as (Htyped & _ & Hind).
  destruct (Htyped (S754_zero false) (coordinator_with scenario_sample)
              eq_refl) as (H1 & _).
  destruct (Htyped (S754_zero false)
              (coordinator_with
                 [ ("163", VStr "n/a");
                   ("167", VStr (b64encode [0; 0; 0; 0; 210])) ])
              eq_refl) as (H2 & _).
  split; [exact H1|].
  exact (proj1 (proj2 (Hind _ _ _ _ H1 H2)) eq_refl).
Defined.

(** C9. Two runs of [_process_data] on coordinators that hold the same
    sample and the same sequence number, at any two times, end the same
    way and give the same battery, water tank, clean speed, work status,
    play/pause, found list and missing list (and record the same sequence
    number); so does a second run right after the first on the same
    coordinator. *)
Theorem C9_same_sample_same_fields :
  forall (now1 now2 : spec_float) (s1 s2 : EufyX10DebugCoordinator),
    raw_data s1 = raw_data s2 ->
    update_count s1 = update_count s2 ->
    let r1 := _process_data now1 s1 in
    let r2 := _process_data now2 s2 in
    let again := _process_data now2 (snd r1) in
    (fst r1 = fst r2 /\
     battery (parsed_data (snd r1)) = battery (parsed_data (snd r2)) /\
     water_tank (parsed_data (snd r1)) = water_tank (parsed_data (snd r2)) /\
     clean_speed (parsed_data (snd r1)) = clean_speed (parsed_data (snd r2)) /\
     work_status (parsed_data (snd r1)) = work_status (parsed_data (snd r2)) /\
     play_pause (parsed_data (snd r1)) = play_pause (parsed_data (snd r2)) /\
     monitored_keys_found (parsed_data (snd r1)) =
       monitored_keys_found (parsed_data (snd r2)) /\
     monitored_keys_missing (parsed_data (snd r1)) =
       monitored_keys_missing (parsed_data (snd r2)) /\
     pd_update_count (parsed_data (snd r1)) =
       pd_update_count (parsed_data (snd r2))) /\
    (fst r1 = fst again /\
     same_fields (parsed_data (snd r1)) (parsed_data (snd again))).
Proof.
  assert (Hmain : forall now1 now2 s1 s2,
            raw_data s1 = raw_data s2 ->
            fst (_process_data now1 s1) = fst (_process_data now2 s2) /\
            same_fields (parsed_data (snd (_process_data now1 s1)))
              (parsed_data (snd (_process_data now2 s2)))).
  { intros now1 now2 s1 s2 Hraw. rewrite !process_data_eq.
    match goal with
    | |- fst (_ ?a) = fst (_ ?b) /\ _ =>
        destruct (decoders_deterministic a b) as (Hr & _ & Hf)
    end.
    - split; [simpl; exact Hraw|]. unfold same_fields; simpl.
      rewrite Hraw. repeat split; reflexivity.
    - split; assumption. }
  assert (Hcount : forall now s,
            pd_update_count (parsed_data (snd (_process_data now s))) =
            update_count s).
  { intros now s. rewrite process_data_eq.
    apply (decoders_preserve
             (fun s' => pd_update_count (parsed_data s') = update_count s));
      auto. }
  intros now1 now2 s1 s2 Hraw Hcnt. cbv zeta. split.
  - destruct (Hmain now1 now2 s1 s2 Hraw) as (Hr & Hb & Hw & Hc & Hs & Hp & Hf & Hm).
    rewrite !Hcount. repeat (split; [assumption|]). exact Hcnt.
  - apply Hmain. symmetry. apply process_data_keeps_sample.
Qed.

Lemma C9_same_sample_same_fields_witness :
  raw_data (coordinator_with scenario_sample) =
    raw_data (mkCoordinator "other" false scenario_sample
                (with_battery (Some 3) empty_parsed_data) None 0) /\
  battery
    (parsed_data
       (snd (_process_data (S754_zero false)
               (coordinator_with scenario_sample)))) =
  battery
    (parsed_data
       (snd (_process_data (S754_infinity false)
               (mkCoordinator "other" false scenario_sample
                  (with_battery (Some 3) empty_parsed_data) None 0)))).
Proof.
  split; [reflexivity|].
  pose proof (C9_same_sample_same_fields (S754_zero false) (S754_infinity false)
                (coordinator_with scenario_sample)
                (mkCoordinator "other" false scenario_sample
                   (with_battery (Some 3) empty_parsed_data) None 0)
                eq_refl eq_refl) as H.
  cbv zeta in H. exact (proj1 (proj2 (proj1 H))).
Defined.

(* ================================================================= *)
(** ** The snapshot of a cycle, field by field *)

Lemma process_battery_raw_data self :
  raw_data (snd (_process_battery self)) = raw_data self.
Proof.
  apply (process_battery_preserves (fun s => raw_data s = raw_data self)); auto.
Qed.

Lemma process_water_tank_raw_data self :
  raw_data (snd (_process_water_tank self)) = raw_data self.
Proof.
  apply (process_water_tank_preserves (fun s => raw_data s = raw_data self));
    auto.
Qed.

Lemma process_clean_speed_raw_data self :
  raw_data (snd (_process_clean_speed self)) = raw_data self.
Proof.
  apply (process_clean_speed_preserves (fun s => raw_data s = raw_data self));
    auto.
Qed.

Lemma process_work_status_raw_data self :
  raw_data (snd (_process_work_status self)) = raw_data self.
Proof.
  apply (process_work_status_preserves (fun s => raw_data s = raw_data self));
    auto.
Qed.

(** When the battery decoder raises, the chain stops there. *)
Lemma decoders_raise self e :
  fst (_process_battery self) = Raise e ->
  decoders self = _process_battery self.
Proof.
  intros H. unfold bind at 1.
  destruct (_process_battery self) as [[[]|e'] s1]; [discriminate H|reflexivity].
Qed.

(** The battery of the snapshot is what [int] and the clamp make of the
    value under key 163, whether the cycle returns or raises. *)
Lemma final_battery now self :
  battery (parsed_data (snd (_process_data now self))) =
  match dict_get "163" (raw_data self) with
  | Some raw =>
      match py_int raw with
      | Ok n => Some (Z.max 0 (Z.min 100 n))
      | Raise _ => None
      end
  | None => None
  end.
Proof.
  rewrite process_data_eq.
  match goal with |- context [decoders ?i] => set (init := i) end.
  assert (Hb : battery (parsed_data (snd (_process_battery init))) =
               match dict_get "163" (raw_data self) with
               | Some raw =>
                   match py_int raw with
                   | Ok n => Some (Z.max 0 (Z.min 100 n))
                   | Raise _ => None
                   end
               | None => None
               end).
  { rewrite process_battery_eq. change (raw_data init) with (raw_data self).
    destruct (dict_get "163" (raw_data self)) as [raw|]; [|reflexivity].
    destruct (py_int raw) as [n|e]; [reflexivity|].
    destruct e; reflexivity. }
  destruct (fst (_process_battery init)) as [[]|e] eqn:E.
  - rewrite decoders_run by exact E. rewrite <- Hb.
    apply (process_play_pause_preserves
             (fun s => battery (parsed_data s) =
                       battery (parsed_data (snd (_process_battery init)))));
      [auto|].
    apply (process_work_status_preserves
             (fun s => battery (parsed_data s) =
                       battery (parsed_data (snd (_process_battery init)))));
      [auto|].
    apply (process_clean_speed_preserves
             (fun s => battery (parsed_data s) =
                       battery (parsed_data (snd (_process_battery init)))));
      [auto|].
    apply (process_water_tank_preserves
             (fun s => battery (parsed_data s) =
                       battery (parsed_data (snd (_process_battery init)))));
      [auto|reflexivity].
  - rewrite (decoders_raise _ _ E). exact Hb.
Qed.

(** In a cycle that returns, the water tank is what the decoder makes of
    the value under key 167. *)
Lemma final_water_tank now self :
  fst (_process_data now self) = Ok tt ->
  water_tank (parsed_data (snd (_process_data now self))) =
  match dict_get "167" (raw_data self) with
  | Some (VStr s) =>
      match b64decode s with
      | Ok binary_data =>
          if 4 <? py_len binary_data
          then Some (Z.min 100 (nth 4 binary_data 0 * 100 / 255))
          else None
      | Raise _ => None
      end
  | _ => None
  end.
Proof.
  rewrite process_data_eq.
  match goal with |- context [decoders ?i] => set (init := i) end.
  intros H. rewrite decoders_outcome, <- process_battery_outcome in H.
  rewrite decoders_run by exact H.
  set (s1 := snd (_process_battery init)).
  assert (Hraw : raw_data s1 = raw_data self)
    by (unfold s1; now rewrite process_battery_raw_data).
  assert (Hnone : water_tank (parsed_data s1) = None).
  { unfold s1.
    apply (process_battery_preserves
             (fun s => water_tank (parsed_data s) = None)); [auto|reflexivity]. }
  set (w := match dict_get "167" (raw_data self) with
            | Some (VStr s) =>
                match b64decode s with
                | Ok binary_data =>
                    if 4 <? py_len binary_data
                    then Some (Z.min 100 (nth 4 binary_data 0 * 100 / 255))
                    else None
                | Raise _ => None
                end
            | _ => None
            end).
  apply (process_play_pause_preserves
           (fun s => water_tank (parsed_data s) = w)); [auto|].
  apply (process_work_status_preserves
           (fun s => water_tank (parsed_data s) = w)); [auto|].
  apply (process_clean_speed_preserves
           (fun s => water_tank (parsed_data s) = w)); [auto|].
  rewrite process_water_tank_eq, Hraw. unfold w.
  destruct (dict_get "167" (raw_data self)) as [[ |b|n|f|s|l|d]|];
    try exact Hnone.
  destruct (b64decode s) as [bs|e]; [|exact Hnone].
  destruct (4 <? py_len bs); [reflexivity|exact Hnone].
Qed.

(** In a cycle that returns, the clean speed is the name that the value
    under key 158 indexes. *)
Lemma final_clean_speed now self :
  fst (_process_data now self) = Ok tt ->
  clean_speed (parsed_data (snd (_process_data now self))) =
  match dict_get "158" (raw_data self) with
  | Some speed_raw =>
      if isinstance_int speed_raw
         && (0 <=? int_value speed_raw)
         && (int_value speed_raw <? 4)
      then nth_error CLEAN_SPEED_NAMES (Z.to_nat (int_value speed_raw))
      else None
  | None => None
  end.
Proof.
  rewrite process_data_eq.
  match goal with |- context [decoders ?i] => set (init := i) end.
  intros H. rewrite decoders_outcome, <- process_battery_outcome in H.
  rewrite decoders_run by exact H.
  set (s2 := snd (_process_water_tank (snd (_process_battery init)))).
  assert (Hraw : raw_data s2 = raw_data self).
  { unfold s2.
    now rewrite process_water_tank_raw_data, process_battery_raw_data. }
  assert (Hnone : clean_speed (parsed_data s2) = None).
  { unfold s2.
    apply (process_water_tank_preserves
             (fun s => clean_speed (parsed_data s) = None)); [auto|].
    apply (process_battery_preserves
             (fun s => clean_speed (parsed_data s) = None)); [auto|reflexivity]. }
  set (c := match dict_get "158" (raw_data self) with
            | Some speed_raw =>
                if isinstance_int speed_raw
                   && (0 <=? int_value speed_raw)
                   && (int_value speed_raw <? 4)
                then nth_error CLEAN_SPEED_NAMES
                       (Z.to_nat (int_value speed_raw))
                else None
            | None => None
            end).
  apply (process_play_pause_preserves
           (fun s => clean_speed (parsed_data s) = c)); [auto|].
  apply (process_work_status_preserves
           (fun s => clean_speed (parsed_data s) = c)); [auto|].
  rewrite process_clean_speed_eq, Hraw. unfold c.
  destruct (dict_get "158" (raw_data self)) as [raw|]; [|exact Hnone].
  destruct (isinstance_int raw && (0 <=? int_value raw)
            && (int_value raw <? 4)); [reflexivity|exact Hnone].
Qed.

(** In a cycle that returns, the work status is the name that
    [WORK_STATUS_MAP] gives for the value under key 153. *)
Lemma final_work_status now self :
  fst (_process_data now self) = Ok tt ->
  work_status (parsed_data (snd (_process_data now self))) =
  match dict_get "153" (raw_data self) with
  | Some status_raw =>
      if isinstance_int status_raw
      then intdict_get (int_value status_raw) WORK_STATUS_MAP
      else None
  | None => None
  end.
Proof.
  rewrite process_data_eq.
  match goal with |- context [decoders ?i] => set (init := i) end.
  intros H. rewrite decoders_outcome, <- process_battery_outcome in H.
  rewrite decoders_run by exact H.
  set (s3 := snd (_process_clean_speed
                    (snd (_process_water_tank (snd (_process_battery init)))))).
  assert (Hraw : raw_data s3 = raw_data self).
  { unfold s3.
    now rewrite process_clean_speed_raw_data, process_water_tank_raw_data,
      process_battery_raw_data. }
  assert (Hnone : work_status (parsed_data s3) = None).
  { unfold s3.
    apply (process_clean_speed_preserves
             (fun s => work_status (parsed_data s) = None)); [auto|].
    apply (process_water_tank_preserves
             (fun s => work_status (parsed_data s) = None)); [auto|].
    apply (process_battery_preserves
             (fun s => work_status (parsed_data s) = None)); [auto|reflexivity]. }
  set (w := match dict_get "153" (raw_data self) with
            | Some status_raw =>
                if isinstance_int status_raw
                then intdict_get (int_value status_raw) WORK_STATUS_MAP
                else None
            | None => None
            end).
  apply (process_play_pause_preserves
           (fun s => work_status (parsed_data s) = w)); [auto|].
  rewrite process_work_status_eq, Hraw. unfold w.
  destruct (dict_get "153" (raw_data self)) as [raw|]; [|exact Hnone].
  destruct (isinstance_int raw); [|exact Hnone].
  destruct (intdict_get (int_value raw) WORK_STATUS_MAP);
    [reflexivity|exact Hnone].
Qed.

(** In a cycle that returns, play/pause is the truth value of whatever is
    under key 152. *)
Lemma final_play_pause now self :
  fst (_process_data now self) = Ok tt ->
  play_pause (parsed_data (snd (_process_data now self))) =
  match dict_get "152" (raw_data self) with
  | Some raw => Some (py_bool raw)
  | None => None
  end.
Proof.
  rewrite process_data_eq.
  match goal with |- context [decoders ?i] => set (init := i) end.
  intros H. rewrite decoders_outcome, <- process_battery_outcome in H.
  rewrite decoders_run by exact H.
  set (s4 := snd (_process_work_status
                    (snd (_process_clean_speed
                            (snd (_process_water_tank
                                    (snd (_process_battery init)))))))).
  assert (Hraw : raw_data s4 = raw_data self).
  { unfold s4.
    now rewrite process_work_status_raw_data, process_clean_speed_raw_data,
      process_water_tank_raw_data, process_battery_raw_data. }
  assert (Hnone : play_pause (parsed_data s4) = None).
  { unfold s4.
    apply (process_work_status_preserves
             (fun s => play_pause (parsed_data s) = None)); [auto|].
    apply (process_clean_speed_preserves
             (fun s => play_pause (parsed_data s) = None)); [auto|].
    apply (process_water_tank_preserves
             (fun s => play_pause (parsed_data s) = None)); [auto|].
    apply (process_battery_preserves
             (fun s => play_pause (parsed_data s) = None)); [auto|reflexivity]. }
  rewrite process_play_pause_eq, Hraw.
  destruct (dict_get "152" (raw_data self)) as [raw|];
    [reflexivity|exact Hnone].
Qed.

(** How a cycle ends, read off the value under key 163. *)
Lemma process_data_outcome now self :
  fst (_process_data now self) =
  match dict_get "163" (raw_data self) with
  | Some (VFloat (S754_infinity _)) => Raise OverflowError
  | _ => Ok tt
  end.
Proof.
  rewrite process_data_eq, decoders_outcome. reflexivity.
Qed.

(** The key lists, the raw keys and the sequence number of the snapshot,
    whether the cycle returns or raises. *)
Lemma final_bookkeeping now self :
  let pd := parsed_data (snd (_process_data now self)) in
  monitored_keys_found pd =
    filter (fun k => dict_contains k (raw_data self)) MONITORED_KEYS /\
  monitored_keys_missing pd =
    filter (fun k => negb (dict_contains k (raw_data self))) MONITORED_KEYS /\
  raw_keys pd = dict_keys (raw_data self) /\
  pd_update_count pd = update_count self /\
  pd_last_update pd = now /\
  pd_device_id pd = device_id self.
Proof.
  cbv zeta. rewrite process_data_eq.
  apply (decoders_preserve
           (fun s =>
              monitored_keys_found (parsed_data s) =
                filter (fun k => dict_contains k (raw_data self)) MONITORED_KEYS /\
              monitored_keys_missing (parsed_data s) =
                filter (fun k => negb (dict_contains k (raw_data self)))
                  MONITORED_KEYS /\
              raw_keys (parsed_data s) = dict_keys (raw_data self) /\
              pd_update_count (parsed_data s) = update_count self /\
              pd_last_update (parsed_data s) = now /\
              pd_device_id (parsed_data s) = device_id self)); auto.
  simpl. repeat split; reflexivity.
Qed.

(** The cycle changes [self.parsed_data] only. *)
Lemma process_data_frame now self :
  let self' := snd (_process_data now self) in
  raw_data self' = raw_data self /\
  update_count self' = update_count self /\
  last_update self' = last_update self /\
  device_id self' = device_id self /\
  debug_mode self' = debug_mode self.
Proof.
  cbv zeta. rewrite process_data_eq.
  apply (decoders_preserve
           (fun s => raw_data s = raw_data self /\
                     update_count s = update_count self /\
                     last_update s = last_update self /\
                     device_id s = device_id self /\
                     debug_mode s = debug_mode self)); auto.
Qed.

(* ================================================================= *)
(** ** The update cycle *)

(** What [_async_update_data] does after a fetch that returned: it runs
    the cycle on the fetched sample and fails exactly when the cycle
    does. *)
Lemma async_update_data_fetched fetch now now' self s1 :
  fetch (mkCoordinator (device_id self) (debug_mode self) (raw_data self)
           (parsed_data self) (last_update self) (update_count self + 1)) =
    (Ok tt, s1) ->
  _async_update_data fetch now now' self =
  match _process_data now s1 with
  | (Ok _, s2) =>
      (inl (parsed_data s2),
       mkCoordinator (device_id s2) (debug_mode s2) (raw_data s2)
         (parsed_data s2) (Some now') (update_count s2))
  | (Raise err, s2) => (inr (mkUpdateFailed err), s2)
  end.
Proof.
  intros Hf. unfold _async_update_data, bind. rewrite Hf.
  destruct (_process_data now s1) as [[[]|e] s2]; reflexivity.
Qed.

(** X1. [_async_update_data] never lets an exception other than
    [UpdateFailed] out, and it fails in two cases only.  If the fetch
    raises, the update raises [UpdateFailed] with that error and leaves
    the coordinator as the fetch left it.  If the fetch returns a sample
    whose battery value is an infinite float, the update raises
    [UpdateFailed] for the [OverflowError] and [self.last_update] is not
    refreshed.  Otherwise the update returns the snapshot that is in
    [self.parsed_data], keeps the fetched sample and stores [now'] in
    [self.last_update]. *)
Theorem X1_update_outcomes :
  forall (fetch : M unit) (now now' : spec_float)
         (self : EufyX10DebugCoordinator),
    let counted :=
      mkCoordinator (device_id self) (debug_mode self) (raw_data self)
        (parsed_data self) (last_update self) (update_count self + 1) in
    let result := _async_update_data fetch now now' self in
    (forall e s1, fetch counted = (Raise e, s1) ->
       result = (inr (mkUpdateFailed e), s1)) /\
    (forall s1, fetch counted = (Ok tt, s1) ->
       (exists sgn,
          dict_get "163" (raw_data s1) = Some (VFloat (S754_infinity sgn))) ->
       fst result = inr (mkUpdateFailed OverflowError) /\
       last_update (snd result) = last_update s1 /\
       raw_data (snd result) = raw_data s1) /\
    (forall s1, fetch counted = (Ok tt, s1) ->
       (~ exists sgn,
          dict_get "163" (raw_data s1) = Some (VFloat (S754_infinity sgn))) ->
       fst result = inl (parsed_data (snd result)) /\
       last_update (snd result) = Some now' /\
       raw_data (snd result) = raw_data s1 /\
       update_count (snd result) = update_count s1).
Proof.
  intros fetch now now' self counted result. split; [|split].
  - intros e s1 Hf. subst result. unfold _async_update_data, bind.
    fold counted. rewrite Hf. reflexivity.
  - intros s1 Hf [sgn Hinf]. subst result counted.
    rewrite (async_update_data_fetched _ _ _ _ _ Hf).
    pose proof (process_data_outcome now s1) as Ho. rewrite Hinf in Ho.
    pose proof (process_data_frame now s1) as (Hraw & _ & Hlu & _).
    destruct (_process_data now s1) as [[[]|e] s2]; simpl in *;
      [discriminate Ho|].
    inversion Ho; subst. auto.
  - intros s1 Hf Hfin. subst result counted.
    rewrite (async_update_data_fetched _ _ _ _ _ Hf).
    pose proof (process_data_outcome now s1) as Ho.
    pose proof (process_data_frame now s1) as (Hraw & Hcnt & _).
    destruct (_process_data now s1) as [[[]|e] s2]; simpl in *.
    + auto.
    + exfalso.
      destruct (dict_get "163" (raw_data s1)) as [[ |b|n|f|s|l|d]|];
        try discriminate Ho.
      destruct f; try discriminate Ho. apply Hfin. eauto.
Qed.

Lemma X1_update_outcomes_witness :
  fst (_async_update_data (fun s => (Raise KeyError, s))
         (S754_zero false) (S754_zero false) (coordinator_with [])) =
    inr (mkUpdateFailed KeyError) /\
  fst (_async_update_data
         (fun s => (Ok tt, with_raw_data overflow_sample s))
         (S754_zero false) (S754_zero false) (coordinator_with [])) =
    inr (mkUpdateFailed OverflowError) /\
  last_update
    (snd (_async_update_data
            (fun s => (Ok tt, with_raw_data scenario_sample s))
            (S754_zero false) (S754_infinity false) (coordinator_with []))) =
    Some (S754_infinity false).
Proof.
  split; [|split].
  - destruct (X1_update_outcomes (fun s => (Raise KeyError, s))
                (S754_zero false) (S754_zero false) (coordinator_with []))
      as (H & _).
    rewrite (H KeyError _ eq_refl). reflexivity.
  - destruct (X1_update_outcomes
                (fun s => (Ok tt, with_raw_data overflow_sample s))
                (S754_zero false) (S754_zero false) (coordinator_with []))
      as (_ & H & _).
    apply (H _ eq_refl). exists false. reflexivity.
  - destruct (X1_update_outcomes
                (fun s => (Ok tt, with_raw_data scenario_sample s))
                (S754_zero false) (S754_infinity false) (coordinator_with []))
      as (_ & _ & H).
    apply (H _ eq_refl). intros [sgn Hs]. discriminate Hs.
Defined.

(** What one update with the mock fetch computes. *)
Lemma update_with_eq t self :
  update_with t self =
  let s1 :=
    snd (_fetch_eufy_data (tick_clock t) (tick_battery t) (tick_speed t)
           (mkCoordinator (device_id self) (debug_mode self) (raw_data self)
              (parsed_data self) (last_update self) (update_count self + 1))) in
  let s2 := snd (_process_data (tick_now t) s1) in
  (inl (parsed_data s2),
   mkCoordinator (device_id s2) (debug_mode s2) (raw_data s2)
     (parsed_data s2) (Some (tick_now' t)) (update_count s2)).
Proof.
  unfold update_with. cbv zeta.
  rewrite (async_update_data_fetched
             (_fetch_eufy_data (tick_clock t) (tick_battery t) (tick_speed t))
             (tick_now t) (tick_now' t) self _ eq_refl).
  match goal with
  | |- context [_process_data ?n ?s] =>
      assert (Ho : fst (_process_data n s) = Ok tt)
        by (rewrite process_data_outcome; reflexivity);
      transitivity
        (let s2 := snd (_process_data n s) in
         (@inl ParsedData UpdateFailed (parsed_data s2),
          mkCoordinator (device_id s2) (debug_mode s2) (raw_data s2)
            (parsed_data s2) (Some (tick_now' t)) (update_count s2)));
      [ destruct (_process_data n s) as [[[]|e] s2];
        [reflexivity|discriminate Ho]
      | reflexivity ]
  end.
Qed.

(** What one update with the mock fetch leaves in the coordinator: the
    snapshot and the parts of the sample that the sensors read. *)
Lemma update_with_snapshot t self :
  valid_tick t ->
  let result := update_with t self in
  let pd := parsed_data (snd result) in
  (fst result = inl pd /\
   battery pd = Some (tick_battery t) /\
   clean_speed pd = nth_error CLEAN_SPEED_NAMES (Z.to_nat (tick_speed t)) /\
   clean_speed pd <> None /\
   work_status pd = Some "cleaning" /\
   play_pause pd = Some true /\
   water_tank pd = Some 1 /\
   monitored_keys_found pd = MONITORED_KEYS /\
   monitored_keys_missing pd = [] /\
   pd_update_count pd = update_count self + 1 /\
   update_count (snd result) = update_count self + 1 /\
   last_update (snd result) = Some (tick_now' t)) /\
  dict_get_default "167" (raw_data (snd result)) =
    VStr "PAo6CgUIABC4AhgEGFRKJw==" /\
  py_len (raw_data (snd result)) = 13.
Proof.
  intros [Hb Hs] result pd. subst pd result.
  rewrite update_with_eq. cbv zeta.
  remember (snd (_fetch_eufy_data (tick_clock t) (tick_battery t)
                   (tick_speed t)
                   (mkCoordinator (device_id self) (debug_mode self)
                      (raw_data self) (parsed_data self) (last_update self)
                      (update_count self + 1)))) as s1 eqn:Es1.
  assert (H163 : dict_get "163" (raw_data s1) = Some (VInt (tick_battery t)))
    by (subst s1; reflexivity).
  assert (H158 : dict_get "158" (raw_data s1) = Some (VInt (tick_speed t)))
    by (subst s1; reflexivity).
  assert (H167 : dict_get "167" (raw_data s1) =
                 Some (VStr "PAo6CgUIABC4AhgEGFRKJw=="))
    by (subst s1; reflexivity).
  assert (H153 : dict_get "153" (raw_data s1) = Some (VInt 5))
    by (subst s1; reflexivity).
  assert (H152 : dict_get "152" (raw_data s1) = Some (VBool true))
    by (subst s1; reflexivity).
  assert (Hall : filter (fun k => dict_contains k (raw_data s1))
                   MONITORED_KEYS = MONITORED_KEYS)
    by (subst s1; reflexivity).
  assert (Hnone : filter (fun k => negb (dict_contains k (raw_data s1)))
                    MONITORED_KEYS = []) by (subst s1; reflexivity).
  assert (Hcount : update_count s1 = update_count self + 1)
    by (subst s1; reflexivity).
  assert (Hlen : py_len (raw_data s1) = 13) by (subst s1; reflexivity).
  clear Es1.
  set (now := tick_now t).
  assert (Hok : fst (_process_data now s1) = Ok tt)
    by (rewrite process_data_outcome, H163; reflexivity).
  pose proof (final_bookkeeping now s1) as (Hfound & Hmiss & _ & Hcnt & _).
  pose proof (process_data_frame now s1) as (Hraw & Hcnt' & _).
  pose proof (final_battery now s1) as Hbat.
  pose proof (final_clean_speed now s1 Hok) as Hcs.
  pose proof (final_work_status now s1 Hok) as Hws.
  pose proof (final_play_pause now s1 Hok) as Hpp.
  pose proof (final_water_tank now s1 Hok) as Hwt.
  rewrite H163 in Hbat. rewrite H158 in Hcs. rewrite H153 in Hws.
  rewrite H152 in Hpp. rewrite H167 in Hwt.
  remember (snd (_process_data now s1)) as s2 eqn:Es2. clear Es2.
  cbn [fst snd parsed_data update_count last_update raw_data].
  split; [|split].
  - split; [reflexivity|].
    split. { rewrite Hbat. simpl. f_equal. lia. }
    assert (Hspeed : clean_speed (parsed_data s2) =
                     nth_error CLEAN_SPEED_NAMES (Z.to_nat (tick_speed t))).
    { rewrite Hcs. cbn [isinstance_int int_value andb].
      destruct (0 <=? tick_speed t) eqn:E0; [|lia].
      destruct (tick_speed t <? 4) eqn:E4; [reflexivity|lia]. }
    split; [exact Hspeed|].
    split.
    { rewrite Hspeed. intros Hn. apply nth_error_None in Hn. simpl in Hn.
      lia. }
    split; [rewrite Hws; reflexivity|].
    split; [rewrite Hpp; reflexivity|].
    split; [rewrite Hwt; reflexivity|].
    split; [rewrite Hfound; exact Hall|].
    split; [rewrite Hmiss; exact Hnone|].
    split; [rewrite Hcnt; exact Hcount|].
    split; [rewrite Hcnt'; exact Hcount|reflexivity].
  - unfold dict_get_default. rewrite Hraw, H167. reflexivity.
  - rewrite Hraw. exact Hlen.
Qed.

(** X2. An update with the mock fetch never fails, whatever state the
    coordinator is in.  With draws that [random.randint(80, 95)] and
    [random.randint(0, 3)] can return, the snapshot holds the drawn
    battery level, the clean speed name at the drawn index, work status
    "cleaning", play/pause true and a water tank of 1 (byte 4 of the mock
    blob is 5); all twelve monitored keys are found and none is missing.
    The snapshot carries the incremented sequence number and
    [self.last_update] is refreshed. *)
Theorem X2_mock_update :
  forall (t : tick) (self : EufyX10DebugCoordinator),
    valid_tick t ->
    let result := update_with t self in
    let pd := parsed_data (snd result) in
    fst result = inl pd /\
    battery pd = Some (tick_battery t) /\
    clean_speed pd = nth_error CLEAN_SPEED_NAMES (Z.to_nat (tick_speed t)) /\
    clean_speed pd <> None /\
    work_status pd = Some "cleaning" /\
    play_pause pd = Some true /\
    water_tank pd = Some 1 /\
    monitored_keys_found pd = MONITORED_KEYS /\
    monitored_keys_missing pd = [] /\
    pd_update_count pd = update_count self + 1 /\
    update_count (snd result) = update_count self + 1 /\
    last_update (snd result) = Some (tick_now' t).
Proof.
  intros t self Hv. exact (proj1 (update_with_snapshot t self Hv)).
Qed.

Lemma X2_mock_update_witness :
  valid_tick (mkTick 1700000000 93 1 (S754_zero false) (S754_zero false)) /\
  clean_speed
    (parsed_data
       (snd (update_with
               (mkTick 1700000000 93 1 (S754_zero false) (S754_zero false))
               (coordinator_with [])))) <> None.
Proof.
  assert (Hv : valid_tick
                 (mkTick 1700000000 93 1 (S754_zero false) (S754_zero false)))
    by (unfold valid_tick; simpl; lia).
  split; [exact Hv|].
  exact (proj1 (proj2 (proj2 (proj2
           (X2_mock_update _ (coordinator_with []) Hv))))).
Defined.

Lemma update_with_step t self :
  update_count (snd (update_with t self)) = update_count self + 1 /\
  pd_update_count (parsed_data (snd (update_with t self))) =
    update_count self + 1 /\
  monitored_keys_missing (parsed_data (snd (update_with t self))) = [].
Proof.
  rewrite update_with_eq. cbv zeta.
  remember (snd (_fetch_eufy_data (tick_clock t) (tick_battery t)
                   (tick_speed t)
                   (mkCoordinator (device_id self) (debug_mode self)
                      (raw_data self) (parsed_data self) (last_update self)
                      (update_count self + 1)))) as s1 eqn:Es1.
  assert (Hnone : filter (fun k => negb (dict_contains k (raw_data s1)))
                    MONITORED_KEYS = []) by (subst s1; reflexivity).
  assert (Hcount : update_count s1 = update_count self + 1)
    by (subst s1; reflexivity).
  clear Es1.
  pose proof (final_bookkeeping (tick_now t) s1) as (_ & Hm & _ & Hc & _).
  pose proof (process_data_frame (tick_now t) s1) as (_ & Hc' & _).
  remember (snd (_process_data (tick_now t) s1)) as s2 eqn:Es2. clear Es2.
  cbn [snd parsed_data update_count].
  rewrite Hc, Hc', Hm, Hcount, Hnone. repeat split; reflexivity.
Qed.

Lemma run_updates_cons t ticks self :
  run_updates self (t :: ticks) = run_updates (snd (update_with t self)) ticks.
Proof. reflexivity. Qed.

(** X3. Every update with the mock fetch adds one to
    [self.update_count], and after any number of updates the snapshot in
    [self.parsed_data] carries the current count: the snapshot of the
    [k]-th update of a fresh coordinator is number [k]. *)
Theorem X3_update_count :
  forall (ticks : list tick) (self : EufyX10DebugCoordinator),
    let final := run_updates self ticks in
    update_count final = update_count self + Z.of_nat (List.length ticks) /\
    (ticks <> [] ->
     pd_update_count (parsed_data final) = update_count final /\
     monitored_keys_missing (parsed_data final) = []).
Proof.
  induction ticks as [|t ticks IH]; intros self final; subst final.
  - split; [apply Zplus_0_r_reverse|]. intros H. now elim H.
  - rewrite run_updates_cons.
    destruct (update_with_step t self) as (H1 & H2 & H3).
    generalize dependent (snd (update_with t self)). intros s1 H1 H2 H3.
    specialize (IH s1). cbv zeta in IH.
    destruct IH as [IHc IHp]. split.
    + rewrite IHc, H1.
      change (List.length (t :: ticks)) with (S (List.length ticks)).
      rewrite Nat2Z.inj_succ. lia.
    + intros _. destruct ticks as [|t' ticks'].
      * change (run_updates s1 []) with s1. rewrite H1, H2, H3.
        split; reflexivity.
      * apply IHp. discriminate.
Qed.

Lemma X3_update_count_witness :
  update_count
    (run_updates (coordinator_with [])
       [ mkTick 1 80 0 (S754_zero false) (S754_zero false);
         mkTick 2 95 3 (S754_zero false) (S754_zero false);
         mkTick 3 90 2 (S754_zero false) (S754_zero false) ]) = 3 /\
  pd_update_count
    (parsed_data
       (run_updates (coordinator_with [])
          [ mkTick 1 80 0 (S754_zero false) (S754_zero false);
            mkTick 2 95 3 (S754_zero false) (S754_zero false);
            mkTick 3 90 2 (S754_zero false) (S754_zero false) ])) = 3.
Proof.
  destruct (X3_update_count
              [ mkTick 1 80 0 (S754_zero false) (S754_zero false);
                mkTick 2 95 3 (S754_zero false) (S754_zero false);
                mkTick 3 90 2 (S754_zero false) (S754_zero false) ]
              (coordinator_with [])) as [Hc Hp].
  split; [exact Hc|].
  destruct (Hp ltac:(discriminate)) as [Hpd _].
  rewrite Hpd. exact Hc.
Defined.

(* ================================================================= *)
(** ** The sensors *)

(** When the cycle raises, it does so in the battery decoder and the four
    other fields stay unset. *)
Lemma process_data_raise_unset now self :
  fst (_process_data now self) <> Ok tt ->
  let pd := parsed_data (snd (_process_data now self)) in
  water_tank pd = None /\ clean_speed pd = None /\
  work_status pd = None /\ play_pause pd = None.
Proof.
  cbv zeta. rewrite process_data_eq.
  match goal with |- context [decoders ?i] => set (init := i) end.
  intros H.
  destruct (fst (_process_battery init)) as [[]|e] eqn:E.
  - exfalso. apply H. rewrite decoders_outcome, <- process_battery_outcome.
    exact E.
  - rewrite (decoders_raise _ _ E).
    apply (process_battery_preserves
             (fun s => water_tank (parsed_data s) = None /\
                       clean_speed (parsed_data s) = None /\
                       work_status (parsed_data s) = None /\
                       play_pause (parsed_data s) = None)); [auto|].
    repeat split; reflexivity.
Qed.

Lemma res_unit_cases (r : res unit) : r = Ok tt \/ r <> Ok tt.
Proof. destruct r as [[]|e]; [left; reflexivity|right; discriminate]. Qed.

Lemma intdict_get_In key d name :
  intdict_get key d = Some name -> In name (map snd d).
Proof.
  induction d as [|[k v] d IH]; simpl; [discriminate|].
  destruct (key =? k); [intros [= ->]; now left|right; auto].
Qed.

Lemma intdict_get_enumerate_from l : forall start i,
  intdict_get i (enumerate_from start l) =
  if i <? start then None else nth_error l (Z.to_nat (i - start)).
Proof.
  induction l as [|x l IH]; intros start i; simpl.
  - destruct (i <? start); [reflexivity|]. now destruct (Z.to_nat (i - start)).
  - destruct (i =? start) eqn:E.
    + apply Z.eqb_eq in E. subst i. rewrite Z.ltb_irrefl, Z.sub_diag.
      reflexivity.
    + apply Z.eqb_neq in E. rewrite IH.
      destruct (i <? start) eqn:E1, (i <? start + 1) eqn:E2; try lia;
        try reflexivity.
      replace (Z.to_nat (i - start)) with (S (Z.to_nat (i - (start + 1))))
        by lia.
      reflexivity.
Qed.

(** X4. Whatever the sample holds and however the cycle ends, the state
    of the clean speed sensor is absent or one of the four names of
    [CLEAN_SPEED_NAMES], and the state of the work status sensor is absent
    or one of the nine names of [WORK_STATUS_MAP]. *)
Theorem X4_sensor_states_are_names :
  forall (now : spec_float) (self : EufyX10DebugCoordinator),
    let pd := parsed_data (snd (_process_data now self)) in
    (forall name,
       EufyX10DebugCleanSpeedSensor.native_value pd = Some name ->
       In name CLEAN_SPEED_NAMES) /\
    (forall name,
       EufyX10DebugWorkStatusSensor.native_value pd = Some name ->
       In name (map snd WORK_STATUS_MAP)).
Proof.
  intros now self pd. subst pd.
  unfold EufyX10DebugCleanSpeedSensor.native_value,
    EufyX10DebugWorkStatusSensor.native_value.
  destruct (res_unit_cases (fst (_process_data now self))) as [Hok|Hraise].
  - rewrite (final_clean_speed _ _ Hok), (final_work_status _ _ Hok).
    split; intros name H.
    + destruct (dict_get "158" (raw_data self)) as [raw|]; [|discriminate H].
      destruct (isinstance_int raw && (0 <=? int_value raw)
                && (int_value raw <? 4)); [|discriminate H].
      exact (nth_error_In _ _ H).
    + destruct (dict_get "153" (raw_data self)) as [raw|]; [|discriminate H].
      destruct (isinstance_int raw); [|discriminate H].
      exact (intdict_get_In _ _ _ H).
  - destruct (process_data_raise_unset _ _ Hraise) as (_ & Hc & Hw & _).
    rewrite Hc, Hw. split; intros name H; discriminate H.
Qed.

Lemma X4_sensor_states_are_names_witness :
  EufyX10DebugCleanSpeedSensor.native_value
    (parsed_data
       (snd (_process_data (S754_zero false)
               (coordinator_with scenario_sample)))) = Some "turbo" /\
  In "turbo" CLEAN_SPEED_NAMES.
Proof.
  assert (H : EufyX10DebugCleanSpeedSensor.native_value
                (parsed_data
                   (snd (_process_data (S754_zero false)
                           (coordinator_with scenario_sample)))) =
              Some "turbo") by reflexivity.
  split; [exact H|].
  exact (proj1 (X4_sensor_states_are_names (S754_zero false)
                  (coordinator_with scenario_sample)) "turbo" H).
Defined.

(** X5. Each of the two enumerated sensors publishes the table it was
    decoded with.  After a cycle that returns, if the sample holds an
    [int] (or a [bool]) under key 158, the state of the clean speed sensor
    is what the dict under its attribute [speed_mapping] holds for that
    number (absent when the number is no key of it); the same goes for
    key 153, the work status sensor and its attribute [status_mapping]. *)
Theorem X5_published_mappings :
  forall (now : spec_float) (self : EufyX10DebugCoordinator),
    fst (_process_data now self) = Ok tt ->
    let self' := snd (_process_data now self) in
    let pd := parsed_data self' in
    let raw_data := raw_data self' in
    (forall v, dict_get "158" raw_data = Some v -> isinstance_int v = true ->
       exists mapping,
         lookup "speed_mapping"
           (EufyX10DebugCleanSpeedSensor.extra_state_attributes pd raw_data) =
           Some (AIntDict mapping) /\
         EufyX10DebugCleanSpeedSensor.native_value pd =
           intdict_get (int_value v) mapping) /\
    (forall v, dict_get "153" raw_data = Some v -> isinstance_int v = true ->
       exists mapping,
         lookup "status_mapping"
           (EufyX10DebugWorkStatusSensor.extra_state_attributes pd raw_data) =
           Some (AIntDict mapping) /\
         EufyX10DebugWorkStatusSensor.native_value pd =
           intdict_get (int_value v) mapping).
Proof.
  intros now self Hok self' pd raw. subst pd raw self'.
  destruct (process_data_frame now self) as (Hraw & _). rewrite Hraw.
  unfold EufyX10DebugCleanSpeedSensor.native_value,
    EufyX10DebugWorkStatusSensor.native_value.
  rewrite (final_clean_speed _ _ Hok), (final_work_status _ _ Hok).
  split; intros v Hv Hint; rewrite Hv, Hint.
  - exists (enumerate_from 0 CLEAN_SPEED_NAMES). split; [reflexivity|].
    rewrite intdict_get_enumerate_from, Z.sub_0_r. cbn [andb].
    destruct (0 <=? int_value v) eqn:E0, (int_value v <? 0) eqn:E1; try lia;
      cbn [andb]; [|reflexivity].
    destruct (int_value v <? 4) eqn:E4; [reflexivity|].
    symmetry. apply nth_error_None. simpl. lia.
  - exists WORK_STATUS_MAP. split; reflexivity.
Qed.

Lemma X5_published_mappings_witness :
  exists mapping,
    lookup "speed_mapping"
      (EufyX10DebugCleanSpeedSensor.extra_state_attributes
         (parsed_data
            (snd (_process_data (S754_zero false)
                    (coordinator_with scenario_sample))))
         (raw_data
            (snd (_process_data (S754_zero false)
                    (coordinator_with scenario_sample))))) =
      Some (AIntDict mapping) /\
    EufyX10DebugCleanSpeedSensor.native_value
      (parsed_data
         (snd (_process_data (S754_zero false)
                 (coordinator_with scenario_sample)))) =
      intdict_get 2 mapping.
Proof.
  exact (proj1 (X5_published_mappings (S754_zero false)
                  (coordinator_with scenario_sample) eq_refl)
           (VInt 2) eq_refl eq_refl).
Defined.

(** *** The attributes of the sensors *)

Lemma battery_status_lookup data raw :
  lookup "battery_status"
    (EufyX10DebugBatterySensor.extra_state_attributes data raw) =
  match battery data with
  | Some battery =>
      Some (APy (VStr (if battery <=? 10 then "critical"
                       else if battery <=? 20 then "low"
                       else if battery <=? 50 then "medium"
                       else "high")))
  | None => None
  end.
Proof.
  unfold EufyX10DebugBatterySensor.extra_state_attributes.
  destruct (battery data) as [b|]; [|reflexivity].
  destruct (b <=? 10); [reflexivity|].
  destruct (b <=? 20); [reflexivity|].
  destruct (b <=? 50); reflexivity.
Qed.

(** The test [if raw_167] of the sensor changes nothing: the empty string
    decodes to no bytes at all. *)
Lemma byte_4_eq raw_167 :
  EufyX10DebugWaterTankSensor.byte_4 raw_167 =
  match raw_167 with
  | VStr s =>
      match b64decode s with
      | Ok binary_data =>
          if 4 <? py_len binary_data then
            (py_str_int (nth 4 binary_data 0),
             String.append "0x" (format_02x (nth 4 binary_data 0)))
          else ("N/A", "N/A")
      | Raise _ => ("N/A", "N/A")
      end
  | _ => ("N/A", "N/A")
  end.
Proof.
  unfold EufyX10DebugWaterTankSensor.byte_4.
  destruct raw_167 as [ |b|n|f|s|l|d]; try reflexivity.
  destruct s as [|c s]; [reflexivity|].
  change (py_bool (VStr (String c s))) with true. cbv iota.
  destruct (b64decode (String c s)) as [bs|e]; [|reflexivity].
  destruct (4 <? py_len bs) eqn:Hlen; [|reflexivity].
  change 4 with (Z.of_nat 4) at 1.
  rewrite list_getitem_nth by (unfold py_len in Hlen; lia).
  reflexivity.
Qed.

Lemma water_tank_attributes_lookup data raw :
  let attrs := EufyX10DebugWaterTankSensor.extra_state_attributes data raw in
  let info :=
    EufyX10DebugWaterTankSensor.byte_4 (dict_get_default "167" raw) in
  lookup "byte_4_decimal" attrs = Some (APy (VStr (fst info))) /\
  lookup "byte_4_hex" attrs = Some (APy (VStr (snd info))) /\
  lookup "tank_status" attrs =
    match water_tank data with
    | Some water =>
        Some (APy (VStr (if water <=? 10 then "empty"
                         else if water <=? 30 then "low"
                         else if water <=? 70 then "medium"
                         else "full")))
    | None => None
    end.
Proof.
  cbv zeta. unfold EufyX10DebugWaterTankSensor.extra_state_attributes.
  destruct (EufyX10DebugWaterTankSensor.byte_4 (dict_get_default "167" raw))
    as [info hex].
  destruct (water_tank data) as [w|]; [|repeat split; reflexivity].
  destruct (w <=? 10); [repeat split; reflexivity|].
  destruct (w <=? 30); [repeat split; reflexivity|].
  destruct (w <=? 70); repeat split; reflexivity.
Qed.

Lemma format_02x_byte b :
  0 <= b <= 255 -> String.length (format_02x b) = 2%nat.
Proof.
  intros H.
  pose proof
    (forallb_below
       (fun b => (String.length (format_02x b) =? 2)%nat)
       256 ltac:(vm_compute; reflexivity) b ltac:(lia)) as E.
  cbv beta in E. now apply Nat.eqb_eq in E.
Qed.

Lemma py_str_int_byte b :
  0 <= b <= 255 -> py_str_int b <> "N/A".
Proof.
  intros H.
  pose proof
    (forallb_below
       (fun b => negb (String.eqb (py_str_int b) "N/A"))
       256 ltac:(vm_compute; reflexivity) b ltac:(lia)) as E.
  cbv beta in E. apply negb_true_iff in E. now apply String.eqb_neq in E.
Qed.

Lemma byte_4_in_range s binary_data :
  b64decode s = Ok binary_data -> 4 < py_len binary_data ->
  0 <= nth 4 binary_data 0 <= 255.
Proof.
  intros E Hlen.
  pose proof (b64decode_is_bytes _ _ E) as Hbs.
  unfold is_bytes in Hbs. rewrite Forall_forall in Hbs.
  apply Hbs, nth_In. unfold py_len in Hlen. lia.
Qed.

(** X6. After a cycle that returns, the attribute [play_pause_state] of
    the work status sensor is "Unknown" exactly when the sample has no key
    152; with a value under the key it is "Playing" when the value is
    truthy and "Paused" otherwise (so for [None], [0], [""] and empty
    containers too). *)
Theorem X6_play_pause_state :
  forall (now : spec_float) (self : EufyX10DebugCoordinator),
    fst (_process_data now self) = Ok tt ->
    let self' := snd (_process_data now self) in
    let attrs :=
      EufyX10DebugWorkStatusSensor.extra_state_attributes
        (parsed_data self') (raw_data self') in
    (lookup "play_pause_state" attrs = Some (APy (VStr "Unknown")) <->
     dict_contains "152" (raw_data self') = false) /\
    (forall v, dict_get "152" (raw_data self') = Some v ->
       lookup "play_pause_state" attrs =
         Some (APy (VStr (if py_bool v then "Playing" else "Paused"))) /\
       lookup "raw_key_152_play_pause" attrs = Some (APy v)).
Proof.
  intros now self Hok self' attrs. subst attrs self'.
  destruct (process_data_frame now self) as (Hraw & _). rewrite Hraw.
  unfold EufyX10DebugWorkStatusSensor.extra_state_attributes.
  rewrite (final_play_pause _ _ Hok).
  generalize (parsed_data (snd (_process_data now self))). intros pd.
  generalize (dict_get_default "153" (raw_data self)). intros raw_153.
  unfold dict_get_default.
  destruct (dict_get "152" (raw_data self)) as [v|] eqn:E.
  - rewrite (dict_get_contains _ _ _ E). split.
    + split; [|discriminate]. cbn. destruct (py_bool v); discriminate.
    + intros v' [= <-]. split; [|reflexivity].
      cbn. destruct (py_bool v); reflexivity.
  - rewrite (dict_get_None_contains _ _ E). split.
    + split; reflexivity.
    + intros v' H. discriminate H.
Qed.

Lemma X6_play_pause_state_witness :
  lookup "play_pause_state"
    (EufyX10DebugWorkStatusSensor.extra_state_attributes
       (parsed_data
          (snd (_process_data (S754_zero false)
                  (coordinator_with [("152", VNone)]))))
       (raw_data
          (snd (_process_data (S754_zero false)
                  (coordinator_with [("152", VNone)]))))) =
  Some (APy (VStr "Paused")).
Proof.
  exact (proj1 (proj2 (X6_play_pause_state (S754_zero false)
                         (coordinator_with [("152", VNone)]) eq_refl)
                  VNone eq_refl)).
Defined.

(** X7. After a cycle that returns, the battery sensor grades the level
    by the number [int] makes of the value under key 163, not by the
    clamped level: for every value
    that [int] converts to [n] (an [int], a [bool], a finite [float],
    decimal text), the state is [n] clamped to [0..100] and
    [battery_status] is "critical" for [n <= 10], "low" for [n <= 20],
    "medium" for [n <= 50] and "high" above.  Without key 163, or with a
    value that [int] rejects, the sensor has no state and no
    [battery_status] attribute. *)
Theorem X7_battery_status :
  forall (now : spec_float) (self : EufyX10DebugCoordinator),
    fst (_process_data now self) = Ok tt ->
    let self' := snd (_process_data now self) in
    let state := EufyX10DebugBatterySensor.native_value (parsed_data self') in
    let attrs :=
      EufyX10DebugBatterySensor.extra_state_attributes
        (parsed_data self') (raw_data self') in
    (forall v n,
       dict_get "163" (raw_data self) = Some v -> py_int v = Ok n ->
       state = Some (Z.max 0 (Z.min 100 n)) /\
       lookup "battery_status" attrs =
         Some (APy (VStr (if n <=? 10 then "critical"
                          else if n <=? 20 then "low"
                          else if n <=? 50 then "medium"
                          else "high")))) /\
    ((dict_get "163" (raw_data self) = None \/
      exists v e, dict_get "163" (raw_data self) = Some v /\
                  py_int v = Raise e) ->
     state = None /\ lookup "battery_status" attrs = None).
Proof.
  intros now self _ self' state attrs. subst state attrs self'.
  rewrite battery_status_lookup.
  unfold EufyX10DebugBatterySensor.native_value.
  rewrite final_battery. split.
  - intros v n Hv Hn. rewrite Hv, Hn. split; [reflexivity|].
    do 2 f_equal. f_equal.
    destruct (Z.max 0 (Z.min 100 n) <=? 10) eqn:E1, (n <=? 10) eqn:F1;
      try lia; try reflexivity.
    destruct (Z.max 0 (Z.min 100 n) <=? 20) eqn:E2, (n <=? 20) eqn:F2;
      try lia; try reflexivity.
    destruct (Z.max 0 (Z.min 100 n) <=? 50) eqn:E3, (n <=? 50) eqn:F3;
      try lia; reflexivity.
  - intros [Hnone | (v & e & Hv & He)].
    + rewrite Hnone. split; reflexivity.
    + rewrite Hv, He. split; reflexivity.
Qed.

Lemma X7_battery_status_witness :
  lookup "battery_status"
    (EufyX10DebugBatterySensor.extra_state_attributes
       (parsed_data
          (snd (_process_data (S754_zero false)
                  (coordinator_with [("163", VInt (-7))]))))
       (raw_data
          (snd (_process_data (S754_zero false)
                  (coordinator_with [("163", VInt (-7))]))))) =
    Some (APy (VStr "critical")) /\
  lookup "battery_status"
    (EufyX10DebugBatterySensor.extra_state_attributes
       (parsed_data
          (snd (_process_data (S754_zero false)
                  (coordinator_with [("163", VNone)]))))
       (raw_data
          (snd (_process_data (S754_zero false)
                  (coordinator_with [("163", VNone)]))))) = None.
Proof.
  split.
  - exact (proj2 (proj1 (X7_battery_status (S754_zero false)
                           (coordinator_with [("163", VInt (-7))]) eq_refl)
                    (VInt (-7)) (-7) eq_refl eq_refl)).
  - apply (proj2 (X7_battery_status (S754_zero false)
                    (coordinator_with [("163", VNone)]) eq_refl)).
    right. exists VNone, TypeError. split; reflexivity.
Defined.

Lemma tank_grade_byte b :
  0 <= b <= 255 ->
  (if b * 100 / 255 <=? 10 then "empty"
   else if b * 100 / 255 <=? 30 then "low"
   else if b * 100 / 255 <=? 70 then "medium"
   else "full") =
  (if b <=? 28 then "empty"
   else if b <=? 79 then "low"
   else if b <=? 181 then "medium"
   else "full").
Proof.
  intros H.
  assert (H1 : (b * 100 / 255 <=? 10) = (b <=? 28)).
  { apply eq_true_iff_eq. rewrite !Z.leb_le.
    split; intros; Z.to_euclidean_division_equations; lia. }
  assert (H2 : (b * 100 / 255 <=? 30) = (b <=? 79)).
  { apply eq_true_iff_eq. rewrite !Z.leb_le.
    split; intros; Z.to_euclidean_division_equations; lia. }
  assert (H3 : (b * 100 / 255 <=? 70) = (b <=? 181)).
  { apply eq_true_iff_eq. rewrite !Z.leb_le.
    split; intros; Z.to_euclidean_division_equations; lia. }
  rewrite H1, H2, H3. reflexivity.
Qed.

(** X8. When the value under key 167 decodes to more than four bytes,
    the water tank sensor reports what byte 4 says, after a cycle that
    returns: its state is [b * 100 / 255] (the cap at 100 is never
    needed), [byte_4_decimal] is the byte in decimal, [byte_4_hex] is
    ["0x"] and exactly two hexadecimal digits, and [tank_status] is
    "empty" for a byte up to 28, "low" up to 79, "medium" up to 181 and
    "full" above. *)
Theorem X8_tank_status :
  forall (now : spec_float) (self : EufyX10DebugCoordinator)
         (s : string) (binary_data : list Z),
    fst (_process_data now self) = Ok tt ->
    dict_get "167" (raw_data self) = Some (VStr s) ->
    b64decode s = Ok binary_data ->
    4 < py_len binary_data ->
    let b := nth 4 binary_data 0 in
    let self' := snd (_process_data now self) in
    let attrs :=
      EufyX10DebugWaterTankSensor.extra_state_attributes
        (parsed_data self') (raw_data self') in
    EufyX10DebugWaterTankSensor.native_value (parsed_data self') =
      Some (b * 100 / 255) /\
    lookup "byte_4_decimal" attrs = Some (APy (VStr (py_str_int b))) /\
    lookup "byte_4_hex" attrs =
      Some (APy (VStr (String.append "0x" (format_02x b)))) /\
    String.length (format_02x b) = 2%nat /\
    lookup "tank_status" attrs =
      Some (APy (VStr (if b <=? 28 then "empty"
                       else if b <=? 79 then "low"
                       else if b <=? 181 then "medium"
                       else "full"))).
Proof.
  intros now self s bs Hok H167 Hdec Hlen b self' attrs. subst attrs self'.
  pose proof (byte_4_in_range _ _ Hdec Hlen) as Hb. fold b in Hb.
  destruct (process_data_frame now self) as (Hraw & _). rewrite Hraw.
  destruct (water_tank_attributes_lookup
              (parsed_data (snd (_process_data now self))) (raw_data self))
    as (Hd & Hx & Ht).
  rewrite Hd, Hx, Ht. clear Hd Hx Ht.
  unfold EufyX10DebugWaterTankSensor.native_value.
  rewrite (final_water_tank _ _ Hok), H167, Hdec.
  unfold dict_get_default. rewrite H167, byte_4_eq, Hdec.
  apply Z.ltb_lt in Hlen. rewrite Hlen. fold b. cbn [fst snd].
  assert (Hmin : Z.min 100 (b * 100 / 255) = b * 100 / 255).
  { apply Z.min_r. Z.to_euclidean_division_equations. lia. }
  rewrite Hmin, (tank_grade_byte b Hb).
  repeat split; try reflexivity. apply format_02x_byte, Hb.
Qed.

Lemma X8_tank_status_witness :
  lookup "tank_status"
    (EufyX10DebugWaterTankSensor.extra_state_attributes
       (parsed_data
          (snd (_process_data (S754_zero false)
                  (coordinator_with scenario_sample))))
       (raw_data
          (snd (_process_data (S754_zero false)
                  (coordinator_with scenario_sample))))) =
    Some (APy (VStr "full")) /\
  lookup "byte_4_hex"
    (EufyX10DebugWaterTankSensor.extra_state_attributes
       (parsed_data
          (snd (_process_data (S754_zero false)
                  (coordinator_with scenario_sample))))
       (raw_data
          (snd (_process_data (S754_zero false)
                  (coordinator_with scenario_sample))))) =
    Some (APy (VStr "0xd2")).
Proof.
  destruct (X8_tank_status (S754_zero false)
              (coordinator_with scenario_sample)
              (b64encode [0; 0; 0; 0; 210]) [0; 0; 0; 0; 210]
              eq_refl eq_refl eq_refl eq_refl) as (_ & _ & Hx & _ & Ht).
  split; [exact Ht|exact Hx].
Defined.

(** X9. After a cycle that returns, the water tank sensor is all or
    nothing: it has a state exactly when its attribute [byte_4_decimal]
    is not the placeholder "N/A", exactly when [byte_4_hex] is not, and
    exactly when it has a [tank_status] attribute.  The decoding that the
    sensor repeats on the raw sample never disagrees with the
    coordinator's. *)
Theorem X9_water_tank_all_or_nothing :
  forall (now : spec_float) (self : EufyX10DebugCoordinator),
    fst (_process_data now self) = Ok tt ->
    let self' := snd (_process_data now self) in
    let state :=
      EufyX10DebugWaterTankSensor.native_value (parsed_data self') in
    let attrs :=
      EufyX10DebugWaterTankSensor.extra_state_attributes
        (parsed_data self') (raw_data self') in
    (state = None <->
     lookup "byte_4_decimal" attrs = Some (APy (VStr "N/A"))) /\
    (state = None <->
     lookup "byte_4_hex" attrs = Some (APy (VStr "N/A"))) /\
    (state = None <-> lookup "tank_status" attrs = None).
Proof.
  intros now self Hok self' state attrs. subst state attrs self'.
  destruct (process_data_frame now self) as (Hraw & _). rewrite Hraw.
  destruct (water_tank_attributes_lookup
              (parsed_data (snd (_process_data now self))) (raw_data self))
    as (Hd & Hx & Ht).
  rewrite Hd, Hx, Ht. clear Hd Hx Ht.
  unfold EufyX10DebugWaterTankSensor.native_value.
  rewrite (final_water_tank _ _ Hok).
  unfold dict_get_default. rewrite byte_4_eq.
  generalize (parsed_data (snd (_process_data now self))). intros pd.
  destruct (dict_get "167" (raw_data self)) as [[ |b|n|f|s|l|d]|];
    try (repeat split; reflexivity).
  destruct (b64decode s) as [bs|e] eqn:Hdec;
    [|repeat split; reflexivity].
  destruct (4 <? py_len bs) eqn:Hlen; [|repeat split; reflexivity].
  apply Z.ltb_lt in Hlen.
  pose proof (byte_4_in_range _ _ Hdec Hlen) as Hb.
  cbn [fst snd]. split; [|split]; split; try discriminate.
  intros [= H]. elim (py_str_int_byte _ Hb H).
Qed.

Lemma X9_water_tank_all_or_nothing_witness :
  lookup "tank_status"
    (EufyX10DebugWaterTankSensor.extra_state_attributes
       (parsed_data
          (snd (_process_data (S754_zero false)
                  (coordinator_with [("167", VStr "AAAA")]))))
       (raw_data
          (snd (_process_data (S754_zero false)
                  (coordinator_with [("167", VStr "AAAA")]))))) = None.
Proof.
  apply (proj2 (proj2 (X9_water_tank_all_or_nothing (S754_zero false)
                         (coordinator_with [("167", VStr "AAAA")])
                         eq_refl))).
  reflexivity.
Defined.

(** X10. [base64.b64decode] is called without [validate], so the water
    tank decoder looks at the base64 digits and pads of the value under
    key 167 only: line breaks, blanks and any other ASCII characters in
    between change nothing.  Two cycles that return, on samples whose
    values under key 167 are an ASCII string and the same string without
    such characters, give the same water tank level, and the sensor shows
    the same byte 4. *)
Theorem X10_base64_noise_ignored :
  forall (now1 now2 : spec_float) (self1 self2 : EufyX10DebugCoordinator)
         (s : string),
    is_ascii s = true ->
    dict_get "167" (raw_data self1) = Some (VStr s) ->
    dict_get "167" (raw_data self2) = Some (VStr (strip_noise s)) ->
    fst (_process_data now1 self1) = Ok tt ->
    fst (_process_data now2 self2) = Ok tt ->
    water_tank (parsed_data (snd (_process_data now1 self1))) =
      water_tank (parsed_data (snd (_process_data now2 self2))) /\
    EufyX10DebugWaterTankSensor.byte_4 (VStr s) =
      EufyX10DebugWaterTankSensor.byte_4 (VStr (strip_noise s)).
Proof.
  intros now1 now2 self1 self2 s Hs H1 H2 Hok1 Hok2.
  rewrite (final_water_tank _ _ Hok1), (final_water_tank _ _ Hok2).
  rewrite H1, H2, !byte_4_eq, (b64decode_strip_noise s Hs).
  split; reflexivity.
Qed.

Lemma X10_base64_noise_ignored_witness :
  strip_noise "AA AA-AN I=." = "AAAAANI=" /\
  water_tank
    (parsed_data
       (snd (_process_data (S754_zero false)
               (coordinator_with [("167", VStr "AA AA-AN I=.")])))) =
  water_tank
    (parsed_data
       (snd (_process_data (S754_zero false)
               (coordinator_with [("167", VStr "AAAAANI=")])))).
Proof.
  split; [reflexivity|].
  exact (proj1 (X10_base64_noise_ignored (S754_zero false) (S754_zero false)
                  (coordinator_with [("167", VStr "AA AA-AN I=.")])
                  (coordinator_with [("167", VStr "AAAAANI=")])
                  "AA AA-AN I=." eq_refl eq_refl eq_refl eq_refl eq_refl)).
Defined.

(** X11. A battery level that arrives as decimal text is read like the
    number: with [str(n)] under key 163, for any integer [n] whose text
    has at most 4300 digits (the limit of [int] on strings), the cycle
    returns and the battery is [n] clamped to [0..100]. *)
Theorem X11_battery_from_decimal_text :
  forall (now : spec_float) (self : EufyX10DebugCoordinator) (n : Z),
    (String.length (py_str_int (Z.abs n)) <= max_str_digits)%nat ->
    dict_get "163" (raw_data self) = Some (VStr (py_str_int n)) ->
    fst (_process_data now self) = Ok tt /\
    battery (parsed_data (snd (_process_data now self))) =
      Some (Z.max 0 (Z.min 100 n)).
Proof.
  intros now self n Hlen H163. split.
  - rewrite process_data_outcome, H163. reflexivity.
  - rewrite final_battery, H163, (py_int_py_str_int n Hlen). reflexivity.
Qed.

Lemma X11_battery_from_decimal_text_witness :
  py_str_int 250 = "250" /\
  battery
    (parsed_data
       (snd (_process_data (S754_zero false)
               (coordinator_with [("163", VStr "250")])))) = Some 100.
Proof.
  split; [reflexivity|].
  apply (X11_battery_from_decimal_text (S754_zero false)
           (coordinator_with [("163", VStr "250")]) 250).
  - change (3 <= max_str_digits)%nat. unfold max_str_digits. lia.
  - reflexivity.
Defined.

(** *** Attribute dicts *)

Lemma lookup_setitem_other {V : Type} (d : list (string * V)) key k v :
  k <> key -> lookup k (setitem d key v) = lookup k d.
Proof.
  intros Hne. induction d as [|[k' w] d IH]; cbn [setitem lookup].
  - destruct (String.eqb k key) eqn:E; [|reflexivity].
    apply String.eqb_eq in E. contradiction.
  - destruct (String.eqb key k') eqn:E; cbn [lookup].
    + apply String.eqb_eq in E. subst k'.
      destruct (String.eqb k key) eqn:E'; [|reflexivity].
      apply String.eqb_eq in E'. contradiction.
    + rewrite IH. reflexivity.
Qed.

Lemma length_setitem {V : Type} (d : list (string * V)) key v :
  (List.length (setitem d key v) <= S (List.length d))%nat.
Proof.
  induction d as [|[k' w] d IH]; cbn [setitem List.length]; [lia|].
  destruct (String.eqb key k'); cbn [List.length]; lia.
Qed.

Lemma In_setitem {V : Type} (d : list (string * V)) key v k x :
  In (k, x) (setitem d key v) -> In (k, x) d \/ x = v.
Proof.
  induction d as [|[k' w] d IH]; cbn [setitem].
  - intros [[= _ <-]|[]]. now right.
  - destruct (String.eqb key k').
    + intros [[= _ <-]|H]; [now right|left; now right].
    + intros [H|H]; [left; now left|].
      destruct (IH H) as [H'|H']; [left; now right|now right].
Qed.

Lemma length_append s1 s2 :
  String.length (String.append s1 s2) =
  (String.length s1 + String.length s2)%nat.
Proof. induction s1 as [|c s1 IH]; cbn; [reflexivity|now rewrite IH]. Qed.

Lemma length_str_prefix n s : (String.length (str_prefix n s) <= n)%nat.
Proof.
  unfold str_prefix. revert s.
  induction n as [|n IH]; intros s; destruct s as [|c s]; cbn; try lia.
  specialize (IH s). lia.
Qed.

(** One turn of the loop writes one attribute, under a key that starts
    with ["raw_"], holding the value or a preview of 18 characters. *)
Lemma add_raw_item_eq attrs key value :
  exists name v,
    EufyX10DebugRawDataSensor.add_raw_item attrs (key, value) =
      setitem attrs (String.append "raw_" name) v /\
    (name = key \/ name = String.append key "_preview") /\
    (forall s, v = APy (VStr s) -> str_len s <= 20).
Proof.
  unfold EufyX10DebugRawDataSensor.add_raw_item.
  destruct value as [ |b|n|f|s|l|d];
    try (eexists; eexists; split; [reflexivity|];
         split; [now left|]; intros s' H; discriminate H).
  destruct (20 <? str_len s) eqn:E.
  - eexists; eexists; split; [reflexivity|]. split; [now right|].
    intros s' [= <-]. unfold str_len. rewrite length_append.
    pose proof (length_str_prefix 15 s). cbn [String.length]. lia.
  - eexists; eexists; split; [reflexivity|]. split; [now left|].
    intros s' [= <-]. lia.
Qed.

Lemma raw_name_base name :
  String.append "raw_" name <> "total_keys" /\
  String.append "raw_" name <> "last_update" /\
  String.append "raw_" name <> "update_count".
Proof. repeat split; discriminate. Qed.

Lemma raw_name_data_keys key name :
  name = key \/ name = String.append key "_preview" ->
  String.append "raw_" name = "raw_data_keys" -> key = "data_keys".
Proof.
  intros [-> | ->] H; cbn in H; injection H as H; [exact H|].
  exfalso.
  do 10 (destruct key as [|? key]; cbn in H;
         [discriminate H|try discriminate H; injection H as _ H]).
Qed.

Lemma raw_items_loop items : forall attrs,
  let attrs' :=
    fold_left EufyX10DebugRawDataSensor.add_raw_item items attrs in
  lookup "total_keys" attrs' = lookup "total_keys" attrs /\
  lookup "last_update" attrs' = lookup "last_update" attrs /\
  lookup "update_count" attrs' = lookup "update_count" attrs /\
  (List.length attrs' <= List.length attrs + List.length items)%nat /\
  ((forall k s, In (k, APy (VStr s)) attrs -> str_len s <= 20) ->
   forall k s, In (k, APy (VStr s)) attrs' -> str_len s <= 20) /\
  (~ In "data_keys" (map fst items) ->
   lookup "raw_data_keys" attrs' = lookup "raw_data_keys" attrs).
Proof.
  induction items as [|[key value] items IH]; intros attrs; cbv zeta.
  - cbn [fold_left List.length]. repeat split; auto. lia.
  - cbn [fold_left].
    destruct (add_raw_item_eq attrs key value) as (name & v & -> & Hn & Hv).
    destruct (raw_name_base name) as (N1 & N2 & N3).
    destruct (IH (setitem attrs (String.append "raw_" name) v))
      as (H1 & H2 & H3 & H4 & H5 & H6).
    rewrite H1, H2, H3.
    rewrite !lookup_setitem_other by (intros E; symmetry in E; contradiction).
    split; [reflexivity|]. split; [reflexivity|]. split; [reflexivity|].
    split; [|split].
    + pose proof (length_setitem attrs (String.append "raw_" name) v).
      cbn [List.length]. lia.
    + intros Hattrs. apply H5. intros k s Hin.
      destruct (In_setitem _ _ _ _ _ Hin) as [Hold|Hnew];
        [exact (Hattrs k s Hold)|exact (Hv s (eq_sym Hnew))].
    + intros Hno. cbn [map fst In] in Hno.
      rewrite H6 by (intros Hin; apply Hno; now right).
      apply lookup_setitem_other. intros E.
      apply Hno. left. symmetry in E.
      exact (raw_name_data_keys key name Hn E).
Qed.

(** X12. The attributes of the raw data sensor, for any sample and any
    snapshot.  The loop over the sample writes under names that start
    with ["raw_"] only, so [total_keys], [last_update] and [update_count]
    keep the values they were given; [raw_data_keys] keeps the key list
    provided that none of the first 20 keys of the sample is
    ["data_keys"] (whose attribute name would be ["raw_data_keys"] too).
    There are at most 24 attributes, and no attribute holds a string of
    more than 20 characters. *)
Theorem X12_raw_data_attributes :
  forall (data : ParsedData) (raw_data : pydict),
    let attrs :=
      EufyX10DebugRawDataSensor.extra_state_attributes data raw_data in
    lookup "total_keys" attrs = Some (APy (VInt (py_len raw_data))) /\
    lookup "last_update" attrs = Some (APy (VFloat (pd_last_update data))) /\
    lookup "update_count" attrs = Some (APy (VInt (pd_update_count data))) /\
    (List.length attrs <= 24)%nat /\
    (forall k s, In (k, APy (VStr s)) attrs -> str_len s <= 20) /\
    (~ In "data_keys" (firstn 20 (dict_keys raw_data)) ->
     lookup "raw_data_keys" attrs =
       Some (APy (VList (map VStr (dict_keys raw_data))))).
Proof.
  intros data raw attrs. subst attrs.
  unfold EufyX10DebugRawDataSensor.extra_state_attributes.
  match goal with
  | |- context [fold_left _ _ ?a] =>
      destruct (raw_items_loop (firstn 20 raw) a)
        as (H1 & H2 & H3 & H4 & H5 & H6)
  end.
  rewrite H1, H2, H3.
  split; [reflexivity|]. split; [reflexivity|]. split; [reflexivity|].
  split; [|split].
  - pose proof (firstn_le_length 20 raw). cbn [List.length] in H4. lia.
  - apply H5. intros k s Hin. cbn [In] in Hin.
    destruct Hin as [H|[H|[H|[H|[]]]]]; discriminate H.
  - intros Hno. rewrite H6; [reflexivity|].
    unfold dict_keys in Hno. rewrite firstn_map in Hno. exact Hno.
Qed.

Lemma X12_raw_data_attributes_witness :
  lookup "raw_data_keys"
    (EufyX10DebugRawDataSensor.extra_state_attributes empty_parsed_data
       scenario_sample) =
  Some (APy (VList (map VStr (dict_keys scenario_sample)))).
Proof.
  apply (proj2 (proj2 (proj2 (proj2 (proj2
           (X12_raw_data_attributes empty_parsed_data scenario_sample)))))).
  cbn. intros H. repeat destruct H as [H|H]; try discriminate H. exact H.
Defined.

Lemma filter_length_split {A : Type} (f : A -> bool) (l : list A) :
  (List.length (filter f l) + List.length (filter (fun x => negb (f x)) l) =
   List.length l)%nat.
Proof.
  induction l as [|x l IH]; cbn [filter]; [reflexivity|].
  destruct (f x); cbn [negb List.length]; lia.
Qed.

Lemma monitoring_text found :
  0 <= found <= 12 ->
  (String.append (py_str_int found) "/12" = "12/12" <-> found = 12) /\
  (String.append (py_str_int found) "/12" = "0/12" <-> found = 0).
Proof.
  intros H.
  pose proof
    (forallb_below
       (fun k =>
          Bool.eqb (String.eqb (String.append (py_str_int k) "/12") "12/12")
                   (k =? 12)
          && Bool.eqb (String.eqb (String.append (py_str_int k) "/12") "0/12")
                      (k =? 0))
       13 ltac:(vm_compute; reflexivity) found ltac:(lia)) as E.
  cbv beta in E. apply andb_prop in E as [E1 E2].
  apply eqb_prop in E1, E2. split.
  - rewrite <- String.eqb_eq, E1. apply Z.eqb_eq.
  - rewrite <- String.eqb_eq, E2. apply Z.eqb_eq.
Qed.

(** X13. The state of the monitoring sensor after a cycle that returns:
    the found and the missing keys add up to the twelve monitored keys, the state reads "12/12" exactly when no monitored key is
    missing from the sample, and "0/12" exactly when none is found. *)
Theorem X13_monitoring_state :
  forall (now : spec_float) (self : EufyX10DebugCoordinator),
    fst (_process_data now self) = Ok tt ->
    let pd := parsed_data (snd (_process_data now self)) in
    py_len (monitored_keys_found pd) + py_len (monitored_keys_missing pd) =
      12 /\
    (EufyX10DebugMonitoringSensor.native_value pd = "12/12" <->
     monitored_keys_missing pd = []) /\
    (EufyX10DebugMonitoringSensor.native_value pd = "0/12" <->
     monitored_keys_found pd = []).
Proof.
  intros now self _ pd. subst pd.
  destruct (final_bookkeeping now self) as (Hf & Hm & _).
  unfold EufyX10DebugMonitoringSensor.native_value.
  generalize dependent (parsed_data (snd (_process_data now self))).
  intros pd Hf Hm.
  pose proof (filter_length_split
                (fun k => dict_contains k (raw_data self)) MONITORED_KEYS)
    as Hlen.
  rewrite <- Hf, <- Hm in Hlen. change (List.length MONITORED_KEYS) with 12%nat in Hlen.
  unfold py_len in *.
  change (py_str_int (Z.of_nat (List.length MONITORED_KEYS))) with "12".
  destruct (monitoring_text
              (Z.of_nat (List.length (monitored_keys_found pd))))
    as [H12 H0]; [lia|].
  change (String.append "/" "12") with "/12".
  rewrite H12, H0. split; [lia|]. split.
  - rewrite <- length_zero_iff_nil. lia.
  - rewrite <- length_zero_iff_nil. lia.
Qed.

Lemma X13_monitoring_state_witness :
  EufyX10DebugMonitoringSensor.native_value
    (parsed_data
       (snd (_process_data (S754_zero false) (coordinator_with [])))) =
  "0/12".
Proof.
  apply (proj2 (proj2 (X13_monitoring_state (S754_zero false)
                         (coordinator_with []) eq_refl))).
  reflexivity.
Defined.

(** X14. What the sensors show after an update with the mock fetch, for
    any draws that [random.randint(80, 95)] and [random.randint(0, 3)] can
    return and any earlier state: the battery sensor shows the drawn level
    and grades it "high"; the water tank sensor shows 1 percent, byte 4 as
    "5" and "0x05", and grades the tank "empty"; the work status sensor
    reports "Playing"; the raw data sensor counts 13 keys and the
    monitoring sensor reads "12/12". *)
Theorem X14_mock_sensors :
  forall (t : tick) (self : EufyX10DebugCoordinator),
    valid_tick t ->
    let self' := snd (update_with t self) in
    let data := parsed_data self' in
    let raw_data := raw_data self' in
    EufyX10DebugBatterySensor.native_value data = Some (tick_battery t) /\
    lookup "battery_status"
      (EufyX10DebugBatterySensor.extra_state_attributes data raw_data) =
      Some (APy (VStr "high")) /\
    EufyX10DebugWaterTankSensor.native_value data = Some 1 /\
    lookup "byte_4_decimal"
      (EufyX10DebugWaterTankSensor.extra_state_attributes data raw_data) =
      Some (APy (VStr "5")) /\
    lookup "byte_4_hex"
      (EufyX10DebugWaterTankSensor.extra_state_attributes data raw_data) =
      Some (APy (VStr "0x05")) /\
    lookup "tank_status"
      (EufyX10DebugWaterTankSensor.extra_state_attributes data raw_data) =
      Some (APy (VStr "empty")) /\
    EufyX10DebugWorkStatusSensor.native_value data = Some "cleaning" /\
    lookup "play_pause_state"
      (EufyX10DebugWorkStatusSensor.extra_state_attributes data raw_data) =
      Some (APy (VStr "Playing")) /\
    EufyX10DebugRawDataSensor.native_value raw_data = "13" /\
    EufyX10DebugMonitoringSensor.native_value data = "12/12".
Proof.
  intros t self Hv self' data raw. subst data raw self'.
  destruct (update_with_snapshot t self Hv)
    as ((_ & Hbat & _ & _ & Hws & Hpp & Hwt & Hfound & _) & H167 & Hlen).
  destruct Hv as [Hb _].
  generalize dependent (snd (update_with t self)). intros s2.
  generalize (parsed_data s2) (raw_data s2). intros data raw.
  intros Hbat Hws Hpp Hwt Hfound H167 Hlen.
  destruct (water_tank_attributes_lookup data raw) as (Hd & Hx & Ht).
  rewrite battery_status_lookup, Hd, Hx, Ht, H167. clear Hd Hx Ht.
  unfold EufyX10DebugBatterySensor.native_value,
    EufyX10DebugWaterTankSensor.native_value,
    EufyX10DebugWorkStatusSensor.native_value,
    EufyX10DebugRawDataSensor.native_value,
    EufyX10DebugMonitoringSensor.native_value,
    EufyX10DebugWorkStatusSensor.extra_state_attributes.
  rewrite Hbat, Hws, Hpp, Hwt, Hfound, Hlen.
  split; [reflexivity|]. split.
  { destruct (tick_battery t <=? 10) eqn:E1; [lia|].
    destruct (tick_battery t <=? 20) eqn:E2; [lia|].
    destruct (tick_battery t <=? 50) eqn:E3; [lia|reflexivity]. }
  repeat split; reflexivity.
Qed.

Lemma X14_mock_sensors_witness :
  valid_tick (mkTick 1700000000 93 1 (S754_zero false) (S754_zero false)) /\
  lookup "battery_status"
    (EufyX10DebugBatterySensor.extra_state_attributes
       (parsed_data
          (snd (update_with
                  (mkTick 1700000000 93 1 (S754_zero false) (S754_zero false))
                  (coordinator_with []))))
       (raw_data
          (snd (update_with
                  (mkTick 1700000000 93 1 (S754_zero false) (S754_zero false))
                  (coordinator_with []))))) =
    Some (APy (VStr "high")).
Proof.
  assert (Hv : valid_tick
                 (mkTick 1700000000 93 1 (S754_zero false) (S754_zero false)))
    by (unfold valid_tick; simpl; lia).
  split; [exact Hv|].
  exact (proj1 (proj2 (X14_mock_sensors _ (coordinator_with []) Hv))).
Defined.

(** X15. A failed update is not rolled back.  When the fetch returns a
    sample whose battery value is an infinite float, [_async_update_data]
    raises [UpdateFailed], and [self.parsed_data] is left as the cycle
    built it before the battery decoder raised: the key lists, the raw
    keys and the sequence number of the new sample, with all five decoded
    fields absent, although the other four keys may hold decodable
    values.  The update counter keeps its increment. *)
Theorem X15_failed_update_state :
  forall (fetch : M unit) (now now' : spec_float)
         (self s1 : EufyX10DebugCoordinator) (sgn : bool),
    fetch (mkCoordinator (device_id self) (debug_mode self) (raw_data self)
             (parsed_data self) (last_update self) (update_count self + 1)) =
      (Ok tt, s1) ->
    dict_get "163" (raw_data s1) = Some (VFloat (S754_infinity sgn)) ->
    let result := _async_update_data fetch now now' self in
    let pd := parsed_data (snd result) in
    fst result = inr (mkUpdateFailed OverflowError) /\
    battery pd = None /\ water_tank pd = None /\ clean_speed pd = None /\
    work_status pd = None /\ play_pause pd = None /\
    monitored_keys_found pd =
      filter (fun k => dict_contains k (raw_data s1)) MONITORED_KEYS /\
    raw_keys pd = dict_keys (raw_data s1) /\
    pd_update_count pd = update_count s1 /\
    update_count (snd result) = update_count s1.
Proof.
  intros fetch now now' self s1 sgn Hf Hinf result pd. subst pd result.
  rewrite (async_update_data_fetched _ _ _ _ _ Hf).
  pose proof (process_data_outcome now s1) as Ho. rewrite Hinf in Ho.
  assert (Hraise : fst (_process_data now s1) <> Ok tt)
    by (rewrite Ho; discriminate).
  destruct (process_data_raise_unset _ _ Hraise) as (Hw & Hc & Hs & Hp).
  pose proof (final_battery now s1) as Hb. rewrite Hinf in Hb.
  cbn [py_int int_of_float] in Hb.
  destruct (final_bookkeeping now s1) as (Hfound & _ & Hkeys & Hcnt & _).
  destruct (process_data_frame now s1) as (_ & Hcnt' & _).
  destruct (_process_data now s1) as [[[]|e] s2];
    cbn [fst snd] in *; [discriminate Ho|].
  injection Ho as ->. repeat split; assumption.
Qed.

Lemma X15_failed_update_state_witness :
  clean_speed
    (parsed_data
       (snd (_async_update_data
               (fun s => (Ok tt, with_raw_data overflow_sample s))
               (S754_zero false) (S754_zero false)
               (coordinator_with scenario_sample)))) = None /\
  update_count
    (snd (_async_update_data
            (fun s => (Ok tt, with_raw_data overflow_sample s))
            (S754_zero false) (S754_zero false)
            (coordinator_with scenario_sample))) = 1.
Proof.
  destruct (X15_failed_update_state
              (fun s => (Ok tt, with_raw_data overflow_sample s))
              (S754_zero false) (S754_zero false)
              (coordinator_with scenario_sample) _ false eq_refl eq_refl)
    as (_ & _ & _ & Hc & _ & _ & _ & _ & _ & Hn).
  split; [exact Hc|exact Hn].
Defined.

(** X16. The water tank level follows byte 4 monotonically.  Of two
    cycles that return, on samples whose values under key 167 decode to
    more than four bytes, the one with the larger byte 4 never shows the
    lower level; the level is 100 for byte 255 only and 0 for the bytes 0,
    1 and 2 only. *)
Theorem X16_water_tank_monotone :
  forall (now1 now2 : spec_float) (self1 self2 : EufyX10DebugCoordinator)
         (s1 s2 : string) (bytes1 bytes2 : list Z),
    fst (_process_data now1 self1) = Ok tt ->
    fst (_process_data now2 self2) = Ok tt ->
    dict_get "167" (raw_data self1) = Some (VStr s1) ->
    dict_get "167" (raw_data self2) = Some (VStr s2) ->
    b64decode s1 = Ok bytes1 -> 4 < py_len bytes1 ->
    b64decode s2 = Ok bytes2 -> 4 < py_len bytes2 ->
    nth 4 bytes1 0 <= nth 4 bytes2 0 ->
    exists level1 level2,
      water_tank (parsed_data (snd (_process_data now1 self1))) =
        Some level1 /\
      water_tank (parsed_data (snd (_process_data now2 self2))) =
        Some level2 /\
      level1 <= level2 /\
      (level2 = 100 <-> nth 4 bytes2 0 = 255) /\
      (level1 = 0 <-> nth 4 bytes1 0 <= 2).
Proof.
  intros now1 now2 self1 self2 s1 s2 bs1 bs2 Hok1 Hok2 H1 H2
    Hd1 Hl1 Hd2 Hl2 Hle.
  pose proof (byte_4_in_range _ _ Hd1 Hl1) as Hb1.
  pose proof (byte_4_in_range _ _ Hd2 Hl2) as Hb2.
  rewrite (final_water_tank _ _ Hok1), (final_water_tank _ _ Hok2).
  rewrite H1, H2, Hd1, Hd2.
  apply Z.ltb_lt in Hl1, Hl2. rewrite Hl1, Hl2.
  eexists. eexists. split; [reflexivity|]. split; [reflexivity|].
  generalize dependent (nth 4 bs1 0). generalize dependent (nth 4 bs2 0).
  intros b2 Hb2 b1 Hle Hb1.
  repeat split; intros; Z.to_euclidean_division_equations; lia.
Qed.

Lemma X16_water_tank_monotone_witness :
  exists level1 level2,
    water_tank
      (parsed_data
         (snd (_process_data (S754_zero false)
                 (coordinator_with
                    [("167", VStr (b64encode [9; 9; 9; 9; 2; 9]))])))) =
      Some level1 /\
    water_tank
      (parsed_data
         (snd (_process_data (S754_zero false)
                 (coordinator_with scenario_sample)))) = Some level2 /\
    level1 <= level2 /\
    (level2 = 100 <-> 210 = 255) /\
    (level1 = 0 <-> 2 <= 2).
Proof.
  apply (X16_water_tank_monotone (S754_zero false) (S754_zero false)
           (coordinator_with [("167", VStr (b64encode [9; 9; 9; 9; 2; 9]))])
           (coordinator_with scenario_sample)
           (b64encode [9; 9; 9; 9; 2; 9]) (b64encode [0; 0; 0; 0; 210])
           [9; 9; 9; 9; 2; 9] [0; 0; 0; 0; 210]);
    try reflexivity.
  simpl. lia.
Defined.
